(** * oclif upload and promote: storage keys and orchestration

    A shallow embedding of the key builder ([upload-util]: [commitAWSDir],
    [channelAWSDir], [templateShortKey], [s3Keys], [debArch], [debVersion]),
    of the upload command ([UploadTarballs.run]) and of the promote command
    ([Promote.run]).  Strings are [string]; a function that can throw returns
    a [result]; the commands are recorded as the calls they make to the
    storage client, the index helper and the logger, together with the way
    their promise settles.  The local file system and the storage client,
    which the commands only consume, are parameters. *)

From Stdlib Require Import String Ascii List Bool Arith Lia.
Import ListNotations.
Open Scope list_scope.
Open Scope string_scope.

(* ================================================================== *)
(** ** Errors *)

(** What a [throw] carries: a plain [Error], the [ReferenceError] of a template
    variable that is not bound, and the CLI error of [this.error] with its
    suggestions. *)
Inductive error : Type :=
| Error (msg : string)
| ReferenceError (msg : string)
| CLIError (msg : string) (suggestions : list string).

Inductive result (A : Type) : Type :=
| Ok (a : A)
| Throw (e : error).
Arguments Ok {A} a.
Arguments Throw {A} e.

Definition bind {A B} (m : result A) (k : A -> result B) : result B :=
  match m with
  | Ok a => k a
  | Throw e => Throw e
  end.

Notation "x <- m ;; k" := (bind m (fun x => k))
  (at level 61, m at next level, right associativity).

Fixpoint mapM {A B} (f : A -> result B) (l : list A) : result (list B) :=
  match l with
  | [] => Ok []
  | a :: l' => b <- f a ;; bs <- mapM f l' ;; Ok (b :: bs)
  end.

(* ================================================================== *)
(** ** JavaScript string built-ins used by the sources *)

Module JS.

(** [s.slice(n)] for [0 <= n]. *)
Fixpoint drop (n : nat) (s : string) : string :=
  match n, s with
  | O, _ => s
  | S _, EmptyString => EmptyString
  | S n', String _ s' => drop n' s'
  end.

(** [s.startsWith(p)]. *)
Fixpoint startsWith (p s : string) : bool :=
  match p, s with
  | EmptyString, _ => true
  | String _ _, EmptyString => false
  | String a p', String b s' => Ascii.eqb a b && startsWith p' s'
  end.

(** [s.replace(pat, repl)] with a string pattern: only the first occurrence
    of [pat] is replaced.  The sources only pass the replacement [''], so the
    [$]-patterns of a replacement string never come into play. *)
Fixpoint replace (pat repl s : string) {struct s} : string :=
  if startsWith pat s then repl ++ drop (String.length pat) s
  else match s with
       | EmptyString => EmptyString
       | String c s' => String c (replace pat repl s')
       end.

(** [s.includes(pat)]. *)
Fixpoint includes (pat s : string) {struct s} : bool :=
  startsWith pat s ||
  match s with
  | EmptyString => false
  | String _ s' => includes pat s'
  end.

(** [s.split(sep)] for a one-character separator: never empty. *)
Fixpoint split (sep : ascii) (s : string) : list string :=
  match s with
  | EmptyString => [EmptyString]
  | String c s' =>
      if Ascii.eqb c sep then EmptyString :: split sep s'
      else match split sep s' with
           | [] => [String c EmptyString]
           | seg :: segs => String c seg :: segs
           end
  end.

(** [s.split(sep)[0]]. *)
Definition split0 (sep : ascii) (s : string) : string :=
  hd EmptyString (split sep s).

(** [s.slice(-1)]: the last character, or [''] for the empty string. *)
Fixpoint slice_last (s : string) : string :=
  match s with
  | EmptyString => EmptyString
  | String c EmptyString => String c EmptyString
  | String _ s' => slice_last s'
  end.

(** [segs.join(sep)]. *)
Fixpoint join (sep : string) (segs : list string) : string :=
  match segs with
  | [] => EmptyString
  | [s] => s
  | s :: segs' => s ++ sep ++ join sep segs'
  end.

(** [a || b] on a possibly undefined string: [undefined] and [''] are falsy. *)
Definition or_else (a : option string) (b : string) : string :=
  match a with
  | None => b
  | Some EmptyString => b
  | Some s => s
  end.

(** [a ?? b]: only [undefined] falls through. *)
Definition nullish (a : option string) (b : string) : string :=
  match a with
  | None => b
  | Some s => s
  end.

(** [Boolean(x)] of a possibly undefined string. *)
Definition truthy (a : option string) : bool :=
  match a with
  | None => false
  | Some EmptyString => false
  | Some _ => true
  end.

End JS.

(* ================================================================== *)
(** ** [node:path], POSIX flavour

    Node scans a path character by character; the model works on the
    segments between the separators, which is what that scan computes. *)

Module Path.

Definition slash : ascii := "/"%char.

Definition nonempty (s : string) : bool :=
  match s with EmptyString => false | _ => true end.

(** One step of [normalizeString]: the segments kept so far are held in
    reverse.  Empty and ["."] segments vanish; [".."] removes the segment
    before it, unless there is none or it is itself [".."], in which case it
    is kept when the path is relative. *)
Definition norm_step (allowAboveRoot : bool) (rstack : list string) (seg : string)
  : list string :=
  if (seg =? "")%string || (seg =? ".")%string then rstack
  else if (seg =? "..")%string then
    match rstack with
    | top :: rest =>
        if (top =? "..")%string
        then (if allowAboveRoot then seg :: rstack else rstack)
        else rest
    | [] => if allowAboveRoot then [seg] else []
    end
  else seg :: rstack.

Definition normalizeString (path : string) (allowAboveRoot : bool) : string :=
  JS.join "/" (rev (fold_left (norm_step allowAboveRoot) (JS.split slash path) [])).

(** [path.posix.normalize]. *)
Definition normalize (path : string) : string :=
  if (String.length path =? 0)%nat then "."
  else
    let isAbsolute := JS.startsWith "/" path in
    let trailingSeparator := (JS.slice_last path =? "/")%string in
    let path := normalizeString path (negb isAbsolute) in
    if (String.length path =? 0)%nat then
      if isAbsolute then "/" else if trailingSeparator then "./" else "."
    else
      let path := if trailingSeparator then path ++ "/" else path in
      if isAbsolute then "/" ++ path else path.

(** [path.posix.join(...args)]. *)
Definition join (args : list string) : string :=
  match filter nonempty args with
  | [] => "."
  | parts => normalize (JS.join "/" parts)
  end.

(** [path.basename(p)] without a suffix: the last non-empty segment, trailing
    separators ignored; [''] when there is none. *)
Definition basename (p : string) : string :=
  last (filter nonempty (JS.split slash p)) EmptyString.

End Path.

(* ================================================================== *)
(** ** [ejs.render] for templates made of text and [<%- name %>] tags

    The built-in templates use the unescaped output tag only, each around one
    variable name. *)

Module Ejs.

Inductive piece : Type :=
| Lit (s : string)
| Out (name : string).

Definition isSpace (c : ascii) : bool := Ascii.eqb c " "%char.

Fixpoint ltrim (s : string) : string :=
  match s with
  | String c s' => if isSpace c then ltrim s' else s
  | EmptyString => EmptyString
  end.

Fixpoint rtrim (s : string) : string :=
  match s with
  | EmptyString => EmptyString
  | String c s' =>
      match rtrim s' with
      | EmptyString => if isSpace c then EmptyString else String c EmptyString
      | r => String c r
      end
  end.

(** The text before the closing delimiter and the text after it. *)
Fixpoint untilClose (s : string) : string * string :=
  match s with
  | EmptyString => (EmptyString, EmptyString)
  | String c s' =>
      if JS.startsWith "%>" s then (EmptyString, JS.drop 2 s)
      else let (body, rest) := untilClose s' in (String c body, rest)
  end.

Definition flush (lit : string) : list piece :=
  match lit with
  | EmptyString => []
  | _ => [Lit lit]
  end.

Fixpoint parse (fuel : nat) (lit : string) (t : string) : list piece :=
  match fuel with
  | O => flush lit
  | S fuel' =>
      if JS.startsWith "<%-" t then
        let (body, rest) := untilClose (JS.drop 3 t) in
        (flush lit ++ Out (rtrim (ltrim body)) :: parse fuel' EmptyString rest)%list
      else
        match t with
        | EmptyString => flush lit
        | String c t' => parse fuel' (lit ++ String c EmptyString) t'
        end
  end.

Definition compile (template : string) : list piece :=
  parse (S (String.length template)) EmptyString template.

(** A tag prints the value its name is bound to in the locals; a name that
    is not bound is a [ReferenceError]. *)
Fixpoint emit (locals : string -> option string) (ps : list piece) : result string :=
  match ps with
  | [] => Ok EmptyString
  | Lit s :: ps' => r <- emit locals ps' ;; Ok (s ++ r)
  | Out name :: ps' =>
      match locals name with
      | Some v => r <- emit locals ps' ;; Ok (v ++ r)
      | None => Throw (ReferenceError (name ++ " is not defined"))
      end
  end.

(** The renderer rethrows what the compiled template throws with the place
    of the error before the message: [ejs:<line>], the lines around it with
    their numbers, the current one marked, and an empty line.  The templates
    rendered here have one line. *)
Definition rethrow (template : string) (r : result string) : result string :=
  match r with
  | Throw (ReferenceError msg) =>
      Throw (ReferenceError
               ("ejs:1" ++ String "010"%char (" >> 1| " ++ template)
                  ++ String "010"%char (String "010"%char msg)))
  | _ => r
  end.

Definition render (template : string) (locals : string -> option string)
  : result string :=
  rethrow template (emit locals (compile template)).

End Ejs.

(* ================================================================== *)
(** ** Configuration records *)

(** The two tarball extensions the commands pass. *)
Inductive Ext : Type := tar_gz | tar_xz.

Definition ext_string (e : Ext) : string :=
  match e with
  | tar_gz => ".tar.gz"
  | tar_xz => ".tar.xz"
  end.

(** [TargetOptions]: at run time both fields are the strings of a
    [platform-arch] target. *)
Record TargetOptions : Type := mkTarget {
  arch : string;
  platform : string
}.

(** The keys of [Interfaces.S3Templates], the only shapes the [s3Key] hook of
    the configuration knows. *)
Inductive S3TemplateKey : Type :=
| K_baseDir | K_manifest | K_unversioned | K_versioned.

(** The options object handed to the hook: a target, with the channel when the
    caller adds one. *)
Record HookOptions : Type := mkHookOptions {
  h_arch : string;
  h_platform : string;
  h_channel : option string
}.

(** [TarballConfig['s3Config']]: every field may be missing. *)
Record S3Config : Type := mkS3Config {
  folder : option string;
  bucket : option string;
  acl : option string
}.

(** [Interfaces.Config], as far as the commands read it: [templates] is
    [pjson.oclif?.update?.s3?.templates] (the template text per key) and
    [s3Key] is the templating hook, which is not part of this repository and
    is declared to return a string. *)
Record Config : Type := mkConfig {
  bin : string;
  version : string;
  templates : option (list (S3TemplateKey * string));
  s3Key : S3TemplateKey -> option Ext -> HookOptions -> string
}.

(** [TarballConfig] (the build configuration), as far as the commands read it;
    [dist] joins a short key onto the local distribution directory. *)
Record BuildConfig : Type := mkBuildConfig {
  config : Config;
  dist : string -> string;
  gitSha : string;
  s3Config : S3Config;
  targets : list TargetOptions;
  xz : bool
}.

(* ================================================================== *)
(** ** [src/upload-util.ts] *)

Definition commitAWSDir (version sha : string) (s3Config : S3Config) : string :=
  let s3SubDir := JS.or_else (folder s3Config) "" in
  let s3SubDir :=
    if negb (s3SubDir =? "") && negb (JS.slice_last s3SubDir =? "/")
    then s3SubDir ++ "/" else s3SubDir in
  Path.join [s3SubDir; "versions"; version; sha].

Definition channelAWSDir (channel : string) (s3Config : S3Config) : string :=
  let s3SubDir := JS.or_else (folder s3Config) "" in
  let s3SubDir :=
    if negb (s3SubDir =? "") && negb (JS.slice_last s3SubDir =? "/")
    then s3SubDir ++ "/" else s3SubDir in
  Path.join [s3SubDir; "channels"; channel].

(** [TemplateOptions]: an absent key is [None]. *)
Record TemplateOptions : Type := mkTemplateOptions {
  o_arch : option string;
  o_bin : option string;
  o_ext : option string;
  o_platform : option string;
  o_sha : option string;
  o_version : option string;
  o_versionShaRevision : option string;
  o_root : option string
}.

(** The locals [{...options}] that the renderer sees. *)
Definition locals (o : TemplateOptions) (name : string) : option string :=
  if name =? "arch" then o_arch o
  else if name =? "bin" then o_bin o
  else if name =? "ext" then o_ext o
  else if name =? "platform" then o_platform o
  else if name =? "sha" then o_sha o
  else if name =? "version" then o_version o
  else if name =? "versionShaRevision" then o_versionShaRevision o
  else if name =? "root" then o_root o
  else None.

(** The first argument of [templateShortKey]. *)
Inductive ShortKeyType : Type :=
| T_deb | T_macos | T_win32 | T_s3 (k : S3TemplateKey).

Definition builtin_templates (type : ShortKeyType) : string :=
  match type with
  | T_s3 K_baseDir => "<%- bin %>"
  | T_deb => "<%- bin %>_<%- versionShaRevision %>_<%- arch %>.deb"
  | T_macos => "<%- bin %>-v<%- version %>-<%- sha %>-<%- arch %>.pkg"
  | T_s3 K_manifest =>
      "<%- bin %>-v<%- version %>-<%- sha %>-<%- platform %>-<%- arch %>-buildmanifest"
  | T_s3 K_unversioned => "<%- bin %>-<%- platform %>-<%- arch %><%- ext %>"
  | T_s3 K_versioned =>
      "<%- bin %>-v<%- version %>-<%- sha %>-<%- platform %>-<%- arch %><%- ext %>"
  | T_win32 => "<%- bin %>-v<%- version %>-<%- sha %>-<%- arch %>.exe"
  end.

Definition templateShortKey (type : ShortKeyType) (options : option TemplateOptions)
  : result string :=
  let options :=
    match options with
    | None => mkTemplateOptions None None None None None None None (Some ".")
    | Some o => o
    end in
  Ejs.render (builtin_templates type) (locals options).

(** The [options] argument of [s3Keys]. *)
Record KeyOptions : Type := mkKeyOptions {
  k_bin : string;
  k_sha : string;
  k_version : string
}.

(** [{...options, ...target}] and [{...options, ...target, ext}]. *)
Definition spread (options : KeyOptions) (target : TargetOptions) (ext : option Ext)
  : TemplateOptions :=
  mkTemplateOptions (Some (arch target)) (Some (k_bin options))
    (option_map ext_string ext) (Some (platform target))
    (Some (k_sha options)) (Some (k_version options)) None None.

(** [{...target, channel}] and a bare [target] as hook options. *)
Definition with_channel (target : TargetOptions) (channel : string) : HookOptions :=
  mkHookOptions (arch target) (platform target) (Some channel).

Definition bare (target : TargetOptions) : HookOptions :=
  mkHookOptions (arch target) (platform target) None.

(** The object [s3Keys] returns. *)
Record Keys : Type := mkKeys {
  channelManifest : TargetOptions -> string -> result string;
  channelTarball : Ext -> TargetOptions -> string -> result string;
  cloudKey : string -> string;
  indexFilename : Ext -> TargetOptions -> string -> result string;
  manifest : TargetOptions -> result string;
  versioned : Ext -> TargetOptions -> result string
}.

Definition hasCustomTemplates (config : Config) : bool :=
  match templates config with
  | Some _ => true
  | None => false
  end.

Definition s3Keys (config : Config) (s3Config : S3Config) (options : KeyOptions) : Keys :=
  let hasCustom := hasCustomTemplates config in
  {| channelManifest := fun target channel =>
       if hasCustom then Ok (s3Key config K_manifest None (with_channel target channel))
       else
         manifest <- templateShortKey (T_s3 K_manifest) (Some (spread options target None)) ;;
         let unversionedManifest :=
           JS.replace ("-v" ++ k_version options ++ "-" ++ k_sha options) "" manifest in
         Ok (channelAWSDir channel s3Config ++ "/" ++ unversionedManifest);
     channelTarball := fun ext target channel =>
       if hasCustom then Ok (s3Key config K_unversioned (Some ext) (with_channel target channel))
       else
         k <- templateShortKey (T_s3 K_unversioned) (Some (spread options target (Some ext))) ;;
         Ok (channelAWSDir channel s3Config ++ "/" ++ k);
     cloudKey := fun localKey =>
       if hasCustom then localKey
       else commitAWSDir (k_version options) (k_sha options) s3Config ++ "/" ++ localKey;
     indexFilename := fun ext target channel =>
       if hasCustom then Ok (s3Key config K_unversioned (Some ext) (with_channel target channel))
       else templateShortKey (T_s3 K_unversioned) (Some (spread options target (Some ext)));
     manifest := fun target =>
       if hasCustom then Ok (s3Key config K_manifest None (bare target))
       else templateShortKey (T_s3 K_manifest) (Some (spread options target None));
     versioned := fun ext target =>
       if hasCustom then Ok (s3Key config K_versioned (Some ext) (bare target))
       else templateShortKey (T_s3 K_versioned) (Some (spread options target (Some ext)))
  |}.

Inductive DebArch : Type := amd64 | arm64 | armel | i386.

Definition DebArch_string (d : DebArch) : string :=
  match d with
  | amd64 => "amd64"
  | arm64 => "arm64"
  | armel => "armel"
  | i386 => "i386"
  end.

Definition debArch (arch : string) : result DebArch :=
  if arch =? "x64" then Ok amd64
  else if arch =? "x86" then Ok i386
  else if arch =? "arm" then Ok armel
  else if arch =? "arm64" then Ok arm64
  else Throw (Error ("invalid arch: " ++ arch)).

Definition debVersion (buildConfig : BuildConfig) : string :=
  JS.split0 "-"%char (version (config buildConfig)) ++ "." ++ gitSha buildConfig ++ "-1".

(* ================================================================== *)
(** ** The collaborators of the commands *)

(** The parameters of [aws.s3.uploadFile]. *)
Record UploadParams : Type := mkUploadParams {
  up_ACL : string;
  up_Bucket : option string;
  up_CacheControl : string;
  up_ContentType : string;
  up_Key : string
}.

(** The parameters and the options of [aws.s3.copyObject]. *)
Record CopyParams : Type := mkCopyParams {
  cp_ACL : string;
  cp_Bucket : string;
  cp_CacheControl : string;
  cp_MetadataDirective : string;
  cp_CopySource : string;
  cp_Key : string
}.

Record CopyOptions : Type := mkCopyOptions {
  co_dryRun : bool;
  co_ignoreMissing : bool;
  co_namespace : string
}.

(** The argument of [appendToIndex]. *)
Record IndexOptions : Type := mkIndexOptions {
  ix_maxAge : string;
  ix_s3Config : S3Config;
  ix_version : string;
  ix_dryRun : bool;
  ix_filename : string;
  ix_originalUrl : string
}.

(** What a command does to the outside.  The calls of one function are listed
    in program order, and the functions in the order they are started; a call
    that a function makes after an [await] is listed with that function. *)
Inductive event : Type :=
| Log (msg : string)
| Warn (msg : string)
| ActionStop (msg : string)
| UploadFile (local : string) (params : UploadParams) (dryRun : bool)
| CopyObject (params : CopyParams) (opts : CopyOptions)
| AppendToIndex (opts : IndexOptions).

(** The local file system and the storage client.  Each client function says
    how the promise of a call settles. *)
Record Services : Type := mkServices {
  existsSync : string -> bool;
  uploadFile : string -> UploadParams -> bool -> result unit;
  copyObject : CopyParams -> CopyOptions -> result unit;
  appendToIndex : IndexOptions -> result unit
}.

(** How a promise settles.  A [Promise.all] rejects with the rejection of
    whichever member settles first, which the model does not order: [Rejected]
    lists the rejections of all members, in the order the members were
    started. *)
Inductive settled (A : Type) : Type :=
| Fulfilled (a : A)
| Rejected (es : list error).
Arguments Fulfilled {A} a.
Arguments Rejected {A} es.

Definition promise : Type := settled unit.

(** A piece of command code: the calls it makes and how it settles. *)
Definition io (A : Type) : Type := (list event * settled A)%type.

Definition ret {A} (a : A) : io A := ([], Fulfilled a).

Definition emit (e : event) : io unit := ([e], Fulfilled tt).

Definition throw {A} (e : error) : io A := ([], Rejected [e]).

Definition lift {A} (r : result A) : io A :=
  match r with
  | Ok a => ret a
  | Throw e => throw e
  end.

(** Sequencing: what follows a rejection does not run. *)
Definition and_then {A B} (m : io A) (k : A -> io B) : io B :=
  match m with
  | (evs, Fulfilled a) => let (evs', r) := k a in ((evs ++ evs')%list, r)
  | (evs, Rejected es) => (evs, Rejected es)
  end.

Notation "x <~ m ;; k" := (and_then m (fun x => k))
  (at level 61, m at next level, right associativity).
Notation "m ;;; k" := (and_then m (fun _ => k))
  (at level 61, right associativity).

Fixpoint for_each {A} (l : list A) (body : A -> io unit) : io unit :=
  match l with
  | [] => ret tt
  | a :: l' => body a ;;; for_each l' body
  end.

Fixpoint map_io {A B} (f : A -> io B) (l : list A) : io (list B) :=
  match l with
  | [] => ret []
  | a :: l' => b <~ f a ;; bs <~ map_io f l' ;; ret (b :: bs)
  end.

(** The promise of a client call. *)
Definition settle (r : result unit) : promise :=
  match r with
  | Ok _ => Fulfilled tt
  | Throw e => Rejected [e]
  end.

(** A call of a client function: the call is made and its promise is handed
    back, not yet awaited. *)
Definition start (e : event) (r : result unit) : io promise :=
  ([e], Fulfilled (settle r)).

(** A call of an [async] function: its body runs, and whatever becomes of it
    is the promise; the call itself never throws. *)
Definition async (body : io unit) : io promise :=
  (fst body, Fulfilled (snd body)).

Definition await (p : promise) : io unit := ([], p).

Definition rejections (p : promise) : list error :=
  match p with
  | Fulfilled _ => []
  | Rejected es => es
  end.

Definition Promise_all (ps : list promise) : promise :=
  match concat (map rejections ps) with
  | [] => Fulfilled tt
  | es => Rejected es
  end.

(** [...(cond ? items : [])]. *)
Definition when {A} (cond : bool) (items : io (list A)) : io (list A) :=
  if cond then items else ret [].

Definition dquote : string := String "034"%char EmptyString.
Definition newline : string := String "010"%char EmptyString.

(* ================================================================== *)
(** ** [src/commands/upload/tarballs.ts] *)

Module Upload.

Record Flags : Type := mkFlags {
  dry_run : bool
}.

Section Run.
Variable sv : Services.
Variable flags : Flags.
Variable buildConfig : BuildConfig.

Let keys : Keys :=
  s3Keys (config buildConfig) (s3Config buildConfig)
    (mkKeyOptions (bin (config buildConfig)) (gitSha buildConfig)
       (version (config buildConfig))).

(** The loop that fails early if targets are not built. *)
Definition checkTargets : io unit :=
  for_each (targets buildConfig) (fun target =>
    k <~ lift (versioned keys tar_gz (mkTarget (arch target) (platform target))) ;;
    let tarball := dist buildConfig k in
    if negb (existsSync sv tarball) then
      throw (CLIError
        ("Cannot find a tarball " ++ tarball ++ " for "
           ++ platform target ++ "-" ++ arch target)
        ["Run " ++ dquote ++ "oclif pack --target "
           ++ platform target ++ "-" ++ arch target ++ dquote ++ " before uploading"])
    else ret tt).

Definition S3Options_ACL : string := JS.or_else (acl (s3Config buildConfig)) "public-read".
Definition S3Options_Bucket : option string := bucket (s3Config buildConfig).

Definition releaseTarballs (target : TargetOptions) (ext : Ext) : io unit :=
  localKey <~ lift (versioned keys ext target) ;;
  let cloudKey := cloudKey keys localKey in
  let params :=
    mkUploadParams S3Options_ACL S3Options_Bucket "max-age=604800" "application/gzip"
      cloudKey in
  p <~ start (UploadFile (dist buildConfig localKey) params (dry_run flags))
             (uploadFile sv (dist buildConfig localKey) params (dry_run flags)) ;;
  await p.

Definition maybeUploadManifest (target : TargetOptions) : io unit :=
  manifest <~ lift (manifest keys target) ;;
  let cloudKey := cloudKey keys manifest in
  let local := dist buildConfig manifest in
  emit (Log ("checking for buildmanifest at " ++ local)) ;;;
  if existsSync sv local then
    emit (Log ("uploading buildmanifest " ++ manifest)) ;;;
    let params :=
      mkUploadParams S3Options_ACL S3Options_Bucket "max-age=86400" "application/json"
        cloudKey in
    p <~ start (UploadFile (dist buildConfig manifest) params (dry_run flags))
               (uploadFile sv (dist buildConfig manifest) params (dry_run flags)) ;;
    await p
  else
    emit (Warn ("Cannot find buildmanifest " ++ local
                  ++ ". CLI will not be able to update itself.")).

Definition uploadTarball (options : TargetOptions) : io unit :=
  let target := mkTarget (arch options) (platform options) in
  p1 <~ async (releaseTarballs target tar_gz) ;;
  p2 <~ async (maybeUploadManifest target) ;;
  ps <~ when (xz buildConfig)
          (p3 <~ async (releaseTarballs target tar_xz) ;; ret [p3]) ;;
  await (Promise_all (p1 :: p2 :: ps)).

Definition run : io unit :=
  checkTargets ;;;
  (if (0 <? List.length (targets buildConfig))%nat
   then emit (Log "uploading targets") else ret tt) ;;;
  ps <~ map_io (fun t => async (uploadTarball t)) (targets buildConfig) ;;
  await (Promise_all ps) ;;;
  emit (Log ("done uploading tarballs & manifests for v"
               ++ version (config buildConfig) ++ "-" ++ gitSha buildConfig)).

End Run.

End Upload.

(* ================================================================== *)
(** ** [src/commands/promote.ts] *)

(** Modelled from the spec: [uniq] of [src/util.ts], which yields "each
    distinct architecture"; the first occurrence of every value is kept. *)
Fixpoint uniq (l : list string) : list string :=
  match l with
  | [] => []
  | a :: l' => a :: filter (fun b => negb (b =? a)) (uniq l')
  end.

Module Promote.

Record Flags : Type := mkFlags {
  f_channel : string;
  f_deb : bool;
  f_dry_run : bool;
  f_ignore_missing : bool;
  f_indexes : bool;
  f_macos : bool;
  f_max_age : string;
  f_sha : string;
  f_version : string;
  f_win : bool;
  f_xz : bool
}.

Section Run.
Variable sv : Services.
Variable flags : Flags.
Variable buildConfig : BuildConfig.

Let config : Config := config buildConfig.
Let s3Config : S3Config := s3Config buildConfig.

Let keys : Keys :=
  s3Keys config s3Config (mkKeyOptions (bin config) (f_sha flags) (f_version flags)).

Definition indexDefaults_maxAge : string := "max-age=" ++ f_max_age flags.

(** [s3Config.bucket!]: [run] only gets here with a bucket. *)
Definition theBucket : string := JS.nullish (bucket s3Config) "".

(** [{...awsDefaults, CopySource, Key}]; [ObjectCannedACL.public_read] is
    ['public-read'] and [MetadataDirective.REPLACE] is ['REPLACE']. *)
Definition awsDefaults (CopySource Key : string) : CopyParams :=
  mkCopyParams (JS.nullish (acl s3Config) "public-read") theBucket
    indexDefaults_maxAge "REPLACE" CopySource Key.

(** [{...indexDefaults, dryRun, filename, originalUrl}]. *)
Definition indexOptions (filename originalUrl : string) : IndexOptions :=
  mkIndexOptions indexDefaults_maxAge s3Config (f_version flags)
    (f_dry_run flags) filename originalUrl.

Definition copyOptions (namespace : string) : CopyOptions :=
  mkCopyOptions (f_dry_run flags) (f_ignore_missing flags) namespace.

Definition s3_copyObject (params : CopyParams) (opts : CopyOptions) : io promise :=
  start (CopyObject params opts) (copyObject sv params opts).

Definition do_appendToIndex (opts : IndexOptions) : io promise :=
  start (AppendToIndex opts) (appendToIndex sv opts).

Definition cloudBucketCommitKey (shortKey : string) : string :=
  Path.join [theBucket; commitAWSDir (f_version flags) (f_sha flags) s3Config; shortKey].

Definition cloudChannelKey (shortKey : string) : string :=
  Path.join [channelAWSDir (f_channel flags) s3Config; shortKey].

Definition promoteManifest (target : TargetOptions) : io unit :=
  m <~ lift (manifest keys (mkTarget (arch target) (platform target))) ;;
  let sourceKey := cloudKey keys m in
  destKey <~ lift (channelManifest keys (mkTarget (arch target) (platform target))
                     (f_channel flags)) ;;
  p <~ s3_copyObject (awsDefaults (Path.join [theBucket; sourceKey]) destKey)
         (copyOptions (Path.basename destKey)) ;;
  await p.

(** The body shared by [promoteGzTarballs] and [promoteXzTarballs], which
    differ in the extension only. *)
Definition promoteTarballs (ext : Ext) (target : TargetOptions) : io unit :=
  let targetOpts := mkTarget (arch target) (platform target) in
  v <~ lift (versioned keys ext targetOpts) ;;
  let sourceKey := cloudKey keys v in
  destKey <~ lift (channelTarball keys ext targetOpts (f_channel flags)) ;;
  let copySource := Path.join [theBucket; sourceKey] in
  namespace <~ lift (indexFilename keys ext targetOpts (f_channel flags)) ;;
  p <~ s3_copyObject (awsDefaults copySource destKey) (copyOptions namespace) ;;
  ps <~ when (f_indexes flags)
          (filename <~ lift (indexFilename keys ext targetOpts (f_channel flags)) ;;
           q <~ do_appendToIndex (indexOptions filename copySource) ;;
           ret [q]) ;;
  await (Promise_all (p :: ps)).

Definition promoteGzTarballs : TargetOptions -> io unit := promoteTarballs tar_gz.
Definition promoteXzTarballs : TargetOptions -> io unit := promoteTarballs tar_xz.

Definition installerOptions (arch : string) : TemplateOptions :=
  mkTemplateOptions (Some arch) (Some (bin config)) None None
    (Some (f_sha flags)) (Some (f_version flags)) None None.

Definition promoteMacInstallers : io unit :=
  let arches :=
    uniq (map arch (filter (fun t => platform t =? "darwin") (targets buildConfig))) in
  ps <~ map_io (fun arch => async (
          darwinPkg <~ lift (templateShortKey T_macos (Some (installerOptions arch))) ;;
          let darwinCopySource := cloudBucketCommitKey darwinPkg in
          let unversionedPkg :=
            JS.replace ("-v" ++ f_version flags ++ "-" ++ f_sha flags) "" darwinPkg in
          p <~ s3_copyObject (awsDefaults darwinCopySource (cloudChannelKey unversionedPkg))
                 (copyOptions unversionedPkg) ;;
          qs <~ when (f_indexes flags)
                  (q <~ do_appendToIndex (indexOptions unversionedPkg darwinCopySource) ;;
                   ret [q]) ;;
          await (Promise_all (p :: qs)))) arches ;;
  await (Promise_all ps).

(** The stop of the spinner follows the [await] of the calls of its
    architecture: it is listed with them, after them, as [event] says; in time
    it comes after every call the run issues, those of the other architectures
    and of the Debian promotion included. *)
Definition promoteWindowsInstallers : io unit :=
  let arches := map arch (filter (fun t => platform t =? "win32") (targets buildConfig)) in
  ps <~ map_io (fun arch => async (
          winPkg <~ lift (templateShortKey T_win32 (Some (installerOptions arch))) ;;
          let winCopySource := cloudBucketCommitKey winPkg in
          let unversionedExe :=
            JS.replace ("-v" ++ f_version flags ++ "-" ++ f_sha flags) "" winPkg in
          p <~ s3_copyObject (awsDefaults winCopySource (cloudChannelKey unversionedExe))
                 (copyOptions unversionedExe) ;;
          qs <~ when (f_indexes flags)
                  (q <~ do_appendToIndex (indexOptions unversionedExe winCopySource) ;;
                   ret [q]) ;;
          await (Promise_all (p :: qs)) ;;;
          emit (ActionStop "successfully"))) arches ;;
  await (Promise_all ps).

(** The short key of the [.deb] file of one target. *)
Definition debShortKey (a : TargetOptions) : result string :=
  d <- debArch (arch a) ;;
  templateShortKey T_deb
    (Some (mkTemplateOptions (Some (DebArch_string d)) (Some (bin config))
             None None None None (Some (debVersion buildConfig)) None)).

(** The [.deb] files: one per linux target whose architecture does not
    include ['x86']. *)
Definition debShortKeys : result (list string) :=
  let arches := filter (fun t => platform t =? "linux") (targets buildConfig) in
  mapM debShortKey (filter (fun a => negb (JS.includes "x86" (arch a))) arches).

Definition aptMetadata : list string :=
  ["Packages.gz"; "Packages.xz"; "Packages.bz2"; "Release"; "InRelease"; "Release.gpg"].

(** The two copies of one artifact. *)
Definition promoteDebArtifact (artifact : string) : io (list promise) :=
  let debCopySource := cloudBucketCommitKey ("apt/" ++ artifact) in
  let debKey := cloudChannelKey ("apt/" ++ artifact) in
  let workaroundKey := cloudChannelKey "apt/" ++ "./" ++ artifact in
  p <~ s3_copyObject (awsDefaults debCopySource debKey) (copyOptions debKey) ;;
  q <~ s3_copyObject (awsDefaults debCopySource workaroundKey) (copyOptions workaroundKey) ;;
  ret [p; q].

Definition promoteDebianAptPackages : io unit :=
  debs <~ lift debShortKeys ;;
  let debArtifacts := (debs ++ aptMetadata)%list in
  pss <~ map_io promoteDebArtifact debArtifacts ;;
  await (Promise_all (concat pss)).

Definition run : io unit :=
  (if f_ignore_missing flags
   then emit (Warn "--ignore-missing flag is being used - This command will continue to run even if a promotion fails because it doesn't exist")
   else ret tt) ;;;
  emit (Log ("Promoting v" ++ f_version flags ++ " (" ++ f_sha flags ++ ") to "
               ++ f_channel flags ++ " channel" ++ newline)) ;;;
  (if negb (JS.truthy (bucket s3Config))
   then throw (CLIError "Cannot determine S3 bucket for promotion" [])
   else ret tt) ;;;
  ps1 <~ map_io (fun target =>
                   p <~ async (promoteManifest target) ;;
                   q <~ async (promoteGzTarballs target) ;;
                   ret [p; q]) (targets buildConfig) ;;
  ps2 <~ when (f_xz flags)
           (map_io (fun target => async (promoteXzTarballs target)) (targets buildConfig)) ;;
  ps3 <~ when (f_macos flags) (p <~ async promoteMacInstallers ;; ret [p]) ;;
  ps4 <~ when (f_win flags) (p <~ async promoteWindowsInstallers ;; ret [p]) ;;
  ps5 <~ when (f_deb flags) (p <~ async promoteDebianAptPackages ;; ret [p]) ;;
  await (Promise_all (concat ps1 ++ ps2 ++ ps3 ++ ps4 ++ ps5)).

End Run.

End Promote.

(* ================================================================== *)
(** * Vocabulary of the properties *)

(** The text [-v<version>-<sha>] that is stripped to get an unversioned name. *)
Definition versionMarker (version sha : string) : string :=
  "-v" ++ version ++ "-" ++ sha.

(** A release is valid for the stripping when the marker occurs in the
    versioned names no earlier than where the templates put it, right after
    [bin]: an earlier occurrence would have to start inside [bin], and it would
    lie within [bin ++ marker]. *)
Definition valid_release (bin version sha : string) : Prop :=
  forall i, i < String.length bin ->
    JS.startsWith (versionMarker version sha)
      (JS.drop i (bin ++ versionMarker version sha)) = false.

(** The options of the versioned and of the unversioned tarball name. *)
Definition versionedOptions (bin version sha platform arch : string) (ext : Ext)
  : TemplateOptions :=
  mkTemplateOptions (Some arch) (Some bin) (Some (ext_string ext)) (Some platform)
    (Some sha) (Some version) None None.

Definition unversionedOptions (bin platform arch : string) (ext : Ext) : TemplateOptions :=
  mkTemplateOptions (Some arch) (Some bin) (Some (ext_string ext)) (Some platform)
    None None None None.

(** No ['/'] in a name. *)
Definition no_slash (s : string) : Prop := JS.includes "/" s = false.

(** The four architectures [debArch] knows. *)
Definition knownArchs : list string := ["x64"; "x86"; "arm"; "arm64"].

(** What a call of [debArch] gives at run time: the string it returns, a
    [DebArch] being one of four strings, or the error it throws. *)
Definition debArchResult (a : string) : result string :=
  d <- debArch a ;; Ok (DebArch_string d).

(** The configuration of the repository's unit tests ([makeConfig]): its hook
    encodes the arguments of the call in the key. *)
Definition S3TemplateKey_string (k : S3TemplateKey) : string :=
  match k with
  | K_baseDir => "baseDir"
  | K_manifest => "manifest"
  | K_unversioned => "unversioned"
  | K_versioned => "versioned"
  end.

Definition testHook (type : S3TemplateKey) (ext : option Ext) (opts : HookOptions) : string :=
  let name :=
    h_platform opts ++ "-" ++ h_arch opts
      ++ match ext with Some e => ext_string e | None => "" end in
  JS.join "/"
    (["custom"; S3TemplateKey_string type; name]
     ++ match h_channel opts with
        | Some "" | None => []
        | Some c => [c]
        end)%list.

Definition makeConfig (hasCustomTemplates : bool) : Config :=
  mkConfig "mycli" "1.2.3"
    (if hasCustomTemplates
     then Some [(K_manifest, "custom/<%- platform %>-<%- arch %>-manifest");
                (K_unversioned, "custom/<%- platform %>-<%- arch %><%- ext %>");
                (K_versioned, "custom/<%- platform %>-<%- arch %><%- ext %>")]
     else None)
    testHook.

Definition makeS3Config (folder : string) : S3Config := mkS3Config (Some folder) None None.

Definition defaultOpts : KeyOptions := mkKeyOptions "mycli" "abc1234" "1.2.3".

Definition linux_x64 : TargetOptions := mkTarget "x64" "linux".

(** The name [<bin>_<version>.<sha>-1_<debarch>.deb]. *)
Definition debFileName (bin version sha debarch : string) : string :=
  bin ++ "_" ++ version ++ "." ++ sha ++ "-1" ++ "_" ++ debarch ++ ".deb".

(** A file system on which every path exists and a client that accepts every
    call. *)
Definition idleServices : Services :=
  mkServices (fun _ => true) (fun _ _ _ => Ok tt) (fun _ _ => Ok tt) (fun _ => Ok tt).

(** A build of the test configuration. *)
Definition testBuild (config : Config) (gitSha : string) (s3Config : S3Config)
    (targets : list TargetOptions) (xz : bool) : BuildConfig :=
  mkBuildConfig config (fun k => "dist/" ++ k) gitSha s3Config targets xz.

(** The same build with no custom templates configured. *)
Definition withoutTemplates (bc : BuildConfig) : BuildConfig :=
  mkBuildConfig
    (mkConfig (bin (config bc)) (version (config bc)) None (s3Key (config bc)))
    (dist bc) (gitSha bc) (s3Config bc) (targets bc) (xz bc).

(** The flags of a promotion of the test release to [stable]. *)
Definition promoteFlags (deb macos win xz indexes : bool) : Promote.Flags :=
  Promote.mkFlags "stable" deb false false indexes macos "86400" "abc1234" "1.2.3" win xz.

(** The names the key builder gives, as functions of the configuration. *)
Definition versionedKey (cfg : Config) (opts : KeyOptions) (e : Ext) (t : TargetOptions)
  : string :=
  if hasCustomTemplates cfg then s3Key cfg K_versioned (Some e) (bare t)
  else k_bin opts ++ versionMarker (k_version opts) (k_sha opts)
         ++ "-" ++ platform t ++ "-" ++ arch t ++ ext_string e.

Definition manifestKey (cfg : Config) (opts : KeyOptions) (t : TargetOptions) : string :=
  if hasCustomTemplates cfg then s3Key cfg K_manifest None (bare t)
  else k_bin opts ++ versionMarker (k_version opts) (k_sha opts)
         ++ "-" ++ platform t ++ "-" ++ arch t ++ "-buildmanifest".

(** The key options, the key builder and the local files of an upload. *)
Definition uploadOptions (bc : BuildConfig) : KeyOptions :=
  mkKeyOptions (bin (config bc)) (gitSha bc) (version (config bc)).

Definition uploadKeys (bc : BuildConfig) : Keys :=
  s3Keys (config bc) (s3Config bc) (uploadOptions bc).

Definition localTarball (bc : BuildConfig) (e : Ext) (t : TargetOptions) : string :=
  dist bc (versionedKey (config bc) (uploadOptions bc) e t).

Definition localManifest (bc : BuildConfig) (t : TargetOptions) : string :=
  dist bc (manifestKey (config bc) (uploadOptions bc) t).

(** The diagnostic of the upload for a target that is not built. *)
Definition missingTarball (bc : BuildConfig) (t : TargetOptions) : error :=
  CLIError
    ("Cannot find a tarball " ++ localTarball bc tar_gz t ++ " for "
       ++ platform t ++ "-" ++ arch t)
    ["Run " ++ dquote ++ "oclif pack --target " ++ platform t ++ "-" ++ arch t
       ++ dquote ++ " before uploading"].

(** The upload of a tarball, the upload of a build manifest, and the warning
    for a manifest that is not there. *)
Definition tarballUploadParams (bc : BuildConfig) (e : Ext) (t : TargetOptions)
  : UploadParams :=
  mkUploadParams (JS.or_else (acl (s3Config bc)) "public-read") (bucket (s3Config bc))
    "max-age=604800" "application/gzip"
    (cloudKey (uploadKeys bc) (versionedKey (config bc) (uploadOptions bc) e t)).

Definition manifestUploadParams (bc : BuildConfig) (t : TargetOptions) : UploadParams :=
  mkUploadParams (JS.or_else (acl (s3Config bc)) "public-read") (bucket (s3Config bc))
    "max-age=86400" "application/json"
    (cloudKey (uploadKeys bc) (manifestKey (config bc) (uploadOptions bc) t)).

Definition manifestWarning (bc : BuildConfig) (t : TargetOptions) : event :=
  Warn ("Cannot find buildmanifest " ++ localManifest bc t
          ++ ". CLI will not be able to update itself.").

(** Every target of the build has its local [.tar.gz]. *)
Definition targetsBuilt (sv : Services) (bc : BuildConfig) : Prop :=
  forall t, In t (targets bc) -> existsSync sv (localTarball bc tar_gz t) = true.

(** What the upload run calls once the check has passed, up to the last log
    line. *)
Definition uploadEvents (sv : Services) (flags : Upload.Flags) (bc : BuildConfig)
  : list event :=
  ((if (0 <? List.length (targets bc))%nat then [Log "uploading targets"] else [])
     ++ flat_map (fun t => fst (Upload.uploadTarball sv flags bc t)) (targets bc))%list.

(** A disk with no file on it, under a client that accepts every call. *)
Definition emptyDisk : Services :=
  mkServices (fun _ => false) (fun _ _ _ => Ok tt) (fun _ _ => Ok tt) (fun _ => Ok tt).

(** A disk that holds the listed files, under a client whose upload reads the
    local file and so rejects when it is not there. *)
Definition onDisk (files : list string) (path : string) : bool :=
  existsb (String.eqb path) files.

Definition diskServices (files : list string) : Services :=
  mkServices (onDisk files)
    (fun local _ _ =>
       if onDisk files local then Ok tt
       else Throw (Error ("ENOENT: no such file or directory, open " ++ local)))
    (fun _ _ => Ok tt) (fun _ => Ok tt).

(** Every call a piece of command code makes satisfies [P]. *)
Definition calls_satisfy (P : event -> Prop) {A : Type} (m : io A) : Prop :=
  Forall P (fst m).

(** A copy is issued with the given canned ACL. *)
Definition copies_with_acl (a : string) (e : event) : Prop :=
  match e with
  | CopyObject p _ => cp_ACL p = a
  | _ => True
  end.

(** The Debian name of an architecture, [""] when [debArch] has none. *)
Definition debArchName (a : string) : string :=
  match debArch a with
  | Ok d => DebArch_string d
  | Throw _ => ""
  end.

(** The targets that contribute a [.deb]: linux, and no ['x86'] in the
    architecture. *)
Definition debTargets (bc : BuildConfig) : list TargetOptions :=
  filter (fun t => (platform t =? "linux") && negb (JS.includes "x86" (arch t)))
    (targets bc).

(** Their [.deb] files. *)
Definition debFiles (bc : BuildConfig) : list string :=
  map (fun t => debFileName (bin (config bc)) (JS.split0 "-" (version (config bc)))
                  (gitSha bc) (debArchName (arch t)))
    (debTargets bc).

(** How the two copies of a Debian artifact settle. *)
Definition debPromises (sv : Services) (flags : Promote.Flags) (bc : BuildConfig)
    (artifact : string) : list promise :=
  [settle (copyObject sv
             (Promote.awsDefaults flags bc
                (Promote.cloudBucketCommitKey flags bc ("apt/" ++ artifact))
                (Promote.cloudChannelKey flags bc ("apt/" ++ artifact)))
             (Promote.copyOptions flags (Promote.cloudChannelKey flags bc ("apt/" ++ artifact))));
   settle (copyObject sv
             (Promote.awsDefaults flags bc
                (Promote.cloudBucketCommitKey flags bc ("apt/" ++ artifact))
                (Promote.cloudChannelKey flags bc "apt/" ++ "./" ++ artifact))
             (Promote.copyOptions flags
                (Promote.cloudChannelKey flags bc "apt/" ++ "./" ++ artifact)))].

(** The two copies of a Debian artifact. *)
Definition debCopies (flags : Promote.Flags) (bc : BuildConfig) (artifact : string)
  : list event :=
  [CopyObject
     (Promote.awsDefaults flags bc
        (Promote.cloudBucketCommitKey flags bc ("apt/" ++ artifact))
        (Promote.cloudChannelKey flags bc ("apt/" ++ artifact)))
     (Promote.copyOptions flags (Promote.cloudChannelKey flags bc ("apt/" ++ artifact)));
   CopyObject
     (Promote.awsDefaults flags bc
        (Promote.cloudBucketCommitKey flags bc ("apt/" ++ artifact))
        (Promote.cloudChannelKey flags bc "apt/" ++ "./" ++ artifact))
     (Promote.copyOptions flags
        (Promote.cloudChannelKey flags bc "apt/" ++ "./" ++ artifact))].

(** A path segment that [normalize] keeps as it is, if it keeps it: no ['/']
    in it and neither ["."] nor [".."].  A clean segment is also not empty. *)
Definition plain (s : string) : Prop := no_slash s /\ s <> "." /\ s <> "..".

Definition clean (s : string) : Prop := plain s /\ s <> "".

(** The folder of the storage configuration, when there is one, is a single
    plain segment; [folderPrefix] is what it puts before a key. *)
Definition plainFolder (s3c : S3Config) : Prop :=
  match folder s3c with
  | Some f => plain f
  | None => True
  end.

Definition folderPrefix (s3c : S3Config) : string :=
  match folder s3c with
  | Some (String c f) => String c f ++ "/"
  | _ => ""
  end.

(** The segments the folder contributes to a key. *)
Definition folderSegments (s3c : S3Config) : list string :=
  match folder s3c with
  | Some (String c f) => [String c f]
  | _ => []
  end.

(** What every call of a promotion carries over from the flags and the
    configuration. *)
Definition carries_promote_flags (flags : Promote.Flags) (bc : BuildConfig) (e : event)
  : Prop :=
  match e with
  | CopyObject p o =>
      cp_Bucket p = Promote.theBucket bc
      /\ cp_CacheControl p = "max-age=" ++ Promote.f_max_age flags
      /\ cp_MetadataDirective p = "REPLACE"
      /\ co_dryRun o = Promote.f_dry_run flags
      /\ co_ignoreMissing o = Promote.f_ignore_missing flags
  | AppendToIndex o =>
      ix_dryRun o = Promote.f_dry_run flags
      /\ ix_version o = Promote.f_version flags
      /\ ix_maxAge o = "max-age=" ++ Promote.f_max_age flags
      /\ ix_s3Config o = s3Config bc
  | UploadFile _ _ _ => False
  | _ => True
  end.

(* ================================================================== *)
(** * Vocabulary of the further properties *)

(** The variables a compiled template prints, in the order of the template. *)
Fixpoint outputs (ps : list Ejs.piece) : list string :=
  match ps with
  | [] => []
  | Ejs.Lit _ :: ps' => outputs ps'
  | Ejs.Out name :: ps' => name :: outputs ps'
  end.

Definition templateVariables (type : ShortKeyType) : list string :=
  outputs (Ejs.compile (builtin_templates type)).

(** The unversioned file name of the built-in scheme and the keys the key
    builder gives for a channel, as functions of the configuration. *)
Definition unversionedName (opts : KeyOptions) (e : Ext) (t : TargetOptions) : string :=
  k_bin opts ++ "-" ++ platform t ++ "-" ++ arch t ++ ext_string e.

Definition indexFilenameKey (cfg : Config) (opts : KeyOptions) (e : Ext)
    (t : TargetOptions) (channel : string) : string :=
  if hasCustomTemplates cfg then s3Key cfg K_unversioned (Some e) (with_channel t channel)
  else unversionedName opts e t.

Definition channelTarballKey (cfg : Config) (s3c : S3Config) (opts : KeyOptions) (e : Ext)
    (t : TargetOptions) (channel : string) : string :=
  if hasCustomTemplates cfg then s3Key cfg K_unversioned (Some e) (with_channel t channel)
  else channelAWSDir channel s3c ++ "/" ++ unversionedName opts e t.

Definition channelManifestKey (cfg : Config) (s3c : S3Config) (opts : KeyOptions)
    (t : TargetOptions) (channel : string) : string :=
  if hasCustomTemplates cfg then s3Key cfg K_manifest None (with_channel t channel)
  else channelAWSDir channel s3c ++ "/"
         ++ JS.replace (versionMarker (k_version opts) (k_sha opts)) ""
              (manifestKey cfg opts t).

(** The key options and the key builder of a promotion. *)
Definition promoteOptions (flags : Promote.Flags) (bc : BuildConfig) : KeyOptions :=
  mkKeyOptions (bin (config bc)) (Promote.f_sha flags) (Promote.f_version flags).

Definition promoteKeys (flags : Promote.Flags) (bc : BuildConfig) : Keys :=
  s3Keys (config bc) (s3Config bc) (promoteOptions flags bc).

(** The copy of the manifest of a target. *)
Definition manifestCopy (flags : Promote.Flags) (bc : BuildConfig) (t : TargetOptions)
  : event :=
  CopyObject
    (Promote.awsDefaults flags bc
       (Path.join [Promote.theBucket bc;
                   cloudKey (promoteKeys flags bc)
                     (manifestKey (config bc) (promoteOptions flags bc) t)])
       (channelManifestKey (config bc) (s3Config bc) (promoteOptions flags bc) t
          (Promote.f_channel flags)))
    (Promote.copyOptions flags
       (Path.basename
          (channelManifestKey (config bc) (s3Config bc) (promoteOptions flags bc) t
             (Promote.f_channel flags)))).

(** The source of the copy of a tarball, and the calls of its promotion: the
    copy, and the index append when indexes are asked for. *)
Definition tarballSource (flags : Promote.Flags) (bc : BuildConfig) (e : Ext)
    (t : TargetOptions) : string :=
  Path.join [Promote.theBucket bc;
             cloudKey (promoteKeys flags bc)
               (versionedKey (config bc) (promoteOptions flags bc) e t)].

Definition tarballCalls (flags : Promote.Flags) (bc : BuildConfig) (e : Ext)
    (t : TargetOptions) : list event :=
  CopyObject
    (Promote.awsDefaults flags bc (tarballSource flags bc e t)
       (channelTarballKey (config bc) (s3Config bc) (promoteOptions flags bc) e t
          (Promote.f_channel flags)))
    (Promote.copyOptions flags
       (indexFilenameKey (config bc) (promoteOptions flags bc) e t (Promote.f_channel flags)))
  :: (if Promote.f_indexes flags
      then [AppendToIndex
              (Promote.indexOptions flags bc
                 (indexFilenameKey (config bc) (promoteOptions flags bc) e t
                    (Promote.f_channel flags))
                 (tarballSource flags bc e t))]
      else []).

(** The versioned name of an installer ([suffix] is [.pkg] or [.exe]) and the
    calls of its promotion. *)
Definition installerName (flags : Promote.Flags) (bc : BuildConfig) (suffix arch : string)
  : string :=
  bin (config bc) ++ versionMarker (Promote.f_version flags) (Promote.f_sha flags)
    ++ "-" ++ arch ++ suffix.

Definition installerCalls (flags : Promote.Flags) (bc : BuildConfig) (suffix arch : string)
  : list event :=
  let pkg := installerName flags bc suffix arch in
  let source := Promote.cloudBucketCommitKey flags bc pkg in
  let unversioned :=
    JS.replace (versionMarker (Promote.f_version flags) (Promote.f_sha flags)) "" pkg in
  CopyObject
    (Promote.awsDefaults flags bc source (Promote.cloudChannelKey flags bc unversioned))
    (Promote.copyOptions flags unversioned)
  :: (if Promote.f_indexes flags
      then [AppendToIndex (Promote.indexOptions flags bc unversioned source)]
      else []).

(** How the client settles a call, and the rejections it answers to a list of
    calls; what is not a call of the client settles at once. *)
Definition settleEvent (sv : Services) (e : event) : promise :=
  match e with
  | UploadFile l p d => settle (uploadFile sv l p d)
  | CopyObject p o => settle (copyObject sv p o)
  | AppendToIndex o => settle (appendToIndex sv o)
  | _ => Fulfilled tt
  end.

Definition client_rejections (sv : Services) (evs : list event) : list error :=
  concat (map (fun e => rejections (settleEvent sv e)) evs).

(** A promise that is fulfilled when there is no rejection. *)
Definition outcome_of (es : list error) : promise :=
  match es with
  | [] => Fulfilled tt
  | _ => Rejected es
  end.

(** The darwin architectures and the win32 architectures of a build. *)
Definition darwinArches (bc : BuildConfig) : list string :=
  uniq (map arch (filter (fun t => platform t =? "darwin") (targets bc))).

Definition win32Arches (bc : BuildConfig) : list string :=
  map arch (filter (fun t => platform t =? "win32") (targets bc)).

(** The spinner stop of a Windows installer: only once its calls are settled
    without a rejection. *)
Definition installerStop (sv : Services) (flags : Promote.Flags) (bc : BuildConfig)
    (arch : string) : list event :=
  match client_rejections sv (installerCalls flags bc ".exe" arch) with
  | [] => [ActionStop "successfully"]
  | _ => []
  end.

(** The calls proper: everything but the spinner. *)
Definition isActionStop (e : event) : bool :=
  match e with
  | ActionStop _ => true
  | _ => false
  end.

Definition calls_of (evs : list event) : list event :=
  filter (fun e => negb (isActionStop e)) evs.

(** Code that only makes calls of the client and awaits them all. *)
Definition batch (sv : Services) (evs : list event) : io unit :=
  (evs, outcome_of (client_rejections sv evs)).


(** What the promotion logs before its first call. *)
Definition promotePrelude (flags : Promote.Flags) : list event :=
  ((if Promote.f_ignore_missing flags
    then [Warn "--ignore-missing flag is being used - This command will continue to run even if a promotion fails because it doesn't exist"]
    else [])
   ++ [Log ("Promoting v" ++ Promote.f_version flags ++ " (" ++ Promote.f_sha flags ++ ") to "
              ++ Promote.f_channel flags ++ " channel" ++ newline)])%list.

(** The Debian file names the promotion could not build, and those it could. *)
Definition debErrors (flags : Promote.Flags) (bc : BuildConfig) : list error :=
  if Promote.f_deb flags
  then match Promote.debShortKeys bc with
       | Ok _ => []
       | Throw e => [e]
       end
  else [].

Definition debArtifacts (bc : BuildConfig) : list string :=
  match Promote.debShortKeys bc with
  | Ok debs => (debs ++ Promote.aptMetadata)%list
  | Throw _ => []
  end.

(** Every call of a promotion, in the order of the code: per target the
    manifest and the gz tarball, then the xz tarballs, the macOS installers,
    the Windows installers and the Debian artifacts, each group under its
    flag. *)
Definition promoteCalls (sv : Services) (flags : Promote.Flags) (bc : BuildConfig)
  : list event :=
  (flat_map (fun t => manifestCopy flags bc t :: tarballCalls flags bc tar_gz t) (targets bc)
   ++ (if Promote.f_xz flags then flat_map (tarballCalls flags bc tar_xz) (targets bc) else [])
   ++ (if Promote.f_macos flags
       then flat_map (installerCalls flags bc ".pkg") (darwinArches bc) else [])
   ++ (if Promote.f_win flags
       then flat_map (fun a => installerCalls flags bc ".exe" a ++ installerStop sv flags bc a)
              (win32Arches bc)
       else [])
   ++ (if Promote.f_deb flags then flat_map (debCopies flags bc) (debArtifacts bc) else []))%list.

(** The last log line of an upload, and the uploads among the events. *)
Definition uploadDone (bc : BuildConfig) : event :=
  Log ("done uploading tarballs & manifests for v" ++ version (config bc) ++ "-" ++ gitSha bc).

Definition isUploadFile (e : event) : bool :=
  match e with
  | UploadFile _ _ _ => true
  | _ => false
  end.

Definition uploads_of (evs : list event) : list event := filter isUploadFile evs.

(** The folder of the storage configuration, when there is one, is a single
    plain segment, with or without a ['/'] after it. *)
Definition segmentFolder (s3c : S3Config) : Prop :=
  match folder s3c with
  | Some f => plain f \/ exists g, clean g /\ f = g ++ "/"
  | None => True
  end.

(** The linux targets with no ['x86'] in the architecture that [debArch]
    does not map. *)
Definition unmappedDebTarget (bc : BuildConfig) (t : TargetOptions) : Prop :=
  In t (targets bc) /\ platform t = "linux" /\ JS.includes "x86" (arch t) = false
  /\ ~ In (arch t) knownArchs.
(* ================================================================== *)
(** * Properties *)

(** ** Strings *)

Section StringFacts.

Lemma append_empty_r (s : string) : s ++ "" = s.
Proof. induction s as [|c s IH]; simpl; [reflexivity | now rewrite IH]. Qed.

Lemma append_assoc' (a b c : string) : (a ++ b) ++ c = a ++ b ++ c.
Proof. induction a as [|x a IH]; simpl; [reflexivity | now rewrite IH]. Qed.

Lemma startsWith_append (p r : string) : JS.startsWith p (p ++ r) = true.
Proof.
  induction p as [|c p IH]; simpl; [reflexivity|].
  now rewrite Ascii.eqb_refl, IH.
Qed.

Lemma drop_append (p r : string) : JS.drop (String.length p) (p ++ r) = r.
Proof. induction p as [|c p IH]; simpl; [now destruct r | exact IH]. Qed.

(** Removing the first occurrence of [pat] from [b ++ t], when [t] starts
    with [pat] and no occurrence starts inside [b]. *)
Lemma replace_first_after (pat b t : string) :
  JS.startsWith pat t = true ->
  (forall i, i < String.length b -> JS.startsWith pat (JS.drop i (b ++ t)) = false) ->
  JS.replace pat "" (b ++ t) = b ++ JS.drop (String.length pat) t.
Proof.
  intros Ht. induction b as [|c b IH]; intros Hfree.
  - simpl. destruct t; simpl; rewrite Ht; reflexivity.
  - assert (H0 : JS.startsWith pat (String c (b ++ t)) = false)
      by (apply (Hfree 0); simpl; lia).
    simpl. rewrite H0. f_equal. apply IH.
    intros i Hi. apply (Hfree (S i)). simpl; lia.
Qed.

(** A longer text can only start with [pat] through its first
    [length pat] characters. *)
Lemma startsWith_longer (pat x r : string) :
  String.length pat <= String.length x ->
  JS.startsWith pat (x ++ r) = JS.startsWith pat x.
Proof.
  revert x. induction pat as [|c pat IH]; intros x Hlen; [reflexivity|].
  destruct x as [|d x]; simpl in *; [lia|].
  rewrite IH by lia. reflexivity.
Qed.

Lemma length_append (a b : string) :
  String.length (a ++ b) = String.length a + String.length b.
Proof. induction a as [|c a IH]; simpl; [reflexivity | now rewrite IH]. Qed.

Lemma length_drop (i : nat) (s : string) :
  String.length (JS.drop i s) = String.length s - i.
Proof.
  revert s. induction i as [|i IH]; intros s; simpl; [lia|].
  destruct s; simpl; [reflexivity | apply IH].
Qed.

Lemma drop_append_short (i : nat) (a b : string) :
  i <= String.length a -> JS.drop i (a ++ b) = JS.drop i a ++ b.
Proof.
  revert a. induction i as [|i IH]; intros a Hi; [reflexivity|].
  destruct a as [|c a]; simpl in *; [lia | apply IH; lia].
Qed.

End StringFacts.

(** ** The repository's unit tests of the key builder *)

Example test_versioned_default :
  versioned (s3Keys (makeConfig false) (makeS3Config "") defaultOpts) tar_gz linux_x64
  = Ok "mycli-v1.2.3-abc1234-linux-x64.tar.gz".
Proof. reflexivity. Qed.

Example test_cloudKey_folder :
  cloudKey (s3Keys (makeConfig false) (makeS3Config "my-cli") defaultOpts) "some-file.tar.gz"
  = "my-cli/versions/1.2.3/abc1234/some-file.tar.gz".
Proof. reflexivity. Qed.

Example test_channelTarball_default :
  channelTarball (s3Keys (makeConfig false) (makeS3Config "my-cli/") defaultOpts)
    tar_xz linux_x64 "beta"
  = Ok "my-cli/channels/beta/mycli-linux-x64.tar.xz".
Proof. reflexivity. Qed.

Example test_channelManifest_default :
  channelManifest (s3Keys (makeConfig false) (makeS3Config "") defaultOpts) linux_x64 "stable"
  = Ok "channels/stable/mycli-linux-x64-buildmanifest".
Proof. reflexivity. Qed.

Example test_channelTarball_custom :
  channelTarball (s3Keys (makeConfig true) (makeS3Config "") defaultOpts)
    tar_gz linux_x64 "stable"
  = Ok "custom/unversioned/linux-x64.tar.gz/stable".
Proof. reflexivity. Qed.

Example test_channelManifest_custom :
  channelManifest (s3Keys (makeConfig true) (makeS3Config "") defaultOpts) linux_x64 "stable"
  = Ok "custom/manifest/linux-x64/stable".
Proof. reflexivity. Qed.

Example test_templateShortKey_deb :
  templateShortKey T_deb
    (Some (mkTemplateOptions (Some "amd64") (Some "foo") None None (Some "123456")
             (Some "1.2.3") (Some "1") None))
  = Ok "foo_1_amd64.deb".
Proof. reflexivity. Qed.

Example test_templateShortKey_no_options :
  templateShortKey (T_s3 K_baseDir) None
  = Throw (ReferenceError
             ("ejs:1" ++ newline ++ " >> 1| <%- bin %>" ++ newline ++ newline
                ++ "bin is not defined")).
Proof. reflexivity. Qed.

Example test_path_join :
  Path.join ["bucket"; "a/../b//c/"; "./d"] = "bucket/b/c/d"
  /\ Path.join ["/x"; ".."; ".."; "y/"] = "/y/"
  /\ Path.join [""; ""] = "."
  /\ Path.join ["../a"; "../../b"] = "../../b"
  /\ Path.basename "channels/stable/mycli-linux-x64-buildmanifest" = "mycli-linux-x64-buildmanifest"
  /\ Path.basename "a/b//" = "b"
  /\ Path.basename "///" = "".
Proof. repeat split; reflexivity. Qed.

(** ** The built-in templates *)

Section Templates.

Variables bin version sha platform arch : string.
Variable ext : Ext.

Lemma templateShortKey_versioned :
  templateShortKey (T_s3 K_versioned)
    (Some (versionedOptions bin version sha platform arch ext))
  = Ok (bin ++ versionMarker version sha ++ "-" ++ platform ++ "-" ++ arch ++ ext_string ext).
Proof.
  unfold versionMarker. rewrite !append_assoc'.
  rewrite <- (append_empty_r (ext_string ext)). reflexivity.
Qed.

Lemma templateShortKey_unversioned (o_sha o_version : option string) :
  templateShortKey (T_s3 K_unversioned)
    (Some (mkTemplateOptions (Some arch) (Some bin) (Some (ext_string ext)) (Some platform)
             o_sha o_version None None))
  = Ok (bin ++ "-" ++ platform ++ "-" ++ arch ++ ext_string ext).
Proof.
  rewrite <- (append_empty_r (ext_string ext)) at 2. reflexivity.
Qed.

Lemma templateShortKey_manifest (o_ext : option string) :
  templateShortKey (T_s3 K_manifest)
    (Some (mkTemplateOptions (Some arch) (Some bin) o_ext (Some platform)
             (Some sha) (Some version) None None))
  = Ok (bin ++ versionMarker version sha ++ "-" ++ platform ++ "-" ++ arch ++ "-buildmanifest").
Proof. unfold versionMarker. rewrite !append_assoc'. reflexivity. Qed.

End Templates.

(** Stripping the marker from a name that carries it right after [bin]. *)
Lemma strip_marker (bin version sha rest : string) :
  valid_release bin version sha ->
  JS.replace (versionMarker version sha) "" (bin ++ versionMarker version sha ++ rest)
  = bin ++ rest.
Proof.
  intros Hvalid.
  rewrite replace_first_after.
  - now rewrite drop_append.
  - apply startsWith_append.
  - intros i Hi.
    rewrite <- append_assoc', drop_append_short
      by (rewrite length_append; lia).
    rewrite startsWith_longer; [apply Hvalid; exact Hi|].
    rewrite length_drop, length_append. lia.
Qed.

Lemma includes_drop (p s : string) (i : nat) :
  JS.includes p s = false -> JS.includes p (JS.drop i s) = false.
Proof.
  revert s. induction i as [|i IH]; intros s H; [exact H|].
  destruct s as [|c s]; [exact H|].
  cbn [JS.drop]. apply IH. cbn [JS.includes] in H.
  apply orb_false_iff in H. now destruct H.
Qed.

(** A [bin] without ['-'] makes every release valid. *)
Lemma valid_release_no_dash (bin version sha : string) :
  JS.includes "-" bin = false -> valid_release bin version sha.
Proof.
  intros Hbin i Hi. rewrite drop_append_short by lia.
  pose proof (includes_drop "-" bin i Hbin) as Hdrop.
  pose proof (length_drop i bin) as Hlen.
  destruct (JS.drop i bin) as [|c rest]; [cbn in Hlen; lia|].
  cbn [JS.includes JS.startsWith] in Hdrop. apply orb_false_iff in Hdrop.
  destruct Hdrop as [Hc _]. rewrite andb_true_r in Hc.
  unfold versionMarker.
  change (JS.startsWith ("-v" ++ version ++ "-" ++ sha)
            (String c rest ++ "-v" ++ version ++ "-" ++ sha))
    with (Ascii.eqb "-" c
          && JS.startsWith ("v" ++ version ++ "-" ++ sha)
               (rest ++ "-v" ++ version ++ "-" ++ sha)).
  now rewrite Hc.
Qed.

(** C1. For every valid parameter set, the unversioned short key of the
    built-in scheme is the versioned short key with the first occurrence of
    ["-v" + version + "-" + sha] replaced by the empty string. *)
Theorem unversioned_is_versioned_stripped
  (bin version sha platform arch : string) (ext : Ext) :
  valid_release bin version sha ->
  exists v,
    templateShortKey (T_s3 K_versioned)
      (Some (versionedOptions bin version sha platform arch ext)) = Ok v
    /\ templateShortKey (T_s3 K_unversioned)
         (Some (unversionedOptions bin platform arch ext))
       = Ok (JS.replace ("-v" ++ version ++ "-" ++ sha) "" v).
Proof.
  intros Hvalid. eexists. split; [apply templateShortKey_versioned|].
  unfold unversionedOptions. rewrite templateShortKey_unversioned.
  change ("-v" ++ version ++ "-" ++ sha) with (versionMarker version sha).
  now rewrite strip_marker.
Qed.

Lemma unversioned_is_versioned_stripped_witness :
  exists v,
    templateShortKey (T_s3 K_versioned)
      (Some (versionedOptions "mycli" "1.2.3" "abc1234" "linux" "x64" tar_gz)) = Ok v
    /\ templateShortKey (T_s3 K_unversioned)
         (Some (unversionedOptions "mycli" "linux" "x64" tar_gz))
       = Ok (JS.replace ("-v" ++ "1.2.3" ++ "-" ++ "abc1234") "" v).
Proof.
  apply (unversioned_is_versioned_stripped "mycli" "1.2.3" "abc1234" "linux" "x64" tar_gz).
  intros i Hi. simpl in Hi.
  do 5 (destruct i as [|i]; [reflexivity|]). lia.
Defined.

(** Outside the valid parameter sets the two names differ: a [bin] that
    carries the marker loses it there, and keeps the one of the template. *)
Example marker_inside_bin :
  templateShortKey (T_s3 K_versioned)
    (Some (versionedOptions "x-v1.2.3-abc1234y" "1.2.3" "abc1234" "linux" "x64" tar_gz))
  = Ok "x-v1.2.3-abc1234y-v1.2.3-abc1234-linux-x64.tar.gz"
  /\ JS.replace "-v1.2.3-abc1234" "" "x-v1.2.3-abc1234y-v1.2.3-abc1234-linux-x64.tar.gz"
     = "xy-v1.2.3-abc1234-linux-x64.tar.gz"
  /\ templateShortKey (T_s3 K_unversioned)
       (Some (unversionedOptions "x-v1.2.3-abc1234y" "linux" "x64" tar_gz))
     = Ok "x-v1.2.3-abc1234y-linux-x64.tar.gz".
Proof. repeat split; reflexivity. Qed.

(** ** Debian architecture names *)

Lemma knownArchs_inv (a : string) :
  In a knownArchs <-> a = "x64" \/ a = "x86" \/ a = "arm" \/ a = "arm64".
Proof.
  unfold knownArchs; simpl. split.
  - intros [H | [H | [H | [H | [ ] ] ] ] ]; subst; auto.
  - intros [H | [H | [H | H] ] ]; subst; auto.
Qed.

Lemma debArch_unknown (a : string) :
  ~ In a knownArchs -> debArch a = Throw (Error ("invalid arch: " ++ a)).
Proof.
  intros Hn. unfold debArch.
  destruct (String.eqb_spec a "x64") as [->|_]; [exfalso; apply Hn; simpl; auto|].
  destruct (String.eqb_spec a "x86") as [->|_]; [exfalso; apply Hn; simpl; auto|].
  destruct (String.eqb_spec a "arm") as [->|_]; [exfalso; apply Hn; simpl; auto|].
  destruct (String.eqb_spec a "arm64") as [->|_]; [exfalso; apply Hn; simpl; auto 6|].
  reflexivity.
Qed.

Lemma debArch_known (a : string) : In a knownArchs -> exists d, debArch a = Ok d.
Proof.
  intros H. apply knownArchs_inv in H.
  destruct H as [-> | [-> | [-> | ->] ] ]; eexists; reflexivity.
Qed.

(** C6. [debArch] returns ['amd64'] for x64, ['i386'] for x86, ['armel'] for
    arm and ['arm64'] for arm64; the names it returns are distinct for
    distinct architectures, it returns exactly on these four, and on any other
    value it throws the error [invalid arch: <value>]. *)
Theorem debArch_table :
  debArchResult "x64" = Ok "amd64"
  /\ debArchResult "x86" = Ok "i386"
  /\ debArchResult "arm" = Ok "armel"
  /\ debArchResult "arm64" = Ok "arm64"
  /\ (forall a b n, debArchResult a = Ok n -> debArchResult b = Ok n -> a = b)
  /\ (forall a, In a knownArchs <-> exists n, debArchResult a = Ok n)
  /\ (forall a, ~ In a knownArchs
                <-> debArchResult a = Throw (Error ("invalid arch: " ++ a))).
Proof.
  assert (Hknown : forall a n, debArchResult a = Ok n -> In a knownArchs).
  { intros a n Hn. destruct (in_dec string_dec a knownArchs) as [Hin | Hout];
      [exact Hin|].
    unfold debArchResult in Hn. rewrite (debArch_unknown a Hout) in Hn.
    discriminate Hn. }
  split; [reflexivity|]. split; [reflexivity|]. split; [reflexivity|].
  split; [reflexivity|]. split; [|split].
  - intros a b n Ha Hb.
    pose proof (Hknown a n Ha) as Hina. pose proof (Hknown b n Hb) as Hinb.
    apply knownArchs_inv in Hina, Hinb.
    destruct Hina as [-> | [-> | [-> | ->] ] ], Hinb as [-> | [-> | [-> | ->] ] ];
      cbn in Ha, Hb; first [reflexivity | congruence].
  - intros a. split.
    + intros Hin. destruct (debArch_known a Hin) as [d Hd].
      exists (DebArch_string d). unfold debArchResult. now rewrite Hd.
    + intros [n Hn]. now apply Hknown with n.
  - intros a. split.
    + intros Hout. unfold debArchResult. now rewrite (debArch_unknown a Hout).
    + intros Hthrow Hin. apply knownArchs_inv in Hin.
      destruct Hin as [-> | [-> | [-> | ->] ] ]; discriminate Hthrow.
Qed.

(** ** The Debian package name *)

Lemma templateShortKey_deb (a b vsr : string) (e p s v r : option string) :
  templateShortKey T_deb
    (Some (mkTemplateOptions (Some a) (Some b) e p s v (Some vsr) r))
  = Ok (b ++ "_" ++ vsr ++ "_" ++ a ++ ".deb").
Proof. reflexivity. Qed.

Lemma split_head_no_sep (sep : ascii) (s : string) :
  JS.includes (String sep "") s = false -> JS.split sep s = [s].
Proof.
  induction s as [|c s IH]; intros H; [reflexivity|].
  simpl in H. apply orb_false_iff in H. destruct H as [Hc Hs].
  rewrite andb_true_r in Hc. simpl.
  rewrite Ascii.eqb_sym, Hc. now rewrite (IH Hs).
Qed.

Lemma debShortKey_eq (bc : BuildConfig) (a : TargetOptions) (d : DebArch) :
  debArch (arch a) = Ok d ->
  Promote.debShortKey bc a
  = Ok (debFileName (bin (config bc)) (JS.split0 "-" (version (config bc)))
          (gitSha bc) (DebArch_string d)).
Proof.
  intros Hd. unfold Promote.debShortKey. rewrite Hd. cbn [bind].
  rewrite templateShortKey_deb. unfold debVersion, debFileName.
  now rewrite !append_assoc'.
Qed.




(** ** Channel tarball and index file name *)

Section PathFacts.

Lemma split_nonempty (sep : ascii) (s : string) : JS.split sep s <> [].
Proof.
  destruct s as [|c s]; simpl; [discriminate|].
  destruct (Ascii.eqb c sep); [discriminate|].
  destruct (JS.split sep s); discriminate.
Qed.

Lemma split_append_sep (sep : ascii) (a b : string) :
  JS.split sep (a ++ String sep b) = (JS.split sep a ++ JS.split sep b)%list.
Proof.
  induction a as [|c a IH]; simpl.
  - now rewrite Ascii.eqb_refl.
  - destruct (Ascii.eqb c sep); [now rewrite IH|].
    rewrite IH. pose proof (split_nonempty sep a) as Hne.
    destruct (JS.split sep a); [contradiction | reflexivity].
Qed.

Lemma includes_char_append (c : ascii) (a b : string) :
  JS.includes (String c "") (a ++ b)
  = JS.includes (String c "") a || JS.includes (String c "") b.
Proof.
  induction a as [|x a IH]; simpl.
  - destruct b; reflexivity.
  - rewrite IH, !andb_true_r. now rewrite orb_assoc.
Qed.

Lemma no_slash_append (a b : string) : no_slash a -> no_slash b -> no_slash (a ++ b).
Proof.
  unfold no_slash. intros Ha Hb. now rewrite includes_char_append, Ha, Hb.
Qed.

Lemma no_slash_ext (e : Ext) : no_slash (ext_string e).
Proof. destruct e; reflexivity. Qed.

(** The base name of a file that sits right under a directory. *)
Lemma basename_under (dir file : string) :
  no_slash file -> file <> "" -> Path.basename (dir ++ "/" ++ file) = file.
Proof.
  intros Hfile Hne. unfold Path.basename.
  change (dir ++ "/" ++ file) with (dir ++ String Path.slash file).
  rewrite split_append_sep, filter_app, (split_head_no_sep Path.slash file Hfile).
  destruct file as [|c f]; [contradiction|]. simpl filter at 2.
  apply last_last.
Qed.

End PathFacts.

(** C3, as the code has it.  Without custom templates, and for names without
    ['/'], [channelTarball] is the channel directory, a ['/'] and
    [indexFilename], so that it begins with the channel directory and its base
    name is [indexFilename]; with custom templates both are the same result
    of the hook. *)
Theorem channelTarball_and_indexFilename
  (cfg : Config) (s3c : S3Config) (opts : KeyOptions)
  (ext : Ext) (target : TargetOptions) (channel : string) :
  (hasCustomTemplates cfg = false ->
   no_slash (k_bin opts) -> no_slash (platform target) -> no_slash (arch target) ->
   exists name,
     indexFilename (s3Keys cfg s3c opts) ext target channel = Ok name
     /\ channelTarball (s3Keys cfg s3c opts) ext target channel
        = Ok (channelAWSDir channel s3c ++ "/" ++ name)
     /\ JS.startsWith (channelAWSDir channel s3c)
          (channelAWSDir channel s3c ++ "/" ++ name) = true
     /\ Path.basename (channelAWSDir channel s3c ++ "/" ++ name) = name)
  /\ (hasCustomTemplates cfg = true ->
      channelTarball (s3Keys cfg s3c opts) ext target channel
      = Ok (s3Key cfg K_unversioned (Some ext) (with_channel target channel))
      /\ indexFilename (s3Keys cfg s3c opts) ext target channel
         = Ok (s3Key cfg K_unversioned (Some ext) (with_channel target channel))).
Proof.
  split.
  - intros Hdefault Hbin Hplatform Harch.
    exists (k_bin opts ++ "-" ++ platform target ++ "-" ++ arch target ++ ext_string ext).
    cbn [s3Keys indexFilename channelTarball]. rewrite Hdefault.
    unfold spread. cbn [option_map]. rewrite templateShortKey_unversioned.
    repeat split.
    + apply startsWith_append.
    + apply basename_under.
      * repeat apply no_slash_append; auto using no_slash_ext; reflexivity.
      * destruct (k_bin opts); discriminate.
  - intros Hcustom. cbn [s3Keys indexFilename channelTarball].
    rewrite Hcustom. split; reflexivity.
Qed.

Lemma channelTarball_and_indexFilename_witness :
  exists name,
    indexFilename (s3Keys (makeConfig false) (makeS3Config "my-cli") defaultOpts)
      tar_gz linux_x64 "stable" = Ok name
    /\ channelTarball (s3Keys (makeConfig false) (makeS3Config "my-cli") defaultOpts)
         tar_gz linux_x64 "stable"
       = Ok (channelAWSDir "stable" (makeS3Config "my-cli") ++ "/" ++ name)
    /\ JS.startsWith (channelAWSDir "stable" (makeS3Config "my-cli"))
         (channelAWSDir "stable" (makeS3Config "my-cli") ++ "/" ++ name) = true
    /\ Path.basename (channelAWSDir "stable" (makeS3Config "my-cli") ++ "/" ++ name) = name.
Proof.
  apply (proj1 (channelTarball_and_indexFilename (makeConfig false) (makeS3Config "my-cli")
                  defaultOpts tar_gz linux_x64 "stable"));
    reflexivity.
Defined.

(** C3, as stated, fails with custom templates: the channel tarball key of the
    unit tests' hook neither begins with the channel directory nor has the
    index file name as its base name.  Without custom templates the base name
    differs from the index file name when [bin] holds a ['/']. *)
Lemma channelTarball_custom_not_under_channelDir :
  (exists key name,
     channelTarball (s3Keys (makeConfig true) (makeS3Config "") defaultOpts)
       tar_gz linux_x64 "stable" = Ok key
     /\ indexFilename (s3Keys (makeConfig true) (makeS3Config "") defaultOpts)
          tar_gz linux_x64 "stable" = Ok name
     /\ JS.startsWith (channelAWSDir "stable" (makeS3Config "")) key = false
     /\ Path.basename key <> name)
  /\ (exists key name,
        channelTarball (s3Keys (makeConfig false) (makeS3Config "")
                          (mkKeyOptions "tools/mycli" "abc1234" "1.2.3"))
          tar_gz linux_x64 "stable" = Ok key
        /\ indexFilename (s3Keys (makeConfig false) (makeS3Config "")
                            (mkKeyOptions "tools/mycli" "abc1234" "1.2.3"))
             tar_gz linux_x64 "stable" = Ok name
        /\ Path.basename key <> name).
Proof.
  split.
  - exists "custom/unversioned/linux-x64.tar.gz/stable",
      "custom/unversioned/linux-x64.tar.gz/stable".
    repeat split; try reflexivity. vm_compute. discriminate.
  - exists "channels/stable/tools/mycli-linux-x64.tar.gz", "tools/mycli-linux-x64.tar.gz".
    repeat split; try reflexivity. vm_compute. discriminate.
Qed.

(** ** Command code: events and settlement *)

Section IoFacts.

Context {A B : Type}.

Lemma and_then_ret (a : A) (k : A -> io B) : and_then (ret a) k = k a.
Proof. unfold and_then, ret. now destruct (k a). Qed.

Lemma and_then_nil (a : A) (k : A -> io B) : and_then ([], Fulfilled a) k = k a.
Proof. apply and_then_ret. Qed.

Lemma and_then_lift_Ok (a : A) (k : A -> io B) : and_then (lift (Ok a)) k = k a.
Proof. apply and_then_ret. Qed.

Lemma and_then_rejected (evs : list event) (es : list error) (k : A -> io B) :
  and_then (evs, Rejected es) k = (evs, Rejected es).
Proof. reflexivity. Qed.

Lemma and_then_fulfilled (evs : list event) (a : A) (k : A -> io B) :
  and_then (evs, Fulfilled a) k = ((evs ++ fst (k a))%list, snd (k a)).
Proof. unfold and_then. now destruct (k a). Qed.

End IoFacts.

(** Starting one asynchronous task per element never rejects: the events are
    those of the bodies, in order, and the promises are how the bodies
    settle. *)
Lemma map_io_async {A : Type} (f : A -> io unit) (l : list A) :
  map_io (fun a => async (f a)) l
  = (flat_map (fun a => fst (f a)) l, Fulfilled (map (fun a => snd (f a)) l)).
Proof.
  induction l as [|a l IH]; [reflexivity|].
  cbn [map_io flat_map map]. rewrite IH. unfold async.
  rewrite !and_then_fulfilled. cbn [fst snd ret]. now rewrite app_nil_r.
Qed.

Lemma Promise_all_fulfilled (ps : list promise) :
  Forall (fun p => p = Fulfilled tt) ps -> Promise_all ps = Fulfilled tt.
Proof.
  intros H. unfold Promise_all.
  replace (concat (map rejections ps)) with (@nil error); [reflexivity|].
  induction H as [|p ps Hp _ IH]; [reflexivity|]. subst p. exact IH.
Qed.

(** ** The key builder is total *)

Lemma versioned_eq (cfg : Config) (s3c : S3Config) (opts : KeyOptions)
    (e : Ext) (t : TargetOptions) :
  versioned (s3Keys cfg s3c opts) e t = Ok (versionedKey cfg opts e t).
Proof.
  cbn [s3Keys versioned]. unfold versionedKey.
  destruct (hasCustomTemplates cfg); [reflexivity|].
  apply (templateShortKey_versioned (k_bin opts) (k_version opts) (k_sha opts)
           (platform t) (arch t) e).
Qed.

Lemma manifest_eq (cfg : Config) (s3c : S3Config) (opts : KeyOptions) (t : TargetOptions) :
  manifest (s3Keys cfg s3c opts) t = Ok (manifestKey cfg opts t).
Proof.
  cbn [s3Keys manifest]. unfold manifestKey.
  destruct (hasCustomTemplates cfg); [reflexivity|].
  apply templateShortKey_manifest.
Qed.

(** ** The upload command *)

Lemma target_eta (t : TargetOptions) : mkTarget (arch t) (platform t) = t.
Proof. now destruct t. Qed.

Section UploadFacts.

Variable sv : Services.
Variable flags : Upload.Flags.
Variable bc : BuildConfig.

Lemma releaseTarballs_eq (t : TargetOptions) (e : Ext) :
  Upload.releaseTarballs sv flags bc t e
  = ([UploadFile (localTarball bc e t) (tarballUploadParams bc e t) (Upload.dry_run flags)],
     settle (uploadFile sv (localTarball bc e t) (tarballUploadParams bc e t)
               (Upload.dry_run flags))).
Proof.
  unfold Upload.releaseTarballs. rewrite versioned_eq, and_then_lift_Ok.
  reflexivity.
Qed.

Lemma maybeUploadManifest_eq (t : TargetOptions) :
  Upload.maybeUploadManifest sv flags bc t
  = if existsSync sv (localManifest bc t)
    then ([Log ("checking for buildmanifest at " ++ localManifest bc t);
           Log ("uploading buildmanifest " ++ manifestKey (config bc) (uploadOptions bc) t);
           UploadFile (localManifest bc t) (manifestUploadParams bc t) (Upload.dry_run flags)],
          settle (uploadFile sv (localManifest bc t) (manifestUploadParams bc t)
                    (Upload.dry_run flags)))
    else ([Log ("checking for buildmanifest at " ++ localManifest bc t);
           manifestWarning bc t],
          Fulfilled tt).
Proof.
  unfold Upload.maybeUploadManifest. rewrite manifest_eq, and_then_lift_Ok.
  fold (uploadOptions bc). fold (localManifest bc t).
  destruct (existsSync sv (localManifest bc t)); reflexivity.
Qed.

Lemma uploadTarball_eq (t : TargetOptions) :
  Upload.uploadTarball sv flags bc t
  = ((fst (Upload.releaseTarballs sv flags bc t tar_gz)
        ++ fst (Upload.maybeUploadManifest sv flags bc t)
        ++ (if xz bc then fst (Upload.releaseTarballs sv flags bc t tar_xz) else []))%list,
     Promise_all
       (snd (Upload.releaseTarballs sv flags bc t tar_gz)
          :: snd (Upload.maybeUploadManifest sv flags bc t)
          :: (if xz bc then [snd (Upload.releaseTarballs sv flags bc t tar_xz)] else []))).
Proof.
  unfold Upload.uploadTarball. rewrite target_eta.
  unfold async, when. rewrite !and_then_fulfilled.
  destruct (xz bc); cbn [fst snd ret await and_then]; rewrite ?app_nil_r; reflexivity.
Qed.

(** The check passes when every target is built. *)
Lemma checkTargets_built :
  targetsBuilt sv bc -> Upload.checkTargets sv bc = ([], Fulfilled tt).
Proof.
  unfold targetsBuilt, Upload.checkTargets.
  induction (targets bc) as [|t l IH]; intros Hall; [reflexivity|].
  cbn [for_each]. rewrite versioned_eq, and_then_lift_Ok, target_eta.
  fold (uploadOptions bc). fold (localTarball bc tar_gz t).
  rewrite (Hall t (or_introl eq_refl)). cbn [negb].
  rewrite and_then_ret. apply IH. intros t' Ht'. apply Hall. now right.
Qed.

(** The check fails on the first target that is not built, having called
    nothing. *)
Lemma checkTargets_missing :
  (exists t, In t (targets bc) /\ existsSync sv (localTarball bc tar_gz t) = false) ->
  exists t, In t (targets bc)
    /\ existsSync sv (localTarball bc tar_gz t) = false
    /\ Upload.checkTargets sv bc = ([], Rejected [missingTarball bc t]).
Proof.
  unfold Upload.checkTargets.
  induction (targets bc) as [|t l IH]; intros [t0 [Hin Hmiss]]; [destruct Hin|].
  cbn [for_each]. rewrite versioned_eq, and_then_lift_Ok, target_eta.
  fold (uploadOptions bc). fold (localTarball bc tar_gz t).
  destruct (existsSync sv (localTarball bc tar_gz t)) eqn:Ht.
  - cbn [negb]. rewrite and_then_ret.
    destruct IH as [t1 [Hin1 [Hmiss1 Hrun]]].
    + destruct Hin as [->|Hin]; [congruence|]. now exists t0.
    + exists t1. split; [now right|]. split; [exact Hmiss1 | exact Hrun].
  - exists t. split; [now left|]. split; [exact Ht | reflexivity].
Qed.

End UploadFacts.

(** C5. When the local [.tar.gz] of some target of the build is missing, the
    upload run rejects with the diagnostic of such a target, which names the
    tarball and [<platform>-<arch>] and suggests the pack step, and it has
    made no call at all: no upload, for any target. *)
Theorem upload_fails_fast (sv : Services) (flags : Upload.Flags) (bc : BuildConfig) :
  (exists t, In t (targets bc) /\ existsSync sv (localTarball bc tar_gz t) = false) ->
  exists t,
    In t (targets bc)
    /\ existsSync sv (localTarball bc tar_gz t) = false
    /\ Upload.run sv flags bc
       = ([], Rejected
                [CLIError
                   ("Cannot find a tarball " ++ localTarball bc tar_gz t ++ " for "
                      ++ platform t ++ "-" ++ arch t)
                   ["Run " ++ dquote ++ "oclif pack --target "
                      ++ platform t ++ "-" ++ arch t ++ dquote ++ " before uploading"]]).
Proof.
  intros Hmissing.
  destruct (checkTargets_missing sv bc Hmissing) as [t [Hin [Hmiss Hcheck]]].
  exists t. split; [exact Hin|]. split; [exact Hmiss|].
  unfold Upload.run. rewrite Hcheck. reflexivity.
Qed.

Lemma upload_fails_fast_witness :
  exists t,
    In t [linux_x64]
    /\ existsSync emptyDisk
         (localTarball
            (testBuild (makeConfig false) "abc1234" (makeS3Config "") [linux_x64] false)
            tar_gz t) = false
    /\ Upload.run emptyDisk (Upload.mkFlags false)
         (testBuild (makeConfig false) "abc1234" (makeS3Config "") [linux_x64] false)
       = ([], Rejected
                [CLIError
                   ("Cannot find a tarball "
                      ++ localTarball
                           (testBuild (makeConfig false) "abc1234" (makeS3Config "")
                              [linux_x64] false) tar_gz t
                      ++ " for " ++ platform t ++ "-" ++ arch t)
                   ["Run " ++ dquote ++ "oclif pack --target "
                      ++ platform t ++ "-" ++ arch t ++ dquote ++ " before uploading"]]).
Proof.
  apply (upload_fails_fast emptyDisk (Upload.mkFlags false)
           (testBuild (makeConfig false) "abc1234" (makeS3Config "") [linux_x64] false)).
  exists linux_x64. split; [left; reflexivity | reflexivity].
Defined.

Example upload_fails_fast_message :
  Upload.run emptyDisk (Upload.mkFlags false)
    (testBuild (makeConfig false) "abc1234" (makeS3Config "") [linux_x64] false)
  = ([], Rejected
           [CLIError
              "Cannot find a tarball dist/mycli-v1.2.3-abc1234-linux-x64.tar.gz for linux-x64"
              ["Run " ++ dquote ++ "oclif pack --target linux-x64" ++ dquote
                 ++ " before uploading"]]).
Proof. reflexivity. Qed.

Section UploadRun.

Variable sv : Services.
Variable flags : Upload.Flags.
Variable bc : BuildConfig.

Lemma checkTargets_events : fst (Upload.checkTargets sv bc) = [].
Proof.
  unfold Upload.checkTargets.
  induction (targets bc) as [|t l IH]; [reflexivity|].
  cbn [for_each]. rewrite versioned_eq, and_then_lift_Ok.
  destruct (negb _); [reflexivity|]. now rewrite and_then_ret.
Qed.

(** The run after a check that passed. *)
Lemma run_checked :
  Upload.checkTargets sv bc = ([], Fulfilled tt) ->
  Upload.run sv flags bc
  = match Promise_all (map (fun t => snd (Upload.uploadTarball sv flags bc t)) (targets bc)) with
    | Fulfilled _ =>
        ((uploadEvents sv flags bc
            ++ [Log ("done uploading tarballs & manifests for v"
                       ++ version (config bc) ++ "-" ++ gitSha bc)])%list,
         Fulfilled tt)
    | Rejected es => (uploadEvents sv flags bc, Rejected es)
    end.
Proof.
  intros Hcheck. unfold Upload.run, uploadEvents. rewrite Hcheck, and_then_nil.
  rewrite map_io_async.
  set (evs := flat_map _ _). set (ps := map _ _).
  destruct (0 <? List.length (targets bc))%nat;
    unfold and_then, emit, ret, await; cbn beta iota;
    destruct (Promise_all ps) as [[]|es];
    cbn [app]; rewrite ?app_nil_r; reflexivity.
Qed.

(** The run after a check that failed. *)
Lemma run_unchecked (es : list error) :
  Upload.checkTargets sv bc = ([], Rejected es) ->
  Upload.run sv flags bc = ([], Rejected es).
Proof. intros Hcheck. unfold Upload.run. now rewrite Hcheck. Qed.

Lemma checkTargets_cases :
  Upload.checkTargets sv bc = ([], Fulfilled tt)
  \/ exists es, Upload.checkTargets sv bc = ([], Rejected es).
Proof.
  pose proof checkTargets_events as Hev.
  destruct (Upload.checkTargets sv bc) as [evs [[]|es]]; cbn in Hev; subst evs; eauto.
Qed.

(** Every call of the run is the first log line, the last one, or a call of
    the upload of some target. *)
Lemma run_events (e : event) :
  In e (fst (Upload.run sv flags bc)) ->
  e = Log "uploading targets"
  \/ e = Log ("done uploading tarballs & manifests for v"
                ++ version (config bc) ++ "-" ++ gitSha bc)
  \/ exists t, In t (targets bc) /\ In e (fst (Upload.uploadTarball sv flags bc t)).
Proof.
  destruct checkTargets_cases as [Hok | [es Hbad]].
  - rewrite (run_checked Hok).
    assert (Hup : In e (uploadEvents sv flags bc) ->
                  e = Log "uploading targets"
                  \/ exists t, In t (targets bc)
                       /\ In e (fst (Upload.uploadTarball sv flags bc t))).
    { unfold uploadEvents. intros Hin. apply in_app_or in Hin.
      destruct Hin as [Hin | Hin].
      - destruct (0 <? _)%nat; [destruct Hin as [<-|[]]; now left | destruct Hin].
      - right. apply in_flat_map in Hin. exact Hin. }
    destruct (Promise_all _); cbn [fst]; intros Hin.
    + apply in_app_or in Hin. destruct Hin as [Hin | [<-|[]]].
      * destruct (Hup Hin) as [->|H]; auto.
      * auto.
    + destruct (Hup Hin) as [->|H]; auto.
  - rewrite (run_unchecked es Hbad). intros [].
Qed.

(** Once the check has passed, the calls of every target are made. *)
Lemma run_calls_uploadTarball (t : TargetOptions) (e : event) :
  targetsBuilt sv bc -> In t (targets bc) ->
  In e (fst (Upload.uploadTarball sv flags bc t)) ->
  In e (fst (Upload.run sv flags bc)).
Proof.
  intros Hbuilt Ht He. rewrite (run_checked (checkTargets_built sv bc Hbuilt)).
  assert (Hin : In e (uploadEvents sv flags bc)).
  { unfold uploadEvents. apply in_or_app. right. apply in_flat_map. eauto. }
  destruct (Promise_all _); cbn [fst]; [apply in_or_app; now left | exact Hin].
Qed.

End UploadRun.
Section UploadSettles.

Variable sv : Services.
Variable flags : Upload.Flags.
Variable bc : BuildConfig.

Hypothesis client_accepts : forall l p d, uploadFile sv l p d = Ok tt.

Lemma uploadTarball_fulfilled (t : TargetOptions) :
  snd (Upload.uploadTarball sv flags bc t) = Fulfilled tt.
Proof.
  rewrite uploadTarball_eq. cbn [snd]. apply Promise_all_fulfilled.
  rewrite !releaseTarballs_eq, maybeUploadManifest_eq, !client_accepts.
  destruct (existsSync sv (localManifest bc t)), (xz bc); cbn [snd settle];
    rewrite ?client_accepts; repeat constructor.
Qed.

Lemma run_fulfilled : targetsBuilt sv bc -> snd (Upload.run sv flags bc) = Fulfilled tt.
Proof.
  intros Hbuilt. rewrite (run_checked sv flags bc (checkTargets_built sv bc Hbuilt)).
  rewrite Promise_all_fulfilled; [reflexivity|].
  apply Forall_forall. intros p Hp. apply in_map_iff in Hp.
  destruct Hp as [t [<- _]]. apply uploadTarball_fulfilled.
Qed.

End UploadSettles.

(** C8. The build manifest of a target is uploaded, when its local file
    exists, to its cloud key with [max-age=86400] and the JSON content type;
    when it does not exist a warning is issued and the task is fulfilled.  In a
    run whose targets are all built these calls are made, and the run is
    fulfilled whenever the client accepts the uploads it is given, whether or
    not the manifests exist. *)
Theorem manifest_upload_or_warning
  (sv : Services) (flags : Upload.Flags) (bc : BuildConfig) (t : TargetOptions) :
  (existsSync sv (localManifest bc t) = true ->
   Upload.maybeUploadManifest sv flags bc t
   = ([Log ("checking for buildmanifest at " ++ localManifest bc t);
       Log ("uploading buildmanifest " ++ manifestKey (config bc) (uploadOptions bc) t);
       UploadFile (localManifest bc t)
         (mkUploadParams (JS.or_else (acl (s3Config bc)) "public-read")
            (bucket (s3Config bc)) "max-age=86400" "application/json"
            (cloudKey (uploadKeys bc) (manifestKey (config bc) (uploadOptions bc) t)))
         (Upload.dry_run flags)],
      settle (uploadFile sv (localManifest bc t) (manifestUploadParams bc t)
                (Upload.dry_run flags))))
  /\ (existsSync sv (localManifest bc t) = false ->
      Upload.maybeUploadManifest sv flags bc t
      = ([Log ("checking for buildmanifest at " ++ localManifest bc t);
          Warn ("Cannot find buildmanifest " ++ localManifest bc t
                  ++ ". CLI will not be able to update itself.")],
         Fulfilled tt))
  /\ (targetsBuilt sv bc ->
      (In t (targets bc) -> existsSync sv (localManifest bc t) = true ->
       In (UploadFile (localManifest bc t) (manifestUploadParams bc t) (Upload.dry_run flags))
          (fst (Upload.run sv flags bc)))
      /\ (In t (targets bc) -> existsSync sv (localManifest bc t) = false ->
          In (manifestWarning bc t) (fst (Upload.run sv flags bc)))
      /\ ((forall l p d, uploadFile sv l p d = Ok tt) ->
          snd (Upload.run sv flags bc) = Fulfilled tt)).
Proof.
  split; [|split; [|intros Hbuilt; split; [|split]]].
  - intros Hex. now rewrite maybeUploadManifest_eq, Hex.
  - intros Hex. now rewrite maybeUploadManifest_eq, Hex.
  - intros Ht Hex. apply (run_calls_uploadTarball sv flags bc t _ Hbuilt Ht).
    rewrite uploadTarball_eq, maybeUploadManifest_eq, Hex. cbn [fst].
    apply in_or_app. right. apply in_or_app. left. simpl. auto.
  - intros Ht Hex. apply (run_calls_uploadTarball sv flags bc t _ Hbuilt Ht).
    rewrite uploadTarball_eq, maybeUploadManifest_eq, Hex. cbn [fst].
    apply in_or_app. right. apply in_or_app. left. simpl. auto.
  - intros Hclient. now apply run_fulfilled.
Qed.

(** A run with the tarball on disk and no build manifest: the warning is
    issued and the run is fulfilled. *)
Lemma manifest_upload_or_warning_witness :
  In (manifestWarning
        (testBuild (makeConfig false) "abc1234" (makeS3Config "") [linux_x64] false)
        linux_x64)
     (fst (Upload.run (diskServices ["dist/mycli-v1.2.3-abc1234-linux-x64.tar.gz"])
             (Upload.mkFlags false)
             (testBuild (makeConfig false) "abc1234" (makeS3Config "") [linux_x64] false)))
  /\ snd (Upload.run (diskServices ["dist/mycli-v1.2.3-abc1234-linux-x64.tar.gz"])
            (Upload.mkFlags false)
            (testBuild (makeConfig false) "abc1234" (makeS3Config "") [linux_x64] false))
     = Fulfilled tt.
Proof.
  assert (Hbuilt : targetsBuilt (diskServices ["dist/mycli-v1.2.3-abc1234-linux-x64.tar.gz"])
                     (testBuild (makeConfig false) "abc1234" (makeS3Config "")
                        [linux_x64] false)).
  { intros t [<-|[]]. reflexivity. }
  destruct (manifest_upload_or_warning
              (diskServices ["dist/mycli-v1.2.3-abc1234-linux-x64.tar.gz"])
              (Upload.mkFlags false)
              (testBuild (makeConfig false) "abc1234" (makeS3Config "") [linux_x64] false)
              linux_x64) as [_ [_ Hrun]].
  destruct (Hrun Hbuilt) as [_ [Hwarn _]].
  split; [apply Hwarn; [left; reflexivity | reflexivity] | reflexivity].
Defined.

Example upload_run_without_manifest :
  Upload.run (diskServices ["dist/mycli-v1.2.3-abc1234-linux-x64.tar.gz"])
    (Upload.mkFlags false)
    (testBuild (makeConfig false) "abc1234" (mkS3Config None (Some "bucket") None)
       [linux_x64] false)
  = ([Log "uploading targets";
      UploadFile "dist/mycli-v1.2.3-abc1234-linux-x64.tar.gz"
        (mkUploadParams "public-read" (Some "bucket") "max-age=604800" "application/gzip"
           "versions/1.2.3/abc1234/mycli-v1.2.3-abc1234-linux-x64.tar.gz") false;
      Log "checking for buildmanifest at dist/mycli-v1.2.3-abc1234-linux-x64-buildmanifest";
      Warn "Cannot find buildmanifest dist/mycli-v1.2.3-abc1234-linux-x64-buildmanifest. CLI will not be able to update itself.";
      Log "done uploading tarballs & manifests for v1.2.3-abc1234"],
     Fulfilled tt).
Proof. reflexivity. Qed.

(** C10. The check of the upload looks at the [.tar.gz] of each target only:
    it passes whenever these exist.  With xz enabled, the [.tar.gz] on disk
    and the [.tar.xz] absent, the check passes, the uploads start, and the run
    is rejected by the upload of the [.tar.xz], whose local file the client
    does not find. *)
Theorem xz_tarball_not_checked :
  (forall sv bc, targetsBuilt sv bc -> Upload.checkTargets sv bc = ([], Fulfilled tt))
  /\ exists files flags bc t,
       xz bc = true
       /\ In t (targets bc)
       /\ existsSync (diskServices files) (localTarball bc tar_gz t) = true
       /\ existsSync (diskServices files) (localTarball bc tar_xz t) = false
       /\ Upload.checkTargets (diskServices files) bc = ([], Fulfilled tt)
       /\ Upload.run (diskServices files) flags bc
          = ([Log "uploading targets";
              UploadFile (localTarball bc tar_gz t) (tarballUploadParams bc tar_gz t) false;
              Log ("checking for buildmanifest at " ++ localManifest bc t);
              manifestWarning bc t;
              UploadFile (localTarball bc tar_xz t) (tarballUploadParams bc tar_xz t) false],
             Rejected
               [Error ("ENOENT: no such file or directory, open "
                         ++ localTarball bc tar_xz t)]).
Proof.
  split; [exact checkTargets_built|].
  exists ["dist/mycli-v1.2.3-abc1234-linux-x64.tar.gz"], (Upload.mkFlags false),
    (testBuild (makeConfig false) "abc1234" (mkS3Config None (Some "bucket") None)
       [linux_x64] true), linux_x64.
  repeat (split; [first [reflexivity | now left]|]). reflexivity.
Qed.

(** ** The default ACL *)

Lemma upload_acl_default (sv : Services) (flags : Upload.Flags) (bc : BuildConfig)
    (l : string) (p : UploadParams) (d : bool) :
  acl (s3Config bc) = None ->
  In (UploadFile l p d) (fst (Upload.run sv flags bc)) -> up_ACL p = "public-read".
Proof.
  intros Hacl Hin. apply run_events in Hin.
  destruct Hin as [H | [H | [t [_ Hin]]]]; try discriminate H.
  rewrite uploadTarball_eq, !releaseTarballs_eq, maybeUploadManifest_eq in Hin.
  cbn [fst] in Hin.
  assert (Hgz : forall e, up_ACL (tarballUploadParams bc e t) = "public-read")
    by (intros e; cbn; now rewrite Hacl).
  assert (Hman : up_ACL (manifestUploadParams bc t) = "public-read")
    by (cbn; now rewrite Hacl).
  destruct (existsSync sv (localManifest bc t)), (xz bc); cbn in Hin;
    repeat (destruct Hin as [Hin | Hin]; [inversion Hin; subst; auto|]);
    destruct Hin.
Qed.

(** ** Invariants of the calls *)

Section Calls.

Variable P : event -> Prop.

Lemma calls_ret {A} (a : A) : calls_satisfy P (ret a).
Proof. constructor. Qed.

Lemma calls_throw {A} (e : error) : calls_satisfy P (@throw A e).
Proof. constructor. Qed.

Lemma calls_lift {A} (r : result A) : calls_satisfy P (lift r).
Proof. destruct r; constructor. Qed.

Lemma calls_await (p : promise) : calls_satisfy P (await p).
Proof. constructor. Qed.

Lemma calls_emit (e : event) : P e -> calls_satisfy P (emit e).
Proof. intros H. repeat constructor. exact H. Qed.

Lemma calls_start (e : event) (r : result unit) : P e -> calls_satisfy P (start e r).
Proof. intros H. repeat constructor. exact H. Qed.

Lemma calls_and_then {A B} (m : io A) (k : A -> io B) :
  calls_satisfy P m -> (forall a, calls_satisfy P (k a)) ->
  calls_satisfy P (and_then m k).
Proof.
  unfold calls_satisfy. intros Hm Hk. destruct m as [evs [a|es]]; cbn in *.
  - specialize (Hk a). destruct (k a) as [evs' r]. cbn in *.
    apply Forall_app. now split.
  - exact Hm.
Qed.

Lemma calls_async (body : io unit) : calls_satisfy P body -> calls_satisfy P (async body).
Proof. intros H. exact H. Qed.

Lemma calls_when {A} (cond : bool) (items : io (list A)) :
  calls_satisfy P items -> calls_satisfy P (when cond items).
Proof. intros H. destruct cond; [exact H | constructor]. Qed.

Lemma calls_map_io {A B} (f : A -> io B) (l : list A) :
  (forall a, calls_satisfy P (f a)) -> calls_satisfy P (map_io f l).
Proof.
  intros Hf. induction l as [|a l IH]; [constructor|].
  cbn [map_io]. apply calls_and_then; [apply Hf|]. intros b.
  apply calls_and_then; [exact IH|]. intros bs. apply calls_ret.
Qed.

Lemma calls_if {A} (b : bool) (m1 m2 : io A) :
  calls_satisfy P m1 -> calls_satisfy P m2 -> calls_satisfy P (if b then m1 else m2).
Proof. now destruct b. Qed.

End Calls.

Ltac calls_step :=
  lazymatch goal with
  | |- calls_satisfy _ (and_then _ _) => apply calls_and_then; [|intros ?]
  | |- calls_satisfy _ (map_io _ _) => apply calls_map_io; intros ?
  | |- calls_satisfy _ (async _) => apply calls_async
  | |- calls_satisfy _ (when _ _) => apply calls_when
  | |- calls_satisfy _ (if _ then _ else _) => apply calls_if
  | |- calls_satisfy _ (lift _) => apply calls_lift
  | |- calls_satisfy _ (ret _) => apply calls_ret
  | |- calls_satisfy _ (throw _) => apply calls_throw
  | |- calls_satisfy _ (await _) => apply calls_await
  | |- calls_satisfy _ (emit _) => apply calls_emit
  | |- calls_satisfy _ (start _ _) => apply calls_start
  end.

Lemma promote_acl_default (sv : Services) (flags : Promote.Flags) (bc : BuildConfig) :
  calls_satisfy (copies_with_acl (JS.nullish (acl (s3Config bc)) "public-read"))
    (Promote.run sv flags bc).
Proof.
  unfold Promote.run, Promote.promoteManifest, Promote.promoteGzTarballs,
    Promote.promoteXzTarballs, Promote.promoteTarballs, Promote.promoteMacInstallers,
    Promote.promoteWindowsInstallers, Promote.promoteDebianAptPackages,
    Promote.promoteDebArtifact, Promote.s3_copyObject, Promote.do_appendToIndex.
  cbv zeta.
  repeat calls_step; exact I || reflexivity.
Qed.

(** C9. When the storage configuration has no ACL, every upload of the upload
    command and every copy of the promote command is issued with the canned
    ACL [public-read]. *)
Theorem default_acl_is_public_read
  (sv : Services) (uflags : Upload.Flags) (pflags : Promote.Flags) (bc : BuildConfig) :
  acl (s3Config bc) = None ->
  (forall l p d, In (UploadFile l p d) (fst (Upload.run sv uflags bc)) ->
                 up_ACL p = "public-read")
  /\ (forall p o, In (CopyObject p o) (fst (Promote.run sv pflags bc)) ->
                  cp_ACL p = "public-read").
Proof.
  intros Hacl. split.
  - intros l p d. now apply upload_acl_default.
  - intros p o Hin.
    pose proof (promote_acl_default sv pflags bc) as Hall.
    unfold calls_satisfy in Hall. rewrite Forall_forall in Hall.
    specialize (Hall _ Hin). cbn in Hall. now rewrite Hacl in Hall.
Qed.

Lemma default_acl_is_public_read_witness :
  (forall l p d,
     In (UploadFile l p d)
        (fst (Upload.run idleServices (Upload.mkFlags false)
                (testBuild (makeConfig false) "abc1234" (mkS3Config None (Some "bucket") None)
                   [linux_x64] true))) ->
     up_ACL p = "public-read")
  /\ (forall p o,
        In (CopyObject p o)
           (fst (Promote.run idleServices (promoteFlags true true true true true)
                   (testBuild (makeConfig false) "abc1234"
                      (mkS3Config None (Some "bucket") None) [linux_x64] true))) ->
        cp_ACL p = "public-read").
Proof.
  apply (default_acl_is_public_read idleServices (Upload.mkFlags false)
           (promoteFlags true true true true true)
           (testBuild (makeConfig false) "abc1234" (mkS3Config None (Some "bucket") None)
              [linux_x64] true)).
  reflexivity.
Defined.

(** With an empty ACL in the configuration the two commands differ: the
    upload falls back to [public-read], the promotion keeps the empty one. *)
Example empty_acl :
  Upload.S3Options_ACL
    (testBuild (makeConfig false) "abc1234" (mkS3Config None (Some "bucket") (Some ""))
       [linux_x64] false) = "public-read"
  /\ cp_ACL (Promote.awsDefaults (promoteFlags false false false false false)
               (testBuild (makeConfig false) "abc1234"
                  (mkS3Config None (Some "bucket") (Some "")) [linux_x64] false)
               "source" "key") = "".
Proof. split; reflexivity. Qed.

(** ** Debian promotion *)

Lemma mapM_Ok {A B} (f : A -> result B) (g : A -> B) (l : list A) :
  (forall a, In a l -> f a = Ok (g a)) -> mapM f l = Ok (map g l).
Proof.
  induction l as [|a l IH]; intros H; [reflexivity|].
  cbn [mapM map]. rewrite (H a (or_introl eq_refl)). cbn [bind].
  rewrite IH; [reflexivity|]. intros b Hb. apply H. now right.
Qed.

Lemma map_io_fulfilled {A B} (f : A -> io B) (ev : A -> list event) (val : A -> B)
    (l : list A) :
  (forall a, f a = (ev a, Fulfilled (val a))) ->
  map_io f l = (flat_map ev l, Fulfilled (map val l)).
Proof.
  intros Hf. induction l as [|a l IH]; [reflexivity|].
  cbn [map_io flat_map map]. rewrite Hf, IH.
  unfold and_then, ret. cbn [app]. now rewrite app_nil_r.
Qed.

Lemma filter_filter {A} (p q : A -> bool) (l : list A) :
  filter q (filter p l) = filter (fun a => p a && q a) l.
Proof.
  induction l as [|a l IH]; [reflexivity|].
  cbn [filter]. destruct (p a); cbn [filter andb]; [destruct (q a)|]; now rewrite IH.
Qed.

Lemma debShortKeys_eq (bc : BuildConfig) :
  (forall t, In t (debTargets bc) -> In (arch t) knownArchs) ->
  Promote.debShortKeys bc = Ok (debFiles bc).
Proof.
  intros Hknown. unfold Promote.debShortKeys, debFiles. cbv zeta.
  rewrite filter_filter. fold (debTargets bc).
  apply mapM_Ok. intros t Ht.
  destruct (debArch_known (arch t) (Hknown t Ht)) as [d Hd].
  rewrite (debShortKey_eq bc t d Hd). unfold debArchName. now rewrite Hd.
Qed.

(** ** Paths made of clean segments *)

Section NormalizeFacts.

Lemma join_cons (sep s : string) (rest : list string) :
  rest <> [] -> JS.join sep (s :: rest) = s ++ sep ++ JS.join sep rest.
Proof. destruct rest; [contradiction | reflexivity]. Qed.

Lemma split_join (segs : list string) :
  segs <> [] -> Forall no_slash segs -> JS.split Path.slash (JS.join "/" segs) = segs.
Proof.
  induction segs as [|s rest IH]; intros Hne Hall; [contradiction|].
  inversion Hall as [|? ? Hs Hrest]; subst.
  destruct rest as [|s' rest'].
  - apply split_head_no_sep. exact Hs.
  - rewrite join_cons by discriminate.
    change (s ++ "/" ++ JS.join "/" (s' :: rest'))
      with (s ++ String Path.slash (JS.join "/" (s' :: rest'))).
    rewrite split_append_sep, (split_head_no_sep Path.slash s Hs), IH;
      [reflexivity | discriminate | exact Hrest].
Qed.

Lemma norm_step_plain (b : bool) (rstack : list string) (s : string) :
  plain s -> Path.norm_step b rstack s = if Path.nonempty s then s :: rstack else rstack.
Proof.
  intros [_ [Hdot Hdots]]. unfold Path.norm_step.
  destruct (String.eqb_spec s "") as [->|Hne]; [reflexivity|].
  destruct (String.eqb_spec s ".") as [->|_]; [contradiction|].
  destruct (String.eqb_spec s "..") as [->|_]; [contradiction|].
  destruct s; [contradiction | reflexivity].
Qed.

Lemma fold_norm_step_plain (b : bool) (segs rstack : list string) :
  Forall plain segs ->
  fold_left (Path.norm_step b) segs rstack
  = (rev (filter Path.nonempty segs) ++ rstack)%list.
Proof.
  revert rstack. induction segs as [|s segs IH]; intros rstack Hall; [reflexivity|].
  inversion Hall as [|? ? Hs Hsegs]; subst.
  cbn [fold_left filter]. rewrite (norm_step_plain b rstack s Hs), (IH _ Hsegs).
  destruct (Path.nonempty s); [|reflexivity].
  cbn [rev]. now rewrite <- app_assoc.
Qed.

Lemma plain_no_slash (s : string) : plain s -> no_slash s.
Proof. now intros [H _]. Qed.

Lemma normalizeString_join (b : bool) (segs : list string) :
  segs <> [] -> Forall plain segs ->
  Path.normalizeString (JS.join "/" segs) b = JS.join "/" (filter Path.nonempty segs).
Proof.
  intros Hne Hall. unfold Path.normalizeString.
  rewrite split_join;
    [| exact Hne | eapply Forall_impl; [apply plain_no_slash | exact Hall]].
  rewrite fold_norm_step_plain by exact Hall.
  now rewrite app_nil_r, rev_involutive.
Qed.

Lemma slice_last_append (a b : string) :
  b <> "" -> JS.slice_last (a ++ b) = JS.slice_last b.
Proof.
  intros Hb. induction a as [|c a IH]; [reflexivity|].
  cbn [append JS.slice_last]. rewrite IH.
  destruct (a ++ b) eqn:Hab; [|reflexivity].
  destruct a; [cbn in Hab; contradiction | discriminate Hab].
Qed.

Lemma slice_last_includes (c : ascii) (s : string) :
  JS.slice_last s = String c "" -> JS.includes (String c "") s = true.
Proof.
  induction s as [|x s IH]; [discriminate|].
  intros H. cbn [JS.slice_last] in H. destruct s as [|y s'].
  - inversion H; subst. cbn. now rewrite Ascii.eqb_refl.
  - pose proof (IH H) as Hrec. cbn [JS.includes] in Hrec |- *.
    rewrite Hrec. apply orb_true_r.
Qed.

Lemma slice_last_clean (s : string) :
  no_slash s -> (JS.slice_last s =? "/") = false.
Proof.
  intros Hs. destruct (String.eqb_spec (JS.slice_last s) "/") as [Heq|]; [|reflexivity].
  apply slice_last_includes in Heq. unfold no_slash in Hs. congruence.
Qed.

Lemma join_nonempty_last (segs : list string) (l : string) :
  l <> "" -> JS.join "/" (segs ++ [l]) <> "".
Proof.
  intros Hl. induction segs as [|s segs IH]; [exact Hl|].
  cbn [app]. rewrite join_cons by (destruct segs; discriminate).
  destruct s; discriminate.
Qed.

Lemma slice_last_join (segs : list string) (l : string) :
  l <> "" -> JS.slice_last (JS.join "/" (segs ++ [l])) = JS.slice_last l.
Proof.
  intros Hl. induction segs as [|s segs IH]; [reflexivity|].
  cbn [app]. rewrite join_cons by (destruct segs; discriminate).
  rewrite slice_last_append; [|destruct (JS.join "/" (segs ++ [l])); discriminate].
  rewrite slice_last_append; [exact IH | now apply join_nonempty_last].
Qed.

Lemma startsWith_slash_clean (s x : string) :
  clean s -> JS.startsWith "/" (s ++ x) = false.
Proof.
  intros [[Hs _] Hne]. destruct s as [|c s]; [contradiction|].
  unfold no_slash in Hs. cbn in Hs. apply orb_false_iff in Hs.
  destruct Hs as [Hc _]. cbn. exact Hc.
Qed.

Lemma length_nonzero (s : string) : s <> "" -> (String.length s =? 0)%nat = false.
Proof. destruct s; [contradiction | reflexivity]. Qed.

Lemma filter_nonempty_clean (segs : list string) :
  Forall clean segs -> filter Path.nonempty segs = segs.
Proof.
  induction 1 as [|s segs [_ Hs] _ IH]; [reflexivity|].
  cbn [filter]. rewrite IH. destruct s; [contradiction | reflexivity].
Qed.

End NormalizeFacts.
Lemma join_snoc (sep : string) (segs : list string) (l : string) :
  segs <> [] -> JS.join sep (segs ++ [l]) = JS.join sep segs ++ sep ++ l.
Proof.
  induction segs as [|s segs IH]; intros Hne; [contradiction|].
  destruct segs as [|s' segs'].
  - reflexivity.
  - cbn [app]. rewrite join_cons by (destruct segs'; discriminate).
    rewrite (join_cons sep s) by discriminate.
    change (s' :: (segs' ++ [l])%list) with ((s' :: segs') ++ [l])%list.
    rewrite IH by discriminate. now rewrite !append_assoc'.
Qed.

Lemma nonempty_clean (s : string) : clean s -> Path.nonempty s = true.
Proof. intros [_ Hne]. destruct s; [contradiction | reflexivity]. Qed.

Lemma clean_plain (s : string) : clean s -> plain s.
Proof. now intros [H _]. Qed.

Lemma plain_empty : plain "".
Proof. repeat split; discriminate. Qed.

(** A relative path of plain segments that ends in a clean one: [normalize]
    only drops its empty segments. *)
Lemma normalize_file (s : string) (mid : list string) (l : string) :
  clean s -> Forall plain mid -> clean l ->
  Path.normalize (JS.join "/" (s :: mid ++ [l]))
  = JS.join "/" (s :: filter Path.nonempty mid ++ [l]).
Proof.
  intros Hs Hmid Hl. unfold Path.normalize.
  assert (Hne : JS.join "/" (s :: mid ++ [l]) <> "")
    by (apply (join_nonempty_last (s :: mid) l); apply Hl).
  rewrite (length_nonzero _ Hne). cbv zeta.
  assert (Hrel : JS.startsWith "/" (JS.join "/" (s :: mid ++ [l])) = false).
  { rewrite join_cons by (destruct mid; discriminate). now apply startsWith_slash_clean. }
  rewrite Hrel. cbn [negb].
  pose proof (slice_last_join (s :: mid) l (proj2 Hl)) as Hlast.
  cbn [app] in Hlast. rewrite Hlast.
  rewrite slice_last_clean by apply Hl.
  rewrite normalizeString_join;
    [| discriminate
     | constructor; [now apply clean_plain|];
       apply Forall_app; split; [exact Hmid | repeat constructor; now apply clean_plain]].
  cbn [filter]. rewrite (nonempty_clean s Hs), filter_app. cbn [filter].
  rewrite (nonempty_clean l Hl).
  rewrite length_nonzero; [reflexivity|].
  apply (join_nonempty_last (s :: filter Path.nonempty mid)). apply Hl.
Qed.

(** The same path with a trailing separator keeps it. *)
Lemma normalize_dir (s : string) (mid : list string) (l : string) :
  clean s -> Forall plain mid -> clean l ->
  Path.normalize (JS.join "/" (s :: mid ++ [l; ""]))
  = JS.join "/" (s :: filter Path.nonempty mid ++ [l]) ++ "/".
Proof.
  intros Hs Hmid Hl. unfold Path.normalize.
  change (s :: mid ++ [l; ""])%list with (s :: mid ++ [l] ++ [""])%list.
  rewrite app_assoc.
  change (s :: (mid ++ [l]) ++ [""])%list with ((s :: mid ++ [l]) ++ [""])%list.
  assert (Hjoin : JS.join "/" ((s :: mid ++ [l]) ++ [""])
                  = JS.join "/" (s :: mid ++ [l]) ++ "/")
    by (rewrite join_snoc by discriminate; reflexivity).
  assert (Hne : JS.join "/" ((s :: mid ++ [l]) ++ [""]) <> "").
  { rewrite Hjoin. destruct (JS.join "/" (s :: mid ++ [l])); discriminate. }
  rewrite (length_nonzero _ Hne). cbv zeta.
  assert (Hrel : JS.startsWith "/" (JS.join "/" ((s :: mid ++ [l]) ++ [""])) = false).
  { cbn [app]. rewrite join_cons by (destruct mid; discriminate).
    now apply startsWith_slash_clean. }
  rewrite Hrel. cbn [negb].
  assert (Htrail : JS.slice_last (JS.join "/" ((s :: mid ++ [l]) ++ [""])) = "/")
    by (rewrite Hjoin, slice_last_append by discriminate; reflexivity).
  rewrite Htrail. cbn [String.eqb Ascii.eqb Bool.eqb].
  rewrite normalizeString_join;
    [| discriminate
     | apply Forall_app; split;
       [ constructor; [now apply clean_plain|];
         apply Forall_app; split; [exact Hmid | repeat constructor; now apply clean_plain]
       | repeat constructor; apply plain_empty ] ].
  rewrite filter_app. cbn [filter Path.nonempty]. rewrite app_nil_r.
  rewrite (nonempty_clean s Hs), filter_app. cbn [filter].
  rewrite (nonempty_clean l Hl).
  rewrite length_nonzero; [reflexivity|].
  apply (join_nonempty_last (s :: filter Path.nonempty mid)). apply Hl.
Qed.
Lemma Path_join_nonempty (args : list string) :
  args <> [] -> Forall (fun s => s <> "") args ->
  Path.join args = Path.normalize (JS.join "/" args).
Proof.
  intros Hne Hall. unfold Path.join.
  replace (filter Path.nonempty args) with args.
  - destruct args; [contradiction | reflexivity].
  - induction Hall as [|s l Hs _ IH]; [reflexivity|].
    cbn [filter]. destruct s; [contradiction|]. cbn [Path.nonempty].
    destruct l; [reflexivity|]. now rewrite <- IH.
Qed.

Lemma clean_channels : clean "channels".
Proof. repeat split; discriminate. Qed.

Lemma clean_versions : clean "versions".
Proof. repeat split; discriminate. Qed.

Lemma clean_apt : clean "apt".
Proof. repeat split; discriminate. Qed.

Lemma join_dropping_empty (a b c : string) :
  Path.nonempty b = true -> Path.nonempty c = true -> a = "" ->
  Path.join [a; b; c] = Path.normalize (JS.join "/" [b; c]).
Proof. intros Hb Hc ->. unfold Path.join. cbn [filter Path.nonempty]. now rewrite Hb, Hc. Qed.

(** The sub-directory that the two directory helpers compute from the folder. *)
Lemma s3SubDir_plain (s3c : S3Config) :
  plainFolder s3c ->
  (if negb (JS.or_else (folder s3c) "" =? "")
      && negb (JS.slice_last (JS.or_else (folder s3c) "") =? "/")
   then JS.or_else (folder s3c) "" ++ "/" else JS.or_else (folder s3c) "")
  = folderPrefix s3c.
Proof.
  unfold plainFolder, folderPrefix. intros Hf.
  destruct (folder s3c) as [[|c f]|]; try reflexivity.
  cbn [JS.or_else]. rewrite slice_last_clean by apply Hf. reflexivity.
Qed.

Lemma dir_plain (name last : string) (s3c : S3Config) :
  plainFolder s3c -> clean name -> clean last ->
  Path.join [folderPrefix s3c; name; last] = folderPrefix s3c ++ name ++ "/" ++ last.
Proof.
  unfold plainFolder, folderPrefix. intros Hf Hn Hl.
  destruct (folder s3c) as [[|c f]|].
  - rewrite join_dropping_empty by (auto using nonempty_clean).
    apply (normalize_file name [] last Hn (Forall_nil _) Hl).
  - rewrite Path_join_nonempty;
      [| discriminate
       | apply Forall_cons; [discriminate|];
         apply Forall_cons; [apply Hn|];
         apply Forall_cons; [apply Hl | apply Forall_nil]].
    transitivity (Path.normalize (JS.join "/" (String c f :: [""; name] ++ [last]))).
    { f_equal. cbn [JS.join app]. now rewrite !append_assoc'. }
    rewrite normalize_file;
      [| split; [exact Hf | discriminate]
       | apply Forall_cons; [apply plain_empty|];
         apply Forall_cons; [now apply clean_plain | apply Forall_nil]
       | exact Hl].
    cbn [filter Path.nonempty]. rewrite (nonempty_clean name Hn).
    cbn [JS.join app]. now rewrite !append_assoc'.
  - rewrite join_dropping_empty by (auto using nonempty_clean).
    apply (normalize_file name [] last Hn (Forall_nil _) Hl).
Qed.

Lemma channelAWSDir_plain (channel : string) (s3c : S3Config) :
  plainFolder s3c -> clean channel ->
  channelAWSDir channel s3c = folderPrefix s3c ++ "channels/" ++ channel.
Proof.
  intros Hf Hc. unfold channelAWSDir. cbv zeta. rewrite (s3SubDir_plain s3c Hf).
  apply (dir_plain "channels" channel s3c Hf clean_channels Hc).
Qed.

Lemma commitAWSDir_plain (version sha : string) (s3c : S3Config) :
  plainFolder s3c -> clean version -> clean sha ->
  commitAWSDir version sha s3c = folderPrefix s3c ++ "versions/" ++ version ++ "/" ++ sha.
Proof.
  unfold plainFolder, folderPrefix, commitAWSDir. intros Hf Hv Hs. cbv zeta.
  rewrite (s3SubDir_plain s3c Hf). unfold folderPrefix.
  destruct (folder s3c) as [[|c f]|].
  - unfold Path.join. cbn [filter Path.nonempty].
    rewrite (nonempty_clean version Hv), (nonempty_clean sha Hs).
    etransitivity;
      [apply (normalize_file "versions" [version] sha clean_versions);
         [apply Forall_cons; [now apply clean_plain | apply Forall_nil] | exact Hs]|].
    cbn [filter]. now rewrite (nonempty_clean version Hv).
  - rewrite Path_join_nonempty;
      [| discriminate
       | apply Forall_cons; [discriminate|];
         apply Forall_cons; [discriminate|];
         apply Forall_cons; [apply Hv|];
         apply Forall_cons; [apply Hs | apply Forall_nil]].
    transitivity
      (Path.normalize (JS.join "/" (String c f :: [""; "versions"; version] ++ [sha]))).
    { f_equal. cbn [JS.join app]. now rewrite !append_assoc'. }
    rewrite normalize_file;
      [| split; [exact Hf | discriminate]
       | apply Forall_cons; [apply plain_empty|];
         apply Forall_cons; [apply clean_plain, clean_versions|];
         apply Forall_cons; [now apply clean_plain | apply Forall_nil]
       | exact Hs].
    cbn [filter Path.nonempty]. rewrite (nonempty_clean version Hv).
    cbn [JS.join app]. now rewrite !append_assoc'.
  - unfold Path.join. cbn [filter Path.nonempty].
    rewrite (nonempty_clean version Hv), (nonempty_clean sha Hs).
    etransitivity;
      [apply (normalize_file "versions" [version] sha clean_versions);
         [apply Forall_cons; [now apply clean_plain | apply Forall_nil] | exact Hs]|].
    cbn [filter]. now rewrite (nonempty_clean version Hv).
Qed.
Lemma join_app (sep : string) (A B : list string) :
  A <> [] -> B <> [] ->
  JS.join sep (A ++ B) = JS.join sep A ++ sep ++ JS.join sep B.
Proof.
  intros HA HB. induction A as [|a A IH]; [contradiction|].
  destruct A as [|a' A'].
  - cbn [app]. now rewrite join_cons.
  - change ((a :: a' :: A') ++ B)%list with (a :: ((a' :: A') ++ B))%list.
    rewrite join_cons by discriminate. rewrite IH by discriminate.
    rewrite (join_cons sep a) by discriminate. now rewrite !append_assoc'.
Qed.

Lemma join_clean_nonempty (segs : list string) :
  segs <> [] -> Forall clean segs -> JS.join "/" segs <> "".
Proof.
  intros Hne Hall. destruct (exists_last Hne) as [pre [l ->]].
  apply join_nonempty_last. apply Forall_app in Hall. destruct Hall as [_ Hl].
  inversion Hl as [|? ? [_ H] _]; subst. exact H.
Qed.

(** A relative path of clean segments is normal. *)
Lemma normalize_clean (segs : list string) :
  (2 <= List.length segs)%nat -> Forall clean segs ->
  Path.normalize (JS.join "/" segs) = JS.join "/" segs.
Proof.
  intros Hlen Hall. destruct segs as [|s rest]; [cbn in Hlen; lia|].
  assert (Hrest : rest <> []) by (destruct rest; [cbn in Hlen; lia | discriminate]).
  destruct (exists_last Hrest) as [mid [l ->]].
  inversion Hall as [|? ? Hs Hml]; subst.
  apply Forall_app in Hml. destruct Hml as [Hmid Hl].
  inversion Hl as [|? ? Hl' _]; subst.
  rewrite normalize_file;
    [| exact Hs | eapply Forall_impl; [apply clean_plain | exact Hmid] | exact Hl'].
  now rewrite (filter_nonempty_clean mid Hmid).
Qed.

Lemma normalize_clean_dir (segs : list string) :
  (2 <= List.length segs)%nat -> Forall clean segs ->
  Path.normalize (JS.join "/" segs ++ "/") = JS.join "/" segs ++ "/".
Proof.
  intros Hlen Hall. destruct segs as [|s rest]; [cbn in Hlen; lia|].
  assert (Hrest : rest <> []) by (destruct rest; [cbn in Hlen; lia | discriminate]).
  destruct (exists_last Hrest) as [mid [l ->]].
  inversion Hall as [|? ? Hs Hml]; subst.
  apply Forall_app in Hml. destruct Hml as [Hmid Hl].
  inversion Hl as [|? ? Hl' _]; subst.
  transitivity (Path.normalize (JS.join "/" (s :: mid ++ [l; ""]))).
  { f_equal. change (s :: mid ++ [l; ""])%list with ((s :: mid) ++ ([l] ++ [""]))%list.
    rewrite app_assoc, join_snoc by (destruct mid; discriminate). reflexivity. }
  rewrite normalize_dir;
    [| exact Hs | eapply Forall_impl; [apply clean_plain | exact Hmid] | exact Hl'].
  now rewrite (filter_nonempty_clean mid Hmid).
Qed.

(** Joining clean paths. *)
Lemma Path_join_clean (paths : list (list string)) :
  (2 <= List.length paths)%nat ->
  Forall (fun segs => segs <> [] /\ Forall clean segs) paths ->
  Path.join (map (JS.join "/") paths) = JS.join "/" (concat paths).
Proof.
  intros Hlen Hall.
  assert (Hjoin : forall ps, ps <> [] ->
            Forall (fun segs => segs <> [] /\ Forall clean segs) ps ->
            JS.join "/" (map (JS.join "/") ps) = JS.join "/" (concat ps)
            /\ concat ps <> []).
  { induction ps as [|p ps IH]; intros Hne Hps; [contradiction|].
    inversion Hps as [|? ? [Hp _] Hps']; subst.
    destruct ps as [|p' ps'].
    - cbn [map concat JS.join]. rewrite app_nil_r. now split.
    - destruct (IH ltac:(discriminate) Hps') as [IHeq IHne].
      split.
      + cbn [map concat]. cbn [map] in IHeq.
        rewrite join_cons by discriminate. rewrite IHeq.
        symmetry. now apply join_app.
      + cbn [concat]. destruct p; [contradiction | discriminate]. }
  assert (Hne : paths <> []) by (destruct paths; [cbn in Hlen; lia | discriminate]).
  destruct (Hjoin paths Hne Hall) as [Heq _].
  rewrite Path_join_nonempty.
  - rewrite Heq. apply normalize_clean.
    + destruct paths as [|p [|q ps]]; cbn in Hlen; try lia.
      inversion Hall as [|? ? [Hp _] Hall']; subst.
      inversion Hall' as [|? ? [Hq _] _]; subst.
      cbn [concat]. rewrite !length_app.
      destruct p; [contradiction|]. destruct q; [contradiction|]. cbn. lia.
    + apply Forall_concat. eapply Forall_impl; [|exact Hall]. now intros segs [_ H].
  - destruct paths; [contradiction | discriminate].
  - apply Forall_map. eapply Forall_impl; [|exact Hall].
    intros segs [H1 H2]. now apply join_clean_nonempty.
Qed.
Lemma folderSegments_clean (s3c : S3Config) :
  plainFolder s3c -> Forall clean (folderSegments s3c).
Proof.
  unfold plainFolder, folderSegments. intros Hf.
  destruct (folder s3c) as [[|c f]|]; constructor; [|constructor].
  split; [exact Hf | discriminate].
Qed.

Lemma channelAWSDir_segments (channel : string) (s3c : S3Config) :
  plainFolder s3c -> clean channel ->
  channelAWSDir channel s3c = JS.join "/" (folderSegments s3c ++ ["channels"; channel]).
Proof.
  intros Hf Hc. rewrite (channelAWSDir_plain channel s3c Hf Hc).
  unfold folderPrefix, folderSegments.
  destruct (folder s3c) as [[|c f]|]; try reflexivity.
  cbn [app JS.join]. now rewrite !append_assoc'.
Qed.

Lemma commitAWSDir_segments (version sha : string) (s3c : S3Config) :
  plainFolder s3c -> clean version -> clean sha ->
  commitAWSDir version sha s3c
  = JS.join "/" (folderSegments s3c ++ ["versions"; version; sha]).
Proof.
  intros Hf Hv Hs. rewrite (commitAWSDir_plain version sha s3c Hf Hv Hs).
  unfold folderPrefix, folderSegments.
  destruct (folder s3c) as [[|c f]|]; try reflexivity.
  cbn [app JS.join]. now rewrite !append_assoc'.
Qed.

Lemma Forall_clean_cons (s : string) (l : list string) :
  clean s -> Forall clean l -> Forall clean (s :: l).
Proof. now constructor. Qed.

Section AptKeys.

Variable flags : Promote.Flags.
Variable bc : BuildConfig.
Variable b : string.

Hypothesis Hbucket : bucket (s3Config bc) = Some b.
Hypothesis Hb : clean b.
Hypothesis Hfolder : plainFolder (s3Config bc).
Hypothesis Hchannel : clean (Promote.f_channel flags).
Hypothesis Hversion : clean (Promote.f_version flags).
Hypothesis Hsha : clean (Promote.f_sha flags).

Lemma channel_segments_clean :
  Forall clean (folderSegments (s3Config bc) ++ ["channels"; Promote.f_channel flags]).
Proof.
  apply Forall_app. split; [now apply folderSegments_clean|].
  apply Forall_clean_cons; [apply clean_channels|].
  apply Forall_clean_cons; [exact Hchannel | constructor].
Qed.

Lemma commit_segments_clean :
  Forall clean (folderSegments (s3Config bc)
                  ++ ["versions"; Promote.f_version flags; Promote.f_sha flags]).
Proof.
  apply Forall_app. split; [now apply folderSegments_clean|].
  apply Forall_clean_cons; [apply clean_versions|].
  apply Forall_clean_cons; [exact Hversion|].
  apply Forall_clean_cons; [exact Hsha | constructor].
Qed.

Lemma cloudChannelKey_apt (artifact : string) :
  clean artifact ->
  Promote.cloudChannelKey flags bc ("apt/" ++ artifact)
  = channelAWSDir (Promote.f_channel flags) (s3Config bc) ++ "/apt/" ++ artifact.
Proof.
  intros Ha. unfold Promote.cloudChannelKey.
  rewrite (channelAWSDir_segments _ _ Hfolder Hchannel).
  set (D := (folderSegments (s3Config bc) ++ ["channels"; Promote.f_channel flags])%list).
  change [JS.join "/" D; "apt/" ++ artifact]
    with (map (JS.join "/") [D; ["apt"; artifact]]).
  rewrite Path_join_clean.
  - cbn [concat]. rewrite app_nil_r, join_app; [reflexivity | | discriminate].
    subst D. destruct (folderSegments (s3Config bc)); discriminate.
  - cbn. lia.
  - constructor; [split; [subst D; destruct (folderSegments (s3Config bc)); discriminate
                         | apply channel_segments_clean]|].
    constructor; [|constructor]. split; [discriminate|].
    apply Forall_clean_cons; [apply clean_apt|].
    apply Forall_clean_cons; [exact Ha | constructor].
Qed.

Lemma cloudChannelKey_apt_dir :
  Promote.cloudChannelKey flags bc "apt/"
  = channelAWSDir (Promote.f_channel flags) (s3Config bc) ++ "/apt/".
Proof.
  unfold Promote.cloudChannelKey.
  rewrite (channelAWSDir_segments _ _ Hfolder Hchannel).
  set (D := (folderSegments (s3Config bc) ++ ["channels"; Promote.f_channel flags])%list).
  assert (HD : D <> []) by (subst D; destruct (folderSegments (s3Config bc)); discriminate).
  rewrite Path_join_nonempty;
    [| discriminate
     | constructor; [apply join_clean_nonempty; [exact HD | apply channel_segments_clean]|];
       constructor; [discriminate | constructor]].
  transitivity (Path.normalize (JS.join "/" (D ++ ["apt"]) ++ "/")).
  { f_equal. rewrite join_app by (exact HD || discriminate).
    cbn [JS.join]. now rewrite !append_assoc'. }
  rewrite normalize_clean_dir.
  - rewrite join_app by (exact HD || discriminate). cbn [JS.join].
    now rewrite !append_assoc'.
  - rewrite length_app. subst D. rewrite length_app. cbn. lia.
  - apply Forall_app. split; [apply channel_segments_clean|].
    apply Forall_clean_cons; [apply clean_apt | constructor].
Qed.

Lemma cloudBucketCommitKey_apt (artifact : string) :
  clean artifact ->
  Promote.cloudBucketCommitKey flags bc ("apt/" ++ artifact)
  = b ++ "/" ++ commitAWSDir (Promote.f_version flags) (Promote.f_sha flags) (s3Config bc)
      ++ "/apt/" ++ artifact.
Proof.
  intros Ha. unfold Promote.cloudBucketCommitKey, Promote.theBucket.
  rewrite Hbucket. cbn [JS.nullish].
  rewrite (commitAWSDir_segments _ _ _ Hfolder Hversion Hsha).
  set (C := (folderSegments (s3Config bc)
               ++ ["versions"; Promote.f_version flags; Promote.f_sha flags])%list).
  assert (HC : C <> []) by (subst C; destruct (folderSegments (s3Config bc)); discriminate).
  change [b; JS.join "/" C; "apt/" ++ artifact]
    with (map (JS.join "/") [[b]; C; ["apt"; artifact]]).
  rewrite Path_join_clean.
  - cbn [concat]. rewrite app_nil_r.
    rewrite (join_app "/" [b]) by (discriminate || (destruct C; [contradiction | discriminate])).
    rewrite join_app by (exact HC || discriminate). reflexivity.
  - cbn. lia.
  - constructor; [split; [discriminate | apply Forall_clean_cons; [exact Hb | constructor]]|].
    constructor; [split; [exact HC | apply commit_segments_clean]|].
    constructor; [|constructor]. split; [discriminate|].
    apply Forall_clean_cons; [apply clean_apt|].
    apply Forall_clean_cons; [exact Ha | constructor].
Qed.

End AptKeys.

Lemma aptMetadata_clean : Forall clean Promote.aptMetadata.
Proof. repeat constructor; discriminate. Qed.
Lemma no_slash_split0 (s : string) : no_slash s -> no_slash (JS.split0 "-" s).
Proof.
  unfold no_slash, JS.split0. induction s as [|c s IH]; intros H; [reflexivity|].
  cbn [JS.split]. destruct (Ascii.eqb c "-"); [reflexivity|].
  cbn [JS.includes JS.startsWith] in H. apply orb_false_iff in H. destruct H as [Hc Hs].
  pose proof (split_nonempty "-" s) as Hne.
  destruct (JS.split "-" s) as [|seg segs]; [contradiction|].
  cbn [hd] in IH |- *. cbn [JS.includes JS.startsWith]. rewrite Hc. apply (IH Hs).
Qed.

Lemma no_slash_debArchName (a : string) : no_slash (debArchName a).
Proof. unfold debArchName. destruct (debArch a) as [[]|]; reflexivity. Qed.

Lemma debFileName_clean (bin version sha debarch : string) :
  no_slash bin -> no_slash version -> no_slash sha -> no_slash debarch ->
  clean (debFileName bin version sha debarch).
Proof.
  intros Hb Hv Hs Hd. unfold debFileName.
  assert (Hunderscore :
            JS.includes "_" (bin ++ "_" ++ version ++ "." ++ sha ++ "-1" ++ "_"
                               ++ debarch ++ ".deb") = true).
  { rewrite includes_char_append. apply orb_true_iff. right. reflexivity. }
  repeat split.
  - repeat apply no_slash_append; auto; reflexivity.
  - intros H. rewrite H in Hunderscore. discriminate Hunderscore.
  - intros H. rewrite H in Hunderscore. discriminate Hunderscore.
  - intros H. rewrite H in Hunderscore. discriminate Hunderscore.
Qed.

Lemma debFiles_clean (bc : BuildConfig) :
  no_slash (bin (config bc)) -> no_slash (version (config bc)) -> no_slash (gitSha bc) ->
  Forall clean (debFiles bc).
Proof.
  intros Hb Hv Hs. unfold debFiles. apply Forall_map, Forall_forall. intros t _.
  apply debFileName_clean; auto using no_slash_split0, no_slash_debArchName.
Qed.

(** ** Custom templates *)

(** C2, as the code has it.  With custom templates configured, each of the
    five templated operations of the key builder returns the result of the
    [s3Key] hook unchanged and [cloudKey] returns its input unchanged.  So
    every key of the upload is the hook's: the tarball the check looks for,
    the tarball and the manifest that are uploaded and the keys they are
    uploaded to; and so is every key of the promotion of a manifest and of a
    tarball, the index append included.  The promotion of macOS and Windows
    installers and of Debian packages does not go through the key builder and
    is the same as with no custom templates. *)
Theorem custom_templates_delegate
  (sv : Services) (uflags : Upload.Flags) (flags : Promote.Flags) (bc : BuildConfig)
  (s3c : S3Config) (opts : KeyOptions) :
  hasCustomTemplates (config bc) = true ->
  (forall t c, channelManifest (s3Keys (config bc) s3c opts) t c
               = Ok (s3Key (config bc) K_manifest None (with_channel t c)))
  /\ (forall e t c, channelTarball (s3Keys (config bc) s3c opts) e t c
                    = Ok (s3Key (config bc) K_unversioned (Some e) (with_channel t c)))
  /\ (forall k, cloudKey (s3Keys (config bc) s3c opts) k = k)
  /\ (forall e t c, indexFilename (s3Keys (config bc) s3c opts) e t c
                    = Ok (s3Key (config bc) K_unversioned (Some e) (with_channel t c)))
  /\ (forall t, manifest (s3Keys (config bc) s3c opts) t
                = Ok (s3Key (config bc) K_manifest None (bare t)))
  /\ (forall e t, versioned (s3Keys (config bc) s3c opts) e t
                  = Ok (s3Key (config bc) K_versioned (Some e) (bare t)))
  /\ (Upload.checkTargets sv bc = ([], Fulfilled tt)
      <-> forall t, In t (targets bc) ->
            existsSync sv (dist bc (s3Key (config bc) K_versioned (Some tar_gz) (bare t)))
            = true)
  /\ (forall t e,
        fst (Upload.releaseTarballs sv uflags bc t e)
        = [UploadFile (dist bc (s3Key (config bc) K_versioned (Some e) (bare t)))
             (mkUploadParams (JS.or_else (acl (s3Config bc)) "public-read")
                (bucket (s3Config bc)) "max-age=604800" "application/gzip"
                (s3Key (config bc) K_versioned (Some e) (bare t)))
             (Upload.dry_run uflags)])
  /\ (forall t,
        fst (Upload.maybeUploadManifest sv uflags bc t)
        = if existsSync sv (dist bc (s3Key (config bc) K_manifest None (bare t)))
          then [Log ("checking for buildmanifest at "
                       ++ dist bc (s3Key (config bc) K_manifest None (bare t)));
                Log ("uploading buildmanifest "
                       ++ s3Key (config bc) K_manifest None (bare t));
                UploadFile (dist bc (s3Key (config bc) K_manifest None (bare t)))
                  (mkUploadParams (JS.or_else (acl (s3Config bc)) "public-read")
                     (bucket (s3Config bc)) "max-age=86400" "application/json"
                     (s3Key (config bc) K_manifest None (bare t)))
                  (Upload.dry_run uflags)]
          else [Log ("checking for buildmanifest at "
                       ++ dist bc (s3Key (config bc) K_manifest None (bare t)));
                Warn ("Cannot find buildmanifest "
                        ++ dist bc (s3Key (config bc) K_manifest None (bare t))
                        ++ ". CLI will not be able to update itself.")])
  /\ (forall t,
        fst (Promote.promoteManifest sv flags bc t)
        = [CopyObject
             (Promote.awsDefaults flags bc
                (Path.join [Promote.theBucket bc;
                            s3Key (config bc) K_manifest None (bare t)])
                (s3Key (config bc) K_manifest None
                   (with_channel t (Promote.f_channel flags))))
             (Promote.copyOptions flags
                (Path.basename
                   (s3Key (config bc) K_manifest None
                      (with_channel t (Promote.f_channel flags)))))])
  /\ (forall e t,
        fst (Promote.promoteTarballs sv flags bc e t)
        = CopyObject
            (Promote.awsDefaults flags bc
               (Path.join [Promote.theBucket bc;
                           s3Key (config bc) K_versioned (Some e) (bare t)])
               (s3Key (config bc) K_unversioned (Some e)
                  (with_channel t (Promote.f_channel flags))))
            (Promote.copyOptions flags
               (s3Key (config bc) K_unversioned (Some e)
                  (with_channel t (Promote.f_channel flags))))
          :: (if Promote.f_indexes flags
              then [AppendToIndex
                      (Promote.indexOptions flags bc
                         (s3Key (config bc) K_unversioned (Some e)
                            (with_channel t (Promote.f_channel flags)))
                         (Path.join [Promote.theBucket bc;
                                     s3Key (config bc) K_versioned (Some e) (bare t)]))]
              else []))
  /\ Promote.promoteMacInstallers sv flags bc
     = Promote.promoteMacInstallers sv flags (withoutTemplates bc)
  /\ Promote.promoteWindowsInstallers sv flags bc
     = Promote.promoteWindowsInstallers sv flags (withoutTemplates bc)
  /\ Promote.promoteDebianAptPackages sv flags bc
     = Promote.promoteDebianAptPackages sv flags (withoutTemplates bc).
Proof.
  intros Hcustom.
  assert (Hkeys : forall s3c' opts',
            (forall t c, channelManifest (s3Keys (config bc) s3c' opts') t c
                         = Ok (s3Key (config bc) K_manifest None (with_channel t c)))
            /\ (forall e t c, channelTarball (s3Keys (config bc) s3c' opts') e t c
                              = Ok (s3Key (config bc) K_unversioned (Some e)
                                      (with_channel t c)))
            /\ (forall k, cloudKey (s3Keys (config bc) s3c' opts') k = k)
            /\ (forall e t c, indexFilename (s3Keys (config bc) s3c' opts') e t c
                              = Ok (s3Key (config bc) K_unversioned (Some e)
                                      (with_channel t c)))
            /\ (forall t, manifest (s3Keys (config bc) s3c' opts') t
                          = Ok (s3Key (config bc) K_manifest None (bare t)))
            /\ (forall e t, versioned (s3Keys (config bc) s3c' opts') e t
                            = Ok (s3Key (config bc) K_versioned (Some e) (bare t)))).
  { intros s3c' opts'.
    repeat split; intros; cbn [s3Keys channelManifest channelTarball cloudKey
      indexFilename manifest versioned]; rewrite ?Hcustom; reflexivity. }
  assert (Hlocal : forall t, localTarball bc tar_gz t
                             = dist bc (s3Key (config bc) K_versioned (Some tar_gz) (bare t))).
  { intros t. unfold localTarball, versionedKey. now rewrite Hcustom. }
  destruct (Hkeys s3c opts) as [H1 [H2 [H3 [H4 [H5 H6]]]]].
  do 6 (split; [assumption|]).
  split; [|split; [|split; [|split; [|split; [|repeat split]]]]].
  - split.
    + intros Hcheck t Ht. rewrite <- Hlocal.
      destruct (existsSync sv (localTarball bc tar_gz t)) eqn:Hthere; [reflexivity|].
      destruct (checkTargets_missing sv bc (ex_intro _ t (conj Ht Hthere)))
        as [t1 [_ [_ Hrejected]]].
      rewrite Hrejected in Hcheck. discriminate Hcheck.
    + intros Hall. apply checkTargets_built. intros t Ht. rewrite Hlocal.
      now apply Hall.
  - intros t e. rewrite releaseTarballs_eq. cbn [fst].
    unfold localTarball, tarballUploadParams, versionedKey, uploadKeys.
    rewrite Hcustom. now rewrite (proj1 (proj2 (proj2 (Hkeys _ _)))).
  - intros t. rewrite maybeUploadManifest_eq.
    unfold localManifest, manifestUploadParams, manifestWarning, localManifest,
      manifestKey, uploadKeys.
    rewrite Hcustom, (proj1 (proj2 (proj2 (Hkeys _ _)))).
    now destruct (existsSync sv _).
  - intros t. unfold Promote.promoteManifest.
    destruct (Hkeys (s3Config bc)
                (mkKeyOptions (bin (config bc)) (Promote.f_sha flags)
                   (Promote.f_version flags))) as [K1 [_ [K3 [_ [K5 _]]]]].
    rewrite K5, and_then_lift_Ok, K1, and_then_lift_Ok, K3. reflexivity.
  - intros e t. unfold Promote.promoteTarballs. cbv zeta.
    destruct (Hkeys (s3Config bc)
                (mkKeyOptions (bin (config bc)) (Promote.f_sha flags)
                   (Promote.f_version flags))) as [_ [K2 [K3 [K4 [_ K6]]]]].
    rewrite K6, and_then_lift_Ok, K2, and_then_lift_Ok, K4, and_then_lift_Ok, K3.
    unfold Promote.s3_copyObject, Promote.do_appendToIndex, start, when.
    rewrite and_then_fulfilled. cbn [fst app]. apply f_equal.
    destruct (Promote.f_indexes flags).
    + rewrite and_then_lift_Ok. reflexivity.
    + reflexivity.
Qed.

Lemma custom_templates_delegate_witness :
  versioned (s3Keys (makeConfig true) (makeS3Config "") defaultOpts) tar_gz linux_x64
  = Ok "custom/versioned/linux-x64.tar.gz".
Proof.
  apply (custom_templates_delegate idleServices (Upload.mkFlags false)
           (promoteFlags false false false false false)
           (testBuild (makeConfig true) "abc1234" (makeS3Config "") [linux_x64] false)
           (makeS3Config "") defaultOpts eq_refl).
Defined.

Lemma testHook_prefix (type : S3TemplateKey) (ext : option Ext) (opts : HookOptions) :
  JS.startsWith "custom/" (testHook type ext opts) = true.
Proof.
  unfold testHook. destruct (h_channel opts) as [[|c ch]|]; reflexivity.
Qed.

(** C2, as stated, fails for the installers: with the custom templates of the
    unit tests configured, the promotion of a macOS installer copies to a key
    made by the built-in template and the channel directory, which no call of
    the hook returns. *)
Lemma installer_keys_ignore_custom_templates :
  hasCustomTemplates (makeConfig true) = true
  /\ In (CopyObject
           (mkCopyParams "public-read" "bucket" "max-age=86400" "REPLACE"
              "bucket/versions/1.2.3/abc1234/mycli-v1.2.3-abc1234-x64.pkg"
              "channels/stable/mycli-x64.pkg")
           (mkCopyOptions false false "mycli-x64.pkg"))
        (fst (Promote.run idleServices (promoteFlags false true false false false)
                (testBuild (makeConfig true) "abc1234" (mkS3Config None (Some "bucket") None)
                   [mkTarget "x64" "darwin"] false)))
  /\ (forall type ext opts,
        s3Key (makeConfig true) type ext opts <> "channels/stable/mycli-x64.pkg").
Proof.
  split; [reflexivity|]. split.
  - vm_compute. auto 10.
  - intros type ext opts Heq.
    pose proof (testHook_prefix type ext opts) as Hp.
    change (s3Key (makeConfig true)) with testHook in Heq.
    rewrite Heq in Hp. discriminate Hp.
Qed.


(** ** Further properties of the key scheme and of the promotion *)

(** X1. A folder with and without its trailing ['/'] gives the same commit
    directory and the same channel directory. *)
Theorem folder_trailing_slash
  (version sha channel f : string) (b a : option string) :
  f <> "" -> (JS.slice_last f =? "/") = false ->
  commitAWSDir version sha (mkS3Config (Some f) b a)
  = commitAWSDir version sha (mkS3Config (Some (f ++ "/")) b a)
  /\ channelAWSDir channel (mkS3Config (Some f) b a)
     = channelAWSDir channel (mkS3Config (Some (f ++ "/")) b a).
Proof.
  intros Hne Hlast. unfold commitAWSDir, channelAWSDir. cbv zeta. cbn [folder].
  assert (Hf : JS.or_else (Some f) "" = f) by (destruct f; [contradiction | reflexivity]).
  assert (Hfs : JS.or_else (Some (f ++ "/")) "" = f ++ "/")
    by (destruct f; reflexivity).
  rewrite Hf, Hfs, Hlast.
  rewrite (slice_last_append f "/") by discriminate. cbn [JS.slice_last].
  assert (Hfe : (f =? "") = false) by (destruct f; [contradiction | reflexivity]).
  assert (Hfse : (f ++ "/" =? "") = false) by (destruct f; reflexivity).
  rewrite Hfe, Hfse. cbn. split; reflexivity.
Qed.

Lemma folder_trailing_slash_witness :
  commitAWSDir "1.2.3" "abc1234" (mkS3Config (Some "my-cli") None None)
  = commitAWSDir "1.2.3" "abc1234" (mkS3Config (Some ("my-cli" ++ "/")) None None)
  /\ channelAWSDir "stable" (mkS3Config (Some "my-cli") None None)
     = channelAWSDir "stable" (mkS3Config (Some ("my-cli" ++ "/")) None None).
Proof.
  apply (folder_trailing_slash "1.2.3" "abc1234" "stable" "my-cli" None None).
  - discriminate.
  - reflexivity.
Defined.

(** X2. In the default scheme the cloud key of a versioned tarball is the
    commit directory, a ['/'] and the versioned file name. *)
Theorem cloudKey_of_versioned
  (cfg : Config) (s3c : S3Config) (opts : KeyOptions) (e : Ext) (t : TargetOptions) :
  hasCustomTemplates cfg = false ->
  exists name,
    versioned (s3Keys cfg s3c opts) e t = Ok name
    /\ name = k_bin opts ++ "-v" ++ k_version opts ++ "-" ++ k_sha opts
                ++ "-" ++ platform t ++ "-" ++ arch t ++ ext_string e
    /\ cloudKey (s3Keys cfg s3c opts) name
       = commitAWSDir (k_version opts) (k_sha opts) s3c ++ "/" ++ name
    /\ JS.startsWith (commitAWSDir (k_version opts) (k_sha opts) s3c)
         (cloudKey (s3Keys cfg s3c opts) name) = true.
Proof.
  intros Hdefault. eexists. split; [apply versioned_eq|].
  unfold versionedKey. rewrite Hdefault. split.
  - unfold versionMarker. now rewrite !append_assoc'.
  - cbn [s3Keys cloudKey]. rewrite Hdefault. split; [reflexivity|].
    apply startsWith_append.
Qed.

Lemma cloudKey_of_versioned_witness :
  exists name,
    versioned (s3Keys (makeConfig false) (makeS3Config "") defaultOpts) tar_gz linux_x64
    = Ok name
    /\ name = "mycli" ++ "-v" ++ "1.2.3" ++ "-" ++ "abc1234"
                ++ "-" ++ "linux" ++ "-" ++ "x64" ++ ".tar.gz"
    /\ cloudKey (s3Keys (makeConfig false) (makeS3Config "") defaultOpts) name
       = commitAWSDir "1.2.3" "abc1234" (makeS3Config "") ++ "/" ++ name
    /\ JS.startsWith (commitAWSDir "1.2.3" "abc1234" (makeS3Config ""))
         (cloudKey (s3Keys (makeConfig false) (makeS3Config "") defaultOpts) name) = true.
Proof.
  apply (cloudKey_of_versioned (makeConfig false) (makeS3Config "") defaultOpts
           tar_gz linux_x64).
  reflexivity.
Defined.

(** X3. Without a bucket the promotion rejects before any copy: it has only
    logged. *)
Theorem promote_without_bucket (sv : Services) (flags : Promote.Flags) (bc : BuildConfig) :
  JS.truthy (bucket (s3Config bc)) = false ->
  snd (Promote.run sv flags bc)
  = Rejected [CLIError "Cannot determine S3 bucket for promotion" []]
  /\ forall e, In e (fst (Promote.run sv flags bc)) ->
               exists msg, e = Warn msg \/ e = Log msg.
Proof.
  intros Hbucket. unfold Promote.run. rewrite Hbucket. cbn [negb].
  destruct (Promote.f_ignore_missing flags); cbn; split; try reflexivity;
    intros e He; repeat (destruct He as [<- | He]; [eauto|]); destruct He.
Qed.

Lemma promote_without_bucket_witness :
  snd (Promote.run idleServices (promoteFlags true true true true true)
         (testBuild (makeConfig false) "abc1234" (makeS3Config "") [linux_x64] false))
  = Rejected [CLIError "Cannot determine S3 bucket for promotion" []]
  /\ forall e,
       In e (fst (Promote.run idleServices (promoteFlags true true true true true)
                    (testBuild (makeConfig false) "abc1234" (makeS3Config "")
                       [linux_x64] false))) ->
       exists msg, e = Warn msg \/ e = Log msg.
Proof.
  apply (promote_without_bucket idleServices (promoteFlags true true true true true)
           (testBuild (makeConfig false) "abc1234" (makeS3Config "") [linux_x64] false)).
  reflexivity.
Defined.

Lemma promote_carries_flags (sv : Services) (flags : Promote.Flags) (bc : BuildConfig) :
  calls_satisfy (carries_promote_flags flags bc) (Promote.run sv flags bc).
Proof.
  unfold Promote.run, Promote.promoteManifest, Promote.promoteGzTarballs,
    Promote.promoteXzTarballs, Promote.promoteTarballs, Promote.promoteMacInstallers,
    Promote.promoteWindowsInstallers, Promote.promoteDebianAptPackages,
    Promote.promoteDebArtifact, Promote.s3_copyObject, Promote.do_appendToIndex.
  cbv zeta.
  repeat calls_step; first [exact I | repeat split].
Qed.

(** X4. Every copy of a promotion is issued on the bucket of the
    configuration with the cache control of the [max-age] flag, the metadata
    directive [REPLACE] and the dry-run and ignore-missing flags; every index
    append carries the dry-run flag, the version and the cache control; a
    promotion uploads nothing. *)
Theorem promote_calls_carry_flags
  (sv : Services) (flags : Promote.Flags) (bc : BuildConfig) :
  (forall p o, In (CopyObject p o) (fst (Promote.run sv flags bc)) ->
     cp_Bucket p = JS.nullish (bucket (s3Config bc)) ""
     /\ cp_CacheControl p = "max-age=" ++ Promote.f_max_age flags
     /\ cp_MetadataDirective p = "REPLACE"
     /\ co_dryRun o = Promote.f_dry_run flags
     /\ co_ignoreMissing o = Promote.f_ignore_missing flags)
  /\ (forall o, In (AppendToIndex o) (fst (Promote.run sv flags bc)) ->
        ix_dryRun o = Promote.f_dry_run flags
        /\ ix_version o = Promote.f_version flags
        /\ ix_maxAge o = "max-age=" ++ Promote.f_max_age flags
        /\ ix_s3Config o = s3Config bc)
  /\ (forall l p d, ~ In (UploadFile l p d) (fst (Promote.run sv flags bc))).
Proof.
  pose proof (promote_carries_flags sv flags bc) as Hall.
  unfold calls_satisfy in Hall. rewrite Forall_forall in Hall.
  repeat split; try (intros; intro); intros;
    match goal with H : In _ _ |- _ => apply Hall in H; cbn in H end;
    try tauto.
Qed.

(** X5. Every upload of the upload command carries its dry-run flag. *)
Theorem upload_calls_carry_dry_run
  (sv : Services) (flags : Upload.Flags) (bc : BuildConfig)
  (l : string) (p : UploadParams) (d : bool) :
  In (UploadFile l p d) (fst (Upload.run sv flags bc)) ->
  d = Upload.dry_run flags /\ up_Bucket p = bucket (s3Config bc).
Proof.
  intros Hin. apply run_events in Hin.
  destruct Hin as [H | [H | [t [_ Hin]]]]; try discriminate H.
  rewrite uploadTarball_eq, !releaseTarballs_eq, maybeUploadManifest_eq in Hin.
  cbn [fst] in Hin.
  destruct (existsSync sv (localManifest bc t)), (xz bc); cbn in Hin;
    repeat (destruct Hin as [Hin | Hin]; [inversion Hin; subst; auto|]);
    destruct Hin.
Qed.

Lemma upload_calls_carry_dry_run_witness :
  true = Upload.dry_run (Upload.mkFlags true)
  /\ up_Bucket
       (tarballUploadParams
          (testBuild (makeConfig false) "abc1234" (mkS3Config None (Some "bucket") None)
             [linux_x64] false) tar_gz linux_x64)
     = bucket (s3Config
                 (testBuild (makeConfig false) "abc1234"
                    (mkS3Config None (Some "bucket") None) [linux_x64] false)).
Proof.
  apply (upload_calls_carry_dry_run idleServices (Upload.mkFlags true)
           (testBuild (makeConfig false) "abc1234" (mkS3Config None (Some "bucket") None)
              [linux_x64] false)
           (localTarball
              (testBuild (makeConfig false) "abc1234"
                 (mkS3Config None (Some "bucket") None) [linux_x64] false)
              tar_gz linux_x64)).
  vm_compute. auto.
Defined.

(** ** What a template needs *)

Lemma emit_ok_iff (locals : string -> option string) (ps : list Ejs.piece) :
  (exists s, Ejs.emit locals ps = Ok s)
  <-> (forall name, In name (outputs ps) -> locals name <> None).
Proof.
  induction ps as [|[lit|name] ps IH]; cbn [Ejs.emit outputs].
  - split; [intros _ name [] | eauto].
  - rewrite <- IH. split.
    + intros [s Hs]. destruct (Ejs.emit locals ps) as [r|err]; [eauto | discriminate Hs].
    + intros [s Hs]. rewrite Hs. cbn. eauto.
  - split.
    + intros [s Hs] n [<- | Hn].
      * destruct (locals name) as [v|]; [discriminate | discriminate Hs].
      * destruct (locals name) as [v|]; [|discriminate Hs].
        apply IH; [|exact Hn].
        destruct (Ejs.emit locals ps) as [r|err]; [eauto | discriminate Hs].
    + intros Hall. destruct (locals name) as [v|] eqn:Hname.
      * destruct (proj2 IH (fun n Hn => Hall n (or_intror Hn))) as [s Hs].
        rewrite Hs. cbn. eauto.
      * exfalso. apply (Hall name); [now left | exact Hname].
Qed.

Lemma emit_throw (locals : string -> option string) (ps : list Ejs.piece) (e : error) :
  Ejs.emit locals ps = Throw e ->
  exists name msg, In name (outputs ps) /\ locals name = None /\ e = ReferenceError msg.
Proof.
  induction ps as [|[lit|name] ps IH]; cbn [Ejs.emit outputs]; intros H.
  - discriminate H.
  - destruct (Ejs.emit locals ps) as [r|err] eqn:Hps; [discriminate H|].
    cbn in H. inversion H; subst. now apply IH.
  - destruct (locals name) as [v|] eqn:Hname.
    + destruct (Ejs.emit locals ps) as [r|err] eqn:Hps; [discriminate H|].
      cbn in H. inversion H; subst.
      destruct (IH eq_refl) as [n [msg [Hn [Hnone Hmsg]]]].
      exists n, msg. split; [now right | now split].
    + inversion H; subst. exists name. eexists. split; [now left | now split].
Qed.

Lemma render_ok_iff (template : string) (locals : string -> option string) :
  (exists s, Ejs.render template locals = Ok s)
  <-> (forall name, In name (outputs (Ejs.compile template)) -> locals name <> None).
Proof.
  rewrite <- emit_ok_iff. unfold Ejs.render, Ejs.rethrow.
  destruct (Ejs.emit locals (Ejs.compile template)) as [r | [m | m | m l] ];
    split; intros [s Hs]; try discriminate Hs; eauto.
Qed.

Lemma render_throw (template : string) (locals : string -> option string) (e : error) :
  Ejs.render template locals = Throw e ->
  exists name msg,
    In name (outputs (Ejs.compile template)) /\ locals name = None
    /\ e = ReferenceError msg.
Proof.
  unfold Ejs.render, Ejs.rethrow. intros H.
  destruct (Ejs.emit locals (Ejs.compile template)) as [r | err] eqn:Hemit;
    [discriminate H|].
  destruct (emit_throw _ _ _ Hemit) as [name [msg [Hin [Hnone ->] ] ] ].
  injection H as <-. exists name. eexists. split; [exact Hin | now split].
Qed.

(** X7. What [templateShortKey] needs: the key is rendered exactly when the
    options bind every variable of the template of the shape ([bin] for all
    seven, then what the table lists); otherwise the call throws a
    [ReferenceError] for a variable that is not bound, and so does every call
    without options. *)
Theorem templateShortKey_needs (type : ShortKeyType) (options : TemplateOptions) :
  (templateVariables T_deb = ["bin"; "versionShaRevision"; "arch"]
   /\ templateVariables T_macos = ["bin"; "version"; "sha"; "arch"]
   /\ templateVariables T_win32 = ["bin"; "version"; "sha"; "arch"]
   /\ templateVariables (T_s3 K_baseDir) = ["bin"]
   /\ templateVariables (T_s3 K_manifest) = ["bin"; "version"; "sha"; "platform"; "arch"]
   /\ templateVariables (T_s3 K_unversioned) = ["bin"; "platform"; "arch"; "ext"]
   /\ templateVariables (T_s3 K_versioned)
      = ["bin"; "version"; "sha"; "platform"; "arch"; "ext"])
  /\ ((exists key, templateShortKey type (Some options) = Ok key)
      <-> (forall name, In name (templateVariables type) -> locals options name <> None))
  /\ (forall e, templateShortKey type (Some options) = Throw e ->
        exists name msg,
          In name (templateVariables type) /\ locals options name = None
          /\ e = ReferenceError msg)
  /\ (exists msg, templateShortKey type None = Throw (ReferenceError msg)).
Proof.
  split; [repeat split; reflexivity|]. split; [apply render_ok_iff|].
  split; [apply render_throw|].
  destruct type as [| | |[]]; eexists; reflexivity.
Qed.

(** ** The channel keys are total *)

Lemma indexFilename_eq (cfg : Config) (s3c : S3Config) (opts : KeyOptions)
    (e : Ext) (t : TargetOptions) (c : string) :
  indexFilename (s3Keys cfg s3c opts) e t c = Ok (indexFilenameKey cfg opts e t c).
Proof.
  cbn [s3Keys indexFilename]. unfold indexFilenameKey, unversionedName.
  destruct (hasCustomTemplates cfg); [reflexivity|].
  unfold spread. cbn [option_map]. apply templateShortKey_unversioned.
Qed.

Lemma channelTarball_eq (cfg : Config) (s3c : S3Config) (opts : KeyOptions)
    (e : Ext) (t : TargetOptions) (c : string) :
  channelTarball (s3Keys cfg s3c opts) e t c = Ok (channelTarballKey cfg s3c opts e t c).
Proof.
  cbn [s3Keys channelTarball]. unfold channelTarballKey, unversionedName.
  destruct (hasCustomTemplates cfg); [reflexivity|].
  unfold spread. cbn [option_map]. now rewrite templateShortKey_unversioned.
Qed.

Lemma channelManifest_eq (cfg : Config) (s3c : S3Config) (opts : KeyOptions)
    (t : TargetOptions) (c : string) :
  channelManifest (s3Keys cfg s3c opts) t c = Ok (channelManifestKey cfg s3c opts t c).
Proof.
  cbn [s3Keys channelManifest]. unfold channelManifestKey, manifestKey.
  destruct (hasCustomTemplates cfg); [reflexivity|].
  unfold spread. cbn [option_map]. now rewrite templateShortKey_manifest.
Qed.

Lemma templateShortKey_installer (type : ShortKeyType) (suffix : string)
    (flags : Promote.Flags) (bc : BuildConfig) (arch : string) :
  (type = T_macos /\ suffix = ".pkg") \/ (type = T_win32 /\ suffix = ".exe") ->
  templateShortKey type (Some (Promote.installerOptions flags bc arch))
  = Ok (installerName flags bc suffix arch).
Proof.
  unfold installerName, versionMarker.
  intros [[-> ->] | [-> ->]]; rewrite !append_assoc'; reflexivity.
Qed.

(** ** Calls and rejections *)

Lemma rejections_outcome (es : list error) : rejections (outcome_of es) = es.
Proof. now destruct es. Qed.

Lemma Promise_all_outcome (ps : list promise) :
  Promise_all ps = outcome_of (concat (map rejections ps)).
Proof. unfold Promise_all, outcome_of. now destruct (concat (map rejections ps)). Qed.

Lemma settle_outcome (r : result unit) : settle r = outcome_of (rejections (settle r)).
Proof. now destruct r. Qed.

Lemma settleEvent_outcome (sv : Services) (e : event) :
  settleEvent sv e = outcome_of (client_rejections sv [e]).
Proof.
  unfold client_rejections. cbn [map concat]. rewrite app_nil_r.
  destruct e; cbn [settleEvent]; try reflexivity; apply settle_outcome.
Qed.

Lemma client_rejections_app (sv : Services) (a b : list event) :
  client_rejections sv (a ++ b) = (client_rejections sv a ++ client_rejections sv b)%list.
Proof. unfold client_rejections. now rewrite map_app, concat_app. Qed.

Lemma client_rejections_flat_map {A} (sv : Services) (f : A -> list event) (l : list A) :
  client_rejections sv (flat_map f l)
  = concat (map (fun a => client_rejections sv (f a)) l).
Proof.
  induction l as [|a l IH]; [reflexivity|].
  cbn [flat_map map concat]. now rewrite client_rejections_app, IH.
Qed.

(** Tasks that are batches, started one per element and awaited together, are
    one batch. *)
Lemma map_io_batches {A} (sv : Services) (body : A -> io unit) (f : A -> list event)
    (l : list A) :
  (forall a, body a = batch sv (f a)) ->
  (ps <~ map_io (fun a => async (body a)) l ;; await (Promise_all ps))
  = batch sv (flat_map f l).
Proof.
  intros Hbody. rewrite map_io_async. unfold and_then, await, batch.
  cbn [app]. rewrite app_nil_r. apply injective_projections; cbn [fst snd].
  - apply flat_map_ext. intros a. now rewrite Hbody.
  - rewrite Promise_all_outcome, client_rejections_flat_map, map_map.
    apply f_equal, f_equal.
    apply map_ext. intros a. rewrite Hbody. apply rejections_outcome.
Qed.

Section PromoteParts.

Variable sv : Services.
Variable flags : Promote.Flags.
Variable bc : BuildConfig.

Lemma promoteManifest_batch (t : TargetOptions) :
  Promote.promoteManifest sv flags bc t = batch sv [manifestCopy flags bc t].
Proof.
  unfold Promote.promoteManifest. rewrite target_eta.
  rewrite manifest_eq, and_then_lift_Ok, channelManifest_eq, and_then_lift_Ok.
  unfold batch. rewrite <- settleEvent_outcome. reflexivity.
Qed.

Lemma promoteTarballs_batch (e : Ext) (t : TargetOptions) :
  Promote.promoteTarballs sv flags bc e t = batch sv (tarballCalls flags bc e t).
Proof.
  unfold Promote.promoteTarballs. cbv zeta. rewrite target_eta.
  rewrite versioned_eq, and_then_lift_Ok, channelTarball_eq, and_then_lift_Ok,
    indexFilename_eq, and_then_lift_Ok.
  unfold tarballCalls, batch, when, Promote.s3_copyObject, Promote.do_appendToIndex, start.
  destruct (Promote.f_indexes flags);
    unfold lift, and_then, await, ret; cbn [app fst snd]; rewrite Promise_all_outcome;
    reflexivity.
Qed.

Lemma promoteMacInstallers_batch :
  Promote.promoteMacInstallers sv flags bc
  = batch sv (flat_map (installerCalls flags bc ".pkg") (darwinArches bc)).
Proof.
  unfold Promote.promoteMacInstallers. cbv zeta. fold (darwinArches bc).
  apply map_io_batches. intros a.
  rewrite (templateShortKey_installer T_macos ".pkg") by (left; split; reflexivity).
  rewrite and_then_lift_Ok.
  unfold installerCalls, batch, when, Promote.s3_copyObject, Promote.do_appendToIndex, start.
  cbv zeta.
  destruct (Promote.f_indexes flags);
    unfold lift, and_then, await, ret; cbn [app fst snd]; rewrite Promise_all_outcome;
    reflexivity.
Qed.

Lemma promoteWindowsInstallers_batch :
  Promote.promoteWindowsInstallers sv flags bc
  = batch sv (flat_map (fun a => installerCalls flags bc ".exe" a
                                   ++ installerStop sv flags bc a)%list
                (win32Arches bc)).
Proof.
  unfold Promote.promoteWindowsInstallers. cbv zeta. fold (win32Arches bc).
  apply map_io_batches. intros a.
  rewrite (templateShortKey_installer T_win32 ".exe") by (right; split; reflexivity).
  rewrite and_then_lift_Ok.
  unfold batch, installerStop, installerCalls, when,
    Promote.s3_copyObject, Promote.do_appendToIndex, start.
  cbv zeta. unfold versionMarker.
  destruct (Promote.f_indexes flags);
    cbv beta iota delta [and_then await emit ret Promise_all settle rejections map concat
                           app outcome_of fst snd settleEvent client_rejections];
    repeat match goal with
           | |- context [copyObject sv ?p ?o] => destruct (copyObject sv p o) as [[]|?]
           | |- context [appendToIndex sv ?o] => destruct (appendToIndex sv o) as [[]|?]
           end; reflexivity.
Qed.

Lemma promoteDebianAptPackages_batch :
  Promote.promoteDebianAptPackages sv flags bc
  = match Promote.debShortKeys bc with
    | Ok debs => batch sv (flat_map (debCopies flags bc) (debs ++ Promote.aptMetadata))
    | Throw e => ([], Rejected [e])
    end.
Proof.
  unfold Promote.promoteDebianAptPackages.
  destruct (Promote.debShortKeys bc) as [debs|e]; [|reflexivity].
  rewrite and_then_lift_Ok. cbv zeta.
  rewrite (map_io_fulfilled (Promote.promoteDebArtifact sv flags bc)
             (debCopies flags bc) (debPromises sv flags bc))
    by (intros artifact; reflexivity).
  unfold and_then, await, batch. cbn [app]. rewrite app_nil_r.
  apply injective_projections; cbn [fst snd]; [reflexivity|].
  rewrite Promise_all_outcome, client_rejections_flat_map. apply f_equal.
  induction (debs ++ Promote.aptMetadata)%list as [|artifact l IH]; [reflexivity|].
  cbn [map concat]. rewrite map_app, concat_app, IH. reflexivity.
Qed.

End PromoteParts.
(** ** The promotion as a whole *)

Lemma rejections_Promise_all_app (ps qs : list promise) :
  concat (map rejections (ps ++ qs))
  = (concat (map rejections ps) ++ concat (map rejections qs))%list.
Proof. now rewrite map_app, concat_app. Qed.

Section PromoteRun.

Variable sv : Services.
Variable flags : Promote.Flags.
Variable bc : BuildConfig.

Lemma promote_targets_part :
  map_io (fun target =>
            p <~ async (Promote.promoteManifest sv flags bc target) ;;
            q <~ async (Promote.promoteGzTarballs sv flags bc target) ;;
            ret [p; q]) (targets bc)
  = (flat_map (fun t => manifestCopy flags bc t :: tarballCalls flags bc tar_gz t) (targets bc),
     Fulfilled (map (fun t => [outcome_of (client_rejections sv [manifestCopy flags bc t]);
                               outcome_of (client_rejections sv (tarballCalls flags bc tar_gz t))])
                  (targets bc))).
Proof.
  apply map_io_fulfilled. intros t.
  unfold Promote.promoteGzTarballs.
  rewrite promoteManifest_batch, promoteTarballs_batch.
  unfold batch, async, and_then, ret. cbn [fst snd app]. now rewrite app_nil_r.
Qed.

Lemma promote_xz_part :
  map_io (fun target => async (Promote.promoteXzTarballs sv flags bc target)) (targets bc)
  = (flat_map (tarballCalls flags bc tar_xz) (targets bc),
     Fulfilled (map (fun t => outcome_of (client_rejections sv (tarballCalls flags bc tar_xz t)))
                  (targets bc))).
Proof.
  apply map_io_fulfilled. intros t.
  unfold Promote.promoteXzTarballs. now rewrite promoteTarballs_batch.
Qed.

Lemma rejections_targets_part :
  concat (map rejections (concat
    (map (fun t => [outcome_of (client_rejections sv [manifestCopy flags bc t]);
                    outcome_of (client_rejections sv (tarballCalls flags bc tar_gz t))])
       (targets bc))))
  = client_rejections sv
      (flat_map (fun t => manifestCopy flags bc t :: tarballCalls flags bc tar_gz t)
         (targets bc)).
Proof.
  rewrite client_rejections_flat_map.
  induction (targets bc) as [|t l IH]; [reflexivity|].
  cbn [map concat app]. rewrite !rejections_outcome, IH.
  change (manifestCopy flags bc t :: tarballCalls flags bc tar_gz t)
    with ([manifestCopy flags bc t] ++ tarballCalls flags bc tar_gz t)%list.
  now rewrite client_rejections_app, <- app_assoc.
Qed.

Lemma rejections_xz_part :
  concat (map rejections
    (map (fun t => outcome_of (client_rejections sv (tarballCalls flags bc tar_xz t)))
       (targets bc)))
  = client_rejections sv (flat_map (tarballCalls flags bc tar_xz) (targets bc)).
Proof.
  rewrite client_rejections_flat_map, map_map. apply f_equal, map_ext.
  intros t. apply rejections_outcome.
Qed.

Lemma when_async (b : bool) (body : io unit) :
  when b (p <~ async body ;; ret [p])
  = ((if b then fst body else []), Fulfilled (if b then [snd body] else [])).
Proof.
  destruct b; [|reflexivity]. unfold when, async. rewrite and_then_fulfilled.
  cbn [fst snd ret]. now rewrite app_nil_r.
Qed.

Lemma when_fulfilled {A} (b : bool) (evs : list event) (v : list A) :
  when b (evs, Fulfilled v) = ((if b then evs else []), Fulfilled (if b then v else [])).
Proof. now destruct b. Qed.

Lemma promote_run_trace :
  JS.truthy (bucket (s3Config bc)) = true ->
  Promote.run sv flags bc
  = ((promotePrelude flags ++ promoteCalls sv flags bc)%list,
     outcome_of (client_rejections sv (promoteCalls sv flags bc) ++ debErrors flags bc)%list).
Proof.
  intros Hbucket. unfold Promote.run. rewrite Hbucket. cbn [negb].
  rewrite promote_targets_part, promote_xz_part, !when_async, when_fulfilled.
  rewrite promoteMacInstallers_batch, promoteWindowsInstallers_batch,
    promoteDebianAptPackages_batch.
  replace (if Promote.f_ignore_missing flags
           then emit (Warn "--ignore-missing flag is being used - This command will continue to run even if a promotion fails because it doesn't exist")
           else ret tt)
    with ((if Promote.f_ignore_missing flags
           then [Warn "--ignore-missing flag is being used - This command will continue to run even if a promotion fails because it doesn't exist"]
           else []), Fulfilled tt)
    by now destruct (Promote.f_ignore_missing flags).
  unfold emit, ret. rewrite !and_then_fulfilled. cbn [fst snd await].
  apply injective_projections; cbn [fst snd].
  - unfold promotePrelude, promoteCalls, debArtifacts. rewrite <- !app_assoc.
    cbn [app]. rewrite !app_nil_r.
    repeat (apply f_equal2; [reflexivity|]).
    destruct (Promote.f_deb flags); [|reflexivity].
    now destruct (Promote.debShortKeys bc).
  - rewrite Promise_all_outcome. apply f_equal.
    rewrite !rejections_Promise_all_app, rejections_targets_part.
    unfold promoteCalls, debErrors, debArtifacts. rewrite !client_rejections_app.
    rewrite <- !app_assoc. apply f_equal.
    apply f_equal2; [destruct (Promote.f_xz flags);
                     [apply rejections_xz_part|reflexivity]|].
    apply f_equal2; [destruct (Promote.f_macos flags); [|reflexivity];
                     cbn [map concat]; rewrite app_nil_r; apply rejections_outcome|].
    apply f_equal2; [destruct (Promote.f_win flags); [|reflexivity];
                     cbn [map concat]; rewrite app_nil_r; apply rejections_outcome|].
    destruct (Promote.f_deb flags); [|reflexivity].
    destruct (Promote.debShortKeys bc) as [debs|e]; [|reflexivity].
    cbn [map concat]. rewrite !app_nil_r. apply rejections_outcome.
Qed.

End PromoteRun.
(** ** What a promotion calls, and how it settles *)

Lemma promote_run_no_bucket (sv : Services) (flags : Promote.Flags) (bc : BuildConfig) :
  JS.truthy (bucket (s3Config bc)) = false ->
  Promote.run sv flags bc
  = (promotePrelude flags, Rejected [CLIError "Cannot determine S3 bucket for promotion" []]).
Proof.
  intros Hbucket. unfold Promote.run, promotePrelude. rewrite Hbucket. cbn [negb].
  now destruct (Promote.f_ignore_missing flags).
Qed.

Lemma settleEvent_rejections (sv : Services) (e : event) :
  rejections (settleEvent sv e) = [] <-> settleEvent sv e = Fulfilled tt.
Proof.
  destruct e as [m | m | m | l p d | p o | o]; cbn [settleEvent];
    try (split; reflexivity).
  - destruct (uploadFile sv l p d) as [ [] | err]; cbn; split; intros H;
      try reflexivity; discriminate H.
  - destruct (copyObject sv p o) as [ [] | err]; cbn; split; intros H;
      try reflexivity; discriminate H.
  - destruct (appendToIndex sv o) as [ [] | err]; cbn; split; intros H;
      try reflexivity; discriminate H.
Qed.

Lemma client_rejections_nil (sv : Services) (evs : list event) :
  client_rejections sv evs = [] <-> forall e, In e evs -> settleEvent sv e = Fulfilled tt.
Proof.
  unfold client_rejections. induction evs as [|e evs IH]; cbn [map concat].
  - split; [intros _ e [] | reflexivity].
  - split.
    + intros H. apply app_eq_nil in H. destruct H as [He Hevs].
      intros e' [<- | Hin]; [now apply settleEvent_rejections | now apply IH].
    + intros H.
      assert (He : rejections (settleEvent sv e) = [])
        by (apply settleEvent_rejections, H; now left).
      rewrite He. apply IH. intros e' Hin. apply H. now right.
Qed.

Lemma outcome_of_fulfilled (es : list error) : outcome_of es = Fulfilled tt <-> es = [].
Proof. destruct es; cbn; split; intros H; try reflexivity; discriminate H. Qed.

Lemma promotePrelude_settles (sv : Services) (flags : Promote.Flags) (e : event) :
  In e (promotePrelude flags) -> settleEvent sv e = Fulfilled tt.
Proof.
  unfold promotePrelude.
  destruct (Promote.f_ignore_missing flags); cbn [app];
    intros H; repeat (destruct H as [<- | H]; [reflexivity|]); destruct H.
Qed.

(** X9. With a bucket, a promotion is fulfilled exactly when the client
    accepted every call it made and, under [--deb], every Debian file name
    could be built. *)
Theorem promote_fulfilled_iff (sv : Services) (flags : Promote.Flags) (bc : BuildConfig) :
  JS.truthy (bucket (s3Config bc)) = true ->
  (snd (Promote.run sv flags bc) = Fulfilled tt
   <-> (forall e, In e (fst (Promote.run sv flags bc)) -> settleEvent sv e = Fulfilled tt)
       /\ (Promote.f_deb flags = true -> exists debs, Promote.debShortKeys bc = Ok debs)).
Proof.
  intros Hbucket. rewrite promote_run_trace by exact Hbucket. cbn [fst snd].
  rewrite outcome_of_fulfilled. split.
  - intros H. apply app_eq_nil in H. destruct H as [Hcalls Hdeb]. split.
    + intros e Hin. apply in_app_or in Hin. destruct Hin as [Hin | Hin].
      * now apply promotePrelude_settles with flags.
      * revert e Hin. now apply client_rejections_nil.
    + intros Hflag. unfold debErrors in Hdeb. rewrite Hflag in Hdeb.
      destruct (Promote.debShortKeys bc) as [debs | err]; [now exists debs | discriminate Hdeb].
  - intros [Hcalls Hdeb].
    assert (H1 : client_rejections sv (promoteCalls sv flags bc) = []).
    { apply client_rejections_nil. intros e Hin. apply Hcalls, in_or_app. now right. }
    rewrite H1. cbn [app]. unfold debErrors.
    destruct (Promote.f_deb flags); [|reflexivity].
    destruct (Hdeb eq_refl) as [debs ->]. reflexivity.
Qed.

Lemma promote_fulfilled_iff_witness :
  snd (Promote.run idleServices (promoteFlags true true true true true)
         (testBuild (makeConfig false) "abc1234" (mkS3Config None (Some "bucket") None)
            [linux_x64; mkTarget "x64" "win32"] true)) = Fulfilled tt
  <-> (forall e,
         In e (fst (Promote.run idleServices (promoteFlags true true true true true)
                      (testBuild (makeConfig false) "abc1234"
                         (mkS3Config None (Some "bucket") None)
                         [linux_x64; mkTarget "x64" "win32"] true))) ->
         settleEvent idleServices e = Fulfilled tt)
      /\ (Promote.f_deb (promoteFlags true true true true true) = true ->
          exists debs,
            Promote.debShortKeys
              (testBuild (makeConfig false) "abc1234" (mkS3Config None (Some "bucket") None)
                 [linux_x64; mkTarget "x64" "win32"] true) = Ok debs).
Proof.
  apply (promote_fulfilled_iff idleServices (promoteFlags true true true true true)
           (testBuild (makeConfig false) "abc1234" (mkS3Config None (Some "bucket") None)
              [linux_x64; mkTarget "x64" "win32"] true)).
  reflexivity.
Defined.

Lemma calls_of_app (a b : list event) : calls_of (a ++ b) = (calls_of a ++ calls_of b)%list.
Proof. apply filter_app. Qed.

Lemma calls_of_flat_map {A} (f g : A -> list event) (l : list A) :
  (forall a, calls_of (f a) = calls_of (g a)) ->
  calls_of (flat_map f l) = calls_of (flat_map g l).
Proof.
  intros H. induction l as [|a l IH]; [reflexivity|].
  cbn [flat_map]. now rewrite !calls_of_app, H, IH.
Qed.

Lemma calls_of_installerStop (sv : Services) (flags : Promote.Flags) (bc : BuildConfig)
    (a : string) :
  calls_of (installerStop sv flags bc a) = [].
Proof. unfold installerStop. now destruct (client_rejections _ _). Qed.

Lemma calls_of_promoteCalls (sv sv' : Services) (flags : Promote.Flags) (bc : BuildConfig) :
  calls_of (promoteCalls sv flags bc) = calls_of (promoteCalls sv' flags bc).
Proof.
  unfold promoteCalls. rewrite !calls_of_app.
  do 3 (apply f_equal2; [reflexivity|]). apply f_equal2; [|reflexivity].
  destruct (Promote.f_win flags); [|reflexivity].
  apply calls_of_flat_map. intros a.
  now rewrite !calls_of_app, !calls_of_installerStop.
Qed.

(** X10. What a promotion asks of the client does not depend on what the
    client answers: every copy and every index append is issued whether or not
    the others are accepted. *)
Theorem promote_calls_whatever_the_answers
  (sv sv' : Services) (flags : Promote.Flags) (bc : BuildConfig) :
  calls_of (fst (Promote.run sv flags bc)) = calls_of (fst (Promote.run sv' flags bc)).
Proof.
  destruct (JS.truthy (bucket (s3Config bc))) eqn:Hbucket.
  - rewrite !promote_run_trace by exact Hbucket. cbn [fst].
    rewrite !calls_of_app. apply f_equal, calls_of_promoteCalls.
  - now rewrite !promote_run_no_bucket by exact Hbucket.
Qed.
(** ** Which calls belong to a promotion *)

Lemma in_if_list {A} (b : bool) (l : list A) (x : A) :
  In x (if b then l else []) <-> b = true /\ In x l.
Proof. destruct b; cbn; intuition discriminate. Qed.

Lemma in_promoteCalls (sv : Services) (flags : Promote.Flags) (bc : BuildConfig) (e : event) :
  In e (promoteCalls sv flags bc)
  <-> (exists t, In t (targets bc)
         /\ (e = manifestCopy flags bc t \/ In e (tarballCalls flags bc tar_gz t)))
      \/ (Promote.f_xz flags = true
          /\ exists t, In t (targets bc) /\ In e (tarballCalls flags bc tar_xz t))
      \/ (Promote.f_macos flags = true
          /\ exists a, In a (darwinArches bc) /\ In e (installerCalls flags bc ".pkg" a))
      \/ (Promote.f_win flags = true
          /\ exists a, In a (win32Arches bc)
               /\ (In e (installerCalls flags bc ".exe" a)
                   \/ In e (installerStop sv flags bc a)))
      \/ (Promote.f_deb flags = true
          /\ exists artifact, In artifact (debArtifacts bc)
               /\ In e (debCopies flags bc artifact)).
Proof.
  unfold promoteCalls. rewrite !in_app_iff, !in_if_list, !in_flat_map.
  assert (H1 : (exists x, In x (targets bc)
                  /\ In e (manifestCopy flags bc x :: tarballCalls flags bc tar_gz x))
               <-> (exists t, In t (targets bc)
                      /\ (e = manifestCopy flags bc t
                          \/ In e (tarballCalls flags bc tar_gz t)))).
  { split; intros [t [Ht He]]; exists t; (split; [exact Ht|]).
    - destruct He as [He | He]; [left; now symmetry | now right].
    - destruct He as [He | He]; [left; now symmetry | now right]. }
  assert (H2 : (exists x, In x (win32Arches bc)
                  /\ In e (installerCalls flags bc ".exe" x
                           ++ installerStop sv flags bc x)%list)
               <-> (exists a, In a (win32Arches bc)
                      /\ (In e (installerCalls flags bc ".exe" a)
                          \/ In e (installerStop sv flags bc a)))).
  { split; intros [a [Ha He]]; exists a; (split; [exact Ha|]).
    - now apply in_app_or.
    - now apply in_or_app. }
  rewrite H1, H2. reflexivity.
Qed.

Lemma in_promote_run (sv : Services) (flags : Promote.Flags) (bc : BuildConfig) (e : event) :
  In e (fst (Promote.run sv flags bc))
  <-> In e (promotePrelude flags)
      \/ (JS.truthy (bucket (s3Config bc)) = true /\ In e (promoteCalls sv flags bc)).
Proof.
  destruct (JS.truthy (bucket (s3Config bc))) eqn:Hbucket.
  - rewrite promote_run_trace by exact Hbucket. cbn [fst]. rewrite in_app_iff. tauto.
  - rewrite promote_run_no_bucket by exact Hbucket. cbn [fst].
    split; [now left | intros [H | [H _] ]; [exact H | discriminate H] ].
Qed.

Lemma in_promotePrelude (flags : Promote.Flags) (e : event) :
  In e (promotePrelude flags) -> exists msg, e = Warn msg \/ e = Log msg.
Proof.
  unfold promotePrelude.
  destruct (Promote.f_ignore_missing flags); cbn [app];
    intros H; repeat (destruct H as [<- | H]; [eauto|]); destruct H.
Qed.

(** The index append of a tarball or of an installer comes with its copy. *)
Lemma tarballCalls_append (flags : Promote.Flags) (bc : BuildConfig) (e : Ext)
    (t : TargetOptions) (o : IndexOptions) :
  In (AppendToIndex o) (tarballCalls flags bc e t) ->
  Promote.f_indexes flags = true
  /\ exists p c, In (CopyObject p c) (tarballCalls flags bc e t)
       /\ cp_CopySource p = ix_originalUrl o /\ co_namespace c = ix_filename o.
Proof.
  unfold tarballCalls. intros [H | H]; [discriminate H|].
  destruct (Promote.f_indexes flags); [|destruct H].
  destruct H as [H | [] ]. injection H as <-. split; [reflexivity|].
  eexists. eexists. split; [left; reflexivity|]. split; reflexivity.
Qed.

Lemma installerCalls_append (flags : Promote.Flags) (bc : BuildConfig)
    (suffix arch : string) (o : IndexOptions) :
  In (AppendToIndex o) (installerCalls flags bc suffix arch) ->
  Promote.f_indexes flags = true
  /\ exists p c, In (CopyObject p c) (installerCalls flags bc suffix arch)
       /\ cp_CopySource p = ix_originalUrl o /\ co_namespace c = ix_filename o.
Proof.
  unfold installerCalls. cbv zeta. intros [H | H]; [discriminate H|].
  destruct (Promote.f_indexes flags); [|destruct H].
  destruct H as [H | [] ]. injection H as <-. split; [reflexivity|].
  eexists. eexists. split; [left; reflexivity|]. split; reflexivity.
Qed.

Lemma in_installerStop (sv : Services) (flags : Promote.Flags) (bc : BuildConfig)
    (a : string) (e : event) :
  In e (installerStop sv flags bc a)
  <-> e = ActionStop "successfully"
      /\ client_rejections sv (installerCalls flags bc ".exe" a) = [].
Proof.
  unfold installerStop. destruct (client_rejections _ _) as [|err errs].
  - split; [intros [<- | [] ]; now split | intros [-> _]; now left].
  - split; [intros [] | intros [_ H]; discriminate H].
Qed.

(** X12. The spinner is stopped with [successfully] only for a Windows
    installer, and only when the client accepted the calls of that installer:
    a promotion never reports success for an installer whose copy or index
    append was rejected. *)
Theorem success_only_after_accepted_calls
  (sv : Services) (flags : Promote.Flags) (bc : BuildConfig) (msg : string) :
  In (ActionStop msg) (fst (Promote.run sv flags bc))
  <-> msg = "successfully"
      /\ JS.truthy (bucket (s3Config bc)) = true
      /\ Promote.f_win flags = true
      /\ exists a, In a (win32Arches bc)
           /\ forall e, In e (installerCalls flags bc ".exe" a) ->
                        settleEvent sv e = Fulfilled tt.
Proof.
  rewrite in_promote_run, in_promoteCalls. split.
  - intros [Hin | [Hbucket Hin] ].
    { apply in_promotePrelude in Hin. destruct Hin as [m [H | H] ]; discriminate H. }
    destruct Hin as [ [t [Ht [H | H] ] ] | [ [Hxz [t [Ht H] ] ] | [ [Hmac [a [Ha H] ] ]
                    | [ [Hwin [a [Ha [H | H] ] ] ] | [Hdeb [artifact [Ha H] ] ] ] ] ] ].
    + discriminate H.
    + unfold tarballCalls in H. destruct H as [H | H]; [discriminate H|].
      destruct (Promote.f_indexes flags); [|destruct H].
      destruct H as [H | [] ]; discriminate H.
    + unfold tarballCalls in H. destruct H as [H | H]; [discriminate H|].
      destruct (Promote.f_indexes flags); [|destruct H].
      destruct H as [H | [] ]; discriminate H.
    + unfold installerCalls in H. cbv zeta in H. destruct H as [H | H]; [discriminate H|].
      destruct (Promote.f_indexes flags); [|destruct H].
      destruct H as [H | [] ]; discriminate H.
    + unfold installerCalls in H. cbv zeta in H. destruct H as [H | H]; [discriminate H|].
      destruct (Promote.f_indexes flags); [|destruct H].
      destruct H as [H | [] ]; discriminate H.
    + apply in_installerStop in H. destruct H as [H Hok]. injection H as ->.
      split; [reflexivity|]. split; [exact Hbucket|]. split; [exact Hwin|].
      exists a. split; [exact Ha|]. now apply client_rejections_nil.
    + unfold debCopies in H. destruct H as [H | [H | [] ] ]; discriminate H.
  - intros [-> [Hbucket [Hwin [a [Ha Hok] ] ] ] ].
    right. split; [exact Hbucket|]. right. right. right. left. split; [exact Hwin|].
    exists a. split; [exact Ha|]. right. apply in_installerStop.
    split; [reflexivity|]. now apply client_rejections_nil.
Qed.
(** ** The layout of the bucket *)

(** X13. The layout of the bucket: for a folder that is one plain segment (or
    no folder) and version, sha and channel that are clean segments, the
    commit directory is [[<folder>/]versions/<version>/<sha>] and the channel
    directory is [[<folder>/]channels/<channel>]. *)
Theorem directory_layout (version sha channel : string) (s3c : S3Config) :
  plainFolder s3c -> clean version -> clean sha -> clean channel ->
  commitAWSDir version sha s3c = folderPrefix s3c ++ "versions/" ++ version ++ "/" ++ sha
  /\ channelAWSDir channel s3c = folderPrefix s3c ++ "channels/" ++ channel.
Proof.
  intros Hf Hv Hs Hc. split.
  - now apply commitAWSDir_plain.
  - now apply channelAWSDir_plain.
Qed.

Lemma directory_layout_witness :
  commitAWSDir "1.2.3" "abc1234" (makeS3Config "my-folder")
  = folderPrefix (makeS3Config "my-folder") ++ "versions/" ++ "1.2.3" ++ "/" ++ "abc1234"
  /\ channelAWSDir "stable" (makeS3Config "my-folder")
     = folderPrefix (makeS3Config "my-folder") ++ "channels/" ++ "stable".
Proof.
  apply (directory_layout "1.2.3" "abc1234" "stable" (makeS3Config "my-folder")).
  - repeat split; discriminate.
  - repeat split; discriminate.
  - repeat split; discriminate.
  - repeat split; discriminate.
Defined.

(** Outside these segments the layout is lost: [path.posix.join] resolves a
    version [..] against [versions]. *)
Example directory_layout_dotdot :
  commitAWSDir ".." "abc1234" (makeS3Config "my-folder") = "my-folder/abc1234".
Proof. reflexivity. Qed.

(** X14. In the default scheme the channel key of a manifest is the channel
    directory, a ['/'] and [<bin>-<platform>-<arch>-buildmanifest]: for a valid
    release neither the version nor the sha is left in it. *)
Theorem channelManifest_unversioned
  (cfg : Config) (s3c : S3Config) (opts : KeyOptions) (t : TargetOptions) (channel : string) :
  hasCustomTemplates cfg = false ->
  valid_release (k_bin opts) (k_version opts) (k_sha opts) ->
  channelManifest (s3Keys cfg s3c opts) t channel
  = Ok (channelAWSDir channel s3c ++ "/"
          ++ k_bin opts ++ "-" ++ platform t ++ "-" ++ arch t ++ "-buildmanifest").
Proof.
  intros Hdefault Hvalid. rewrite channelManifest_eq.
  unfold channelManifestKey, manifestKey. rewrite Hdefault.
  now rewrite strip_marker.
Qed.

Lemma channelManifest_unversioned_witness :
  channelManifest (s3Keys (makeConfig false) (makeS3Config "") defaultOpts) linux_x64 "stable"
  = Ok (channelAWSDir "stable" (makeS3Config "") ++ "/"
          ++ "mycli" ++ "-" ++ "linux" ++ "-" ++ "x64" ++ "-buildmanifest").
Proof.
  apply (channelManifest_unversioned (makeConfig false) (makeS3Config "") defaultOpts
           linux_x64 "stable").
  - reflexivity.
  - intros i Hi. simpl in Hi.
    do 5 (destruct i as [|i]; [reflexivity|]). lia.
Defined.

(** For a release that is not valid the version stays in the key. *)
Example channelManifest_marker_inside_bin :
  channelManifest
    (s3Keys (makeConfig false) (makeS3Config "")
       (mkKeyOptions "x-v1.2.3-abc1234y" "abc1234" "1.2.3")) linux_x64 "stable"
  = Ok "channels/stable/xy-v1.2.3-abc1234-linux-x64-buildmanifest".
Proof. reflexivity. Qed.
(** ** The installers *)

Lemma in_uniq (a : string) (l : list string) : In a l -> In a (uniq l).
Proof.
  induction l as [|b l IH]; [intros [] |].
  intros Hin. cbn [uniq]. destruct (String.eqb_spec a b) as [-> | Hne].
  - now left.
  - right. apply filter_In. split.
    + destruct Hin as [-> | Hin]; [contradiction | now apply IH].
    + apply negb_true_iff. now apply String.eqb_neq.
Qed.

Lemma clean_with_dash (a b : string) : no_slash a -> no_slash b -> clean (a ++ "-" ++ b).
Proof.
  intros Ha Hb.
  assert (Hdash : JS.includes "-" (a ++ "-" ++ b) = true).
  { rewrite !includes_char_append. cbn. now rewrite orb_true_r. }
  repeat split.
  - apply no_slash_append; [exact Ha|]. apply no_slash_append; [reflexivity | exact Hb].
  - intros H. rewrite H in Hdash. discriminate Hdash.
  - intros H. rewrite H in Hdash. discriminate Hdash.
  - intros H. rewrite H in Hdash. discriminate Hdash.
Qed.

Section FileKeys.

Variable flags : Promote.Flags.
Variable bc : BuildConfig.
Variable b : string.

Hypothesis Hbucket : bucket (s3Config bc) = Some b.
Hypothesis Hb : clean b.
Hypothesis Hfolder : plainFolder (s3Config bc).
Hypothesis Hchannel : clean (Promote.f_channel flags).
Hypothesis Hversion : clean (Promote.f_version flags).
Hypothesis Hsha : clean (Promote.f_sha flags).

Lemma bucket_truthy : JS.truthy (bucket (s3Config bc)) = true.
Proof. rewrite Hbucket. destruct Hb as [_ Hne]. destruct b; [contradiction | reflexivity]. Qed.

Lemma cloudChannelKey_file (name : string) :
  clean name ->
  Promote.cloudChannelKey flags bc name
  = channelAWSDir (Promote.f_channel flags) (s3Config bc) ++ "/" ++ name.
Proof.
  intros Hn. unfold Promote.cloudChannelKey.
  rewrite (channelAWSDir_segments _ _ Hfolder Hchannel).
  set (D := (folderSegments (s3Config bc) ++ ["channels"; Promote.f_channel flags])%list).
  assert (HD : D <> []) by (subst D; destruct (folderSegments (s3Config bc)); discriminate).
  change [JS.join "/" D; name] with (map (JS.join "/") [D; [name]]).
  rewrite Path_join_clean.
  - cbn [concat]. rewrite app_nil_r, join_app; [reflexivity | exact HD | discriminate].
  - cbn. lia.
  - constructor; [split; [exact HD | now apply channel_segments_clean]|].
    constructor; [|constructor]. split; [discriminate|].
    apply Forall_clean_cons; [exact Hn | constructor].
Qed.

Lemma cloudBucketCommitKey_file (name : string) :
  clean name ->
  Promote.cloudBucketCommitKey flags bc name
  = b ++ "/" ++ commitAWSDir (Promote.f_version flags) (Promote.f_sha flags) (s3Config bc)
      ++ "/" ++ name.
Proof.
  intros Hn. unfold Promote.cloudBucketCommitKey, Promote.theBucket.
  rewrite Hbucket. cbn [JS.nullish].
  rewrite (commitAWSDir_segments _ _ _ Hfolder Hversion Hsha).
  set (C := (folderSegments (s3Config bc)
               ++ ["versions"; Promote.f_version flags; Promote.f_sha flags])%list).
  assert (HC : C <> []) by (subst C; destruct (folderSegments (s3Config bc)); discriminate).
  change [b; JS.join "/" C; name] with (map (JS.join "/") [[b]; C; [name]]).
  rewrite Path_join_clean.
  - cbn [concat]. rewrite app_nil_r.
    rewrite (join_app "/" [b]) by (discriminate || (destruct C; [contradiction | discriminate])).
    rewrite join_app by (exact HC || discriminate). reflexivity.
  - cbn. lia.
  - constructor; [split; [discriminate | apply Forall_clean_cons; [exact Hb | constructor]]|].
    constructor; [split; [exact HC | now apply commit_segments_clean]|].
    constructor; [|constructor]. split; [discriminate|].
    apply Forall_clean_cons; [exact Hn | constructor].
Qed.

Hypothesis Hbin : no_slash (bin (config bc)).
Hypothesis Hvalid :
  valid_release (bin (config bc)) (Promote.f_version flags) (Promote.f_sha flags).

Lemma installerCalls_head (suffix a : string) :
  no_slash a -> no_slash suffix ->
  In (CopyObject
        (Promote.awsDefaults flags bc
           (b ++ "/"
              ++ commitAWSDir (Promote.f_version flags) (Promote.f_sha flags) (s3Config bc)
              ++ "/" ++ bin (config bc) ++ "-v" ++ Promote.f_version flags ++ "-"
              ++ Promote.f_sha flags ++ "-" ++ a ++ suffix)
           (channelAWSDir (Promote.f_channel flags) (s3Config bc) ++ "/"
              ++ bin (config bc) ++ "-" ++ a ++ suffix))
        (Promote.copyOptions flags (bin (config bc) ++ "-" ++ a ++ suffix)))
     (installerCalls flags bc suffix a).
Proof.
  intros Ha Hsuffix. unfold installerCalls. cbv zeta. left.
  unfold installerName. rewrite (strip_marker _ _ _ _ Hvalid).
  assert (Hshort : clean (bin (config bc) ++ "-" ++ a ++ suffix))
    by (apply clean_with_dash; [exact Hbin | now apply no_slash_append]).
  assert (Hmarker : no_slash (versionMarker (Promote.f_version flags) (Promote.f_sha flags))).
  { unfold versionMarker. apply no_slash_append; [reflexivity|].
    apply no_slash_append; [apply Hversion|].
    apply no_slash_append; [reflexivity | apply Hsha]. }
  assert (Hlong : clean (bin (config bc)
                           ++ versionMarker (Promote.f_version flags) (Promote.f_sha flags)
                           ++ "-" ++ a ++ suffix)).
  { rewrite <- append_assoc'. apply clean_with_dash; [|now apply no_slash_append].
    now apply no_slash_append. }
  rewrite (cloudChannelKey_file _ Hshort), (cloudBucketCommitKey_file _ Hlong).
  unfold versionMarker. now rewrite !append_assoc'.
Qed.

End FileKeys.

(** X15. The installers keep a static name in the channel.  With a bucket and
    clean segments, for a valid release, the macOS installer of every darwin
    target (under [--macos]) and the Windows installer of every win32 target
    (under [--win]) is copied from
    [<bucket>/<commit dir>/<bin>-v<version>-<sha>-<arch><suffix>] to
    [<channel dir>/<bin>-<arch><suffix>], the suffix being [.pkg] or [.exe]. *)
Theorem installers_keep_a_static_name
  (sv : Services) (flags : Promote.Flags) (bc : BuildConfig) (b : string)
  (t : TargetOptions) (suffix : string) :
  bucket (s3Config bc) = Some b -> clean b -> plainFolder (s3Config bc) ->
  clean (Promote.f_channel flags) -> clean (Promote.f_version flags) ->
  clean (Promote.f_sha flags) -> no_slash (bin (config bc)) ->
  valid_release (bin (config bc)) (Promote.f_version flags) (Promote.f_sha flags) ->
  In t (targets bc) -> no_slash (arch t) ->
  (platform t = "darwin" /\ Promote.f_macos flags = true /\ suffix = ".pkg")
  \/ (platform t = "win32" /\ Promote.f_win flags = true /\ suffix = ".exe") ->
  In (CopyObject
        (Promote.awsDefaults flags bc
           (b ++ "/"
              ++ commitAWSDir (Promote.f_version flags) (Promote.f_sha flags) (s3Config bc)
              ++ "/" ++ bin (config bc) ++ "-v" ++ Promote.f_version flags ++ "-"
              ++ Promote.f_sha flags ++ "-" ++ arch t ++ suffix)
           (channelAWSDir (Promote.f_channel flags) (s3Config bc) ++ "/"
              ++ bin (config bc) ++ "-" ++ arch t ++ suffix))
        (Promote.copyOptions flags (bin (config bc) ++ "-" ++ arch t ++ suffix)))
     (fst (Promote.run sv flags bc)).
Proof.
  intros Hbucket Hb Hfolder Hchannel Hversion Hsha Hbin Hvalid Ht Harch Hcase.
  apply in_promote_run. right. split; [now apply bucket_truthy with b|].
  apply in_promoteCalls. right. right.
  destruct Hcase as [ [Hp [Hflag ->] ] | [Hp [Hflag ->] ] ].
  - left. split; [exact Hflag|]. exists (arch t). split.
    + unfold darwinArches. apply in_uniq, in_map, filter_In. split; [exact Ht|].
      now apply String.eqb_eq.
    + now apply installerCalls_head.
  - right. left. split; [exact Hflag|]. exists (arch t). split.
    + unfold win32Arches. apply in_map, filter_In. split; [exact Ht|].
      now apply String.eqb_eq.
    + left. now apply installerCalls_head.
Qed.

Lemma installers_keep_a_static_name_witness :
  In (CopyObject
        (Promote.awsDefaults (promoteFlags false true false false false)
           (testBuild (makeConfig false) "abc1234" (mkS3Config None (Some "bucket") None)
              [mkTarget "arm64" "darwin"] false)
           "bucket/versions/1.2.3/abc1234/mycli-v1.2.3-abc1234-arm64.pkg"
           "channels/stable/mycli-arm64.pkg")
        (Promote.copyOptions (promoteFlags false true false false false) "mycli-arm64.pkg"))
     (fst (Promote.run idleServices (promoteFlags false true false false false)
             (testBuild (makeConfig false) "abc1234" (mkS3Config None (Some "bucket") None)
                [mkTarget "arm64" "darwin"] false))).
Proof.
  apply (installers_keep_a_static_name idleServices (promoteFlags false true false false false)
           (testBuild (makeConfig false) "abc1234" (mkS3Config None (Some "bucket") None)
              [mkTarget "arm64" "darwin"] false)
           "bucket" (mkTarget "arm64" "darwin") ".pkg").
  - reflexivity.
  - repeat split; discriminate.
  - exact I.
  - repeat split; discriminate.
  - repeat split; discriminate.
  - repeat split; discriminate.
  - reflexivity.
  - intros i Hi. simpl in Hi.
    do 5 (destruct i as [|i]; [reflexivity|]). lia.
  - now left.
  - reflexivity.
  - left. repeat split.
Defined.
(** ** What an upload calls, and how it settles *)

Section UploadTrace.

Variable sv : Services.
Variable flags : Upload.Flags.
Variable bc : BuildConfig.

Lemma uploadTarball_batch (t : TargetOptions) :
  Upload.uploadTarball sv flags bc t = batch sv (fst (Upload.uploadTarball sv flags bc t)).
Proof.
  rewrite uploadTarball_eq at 1. unfold batch. apply injective_projections; cbn [fst snd].
  - now rewrite uploadTarball_eq.
  - rewrite uploadTarball_eq. cbn [fst]. rewrite Promise_all_outcome. apply f_equal.
    rewrite !client_rejections_app, !releaseTarballs_eq, maybeUploadManifest_eq.
    destruct (existsSync sv (localManifest bc t)), (xz bc);
      cbn [fst snd map concat client_rejections settleEvent rejections app];
      rewrite ?app_nil_r; reflexivity.
Qed.

Lemma upload_run_trace :
  Upload.checkTargets sv bc = ([], Fulfilled tt) ->
  Upload.run sv flags bc
  = ((uploadEvents sv flags bc
      ++ match client_rejections sv (uploadEvents sv flags bc) with
         | [] => [uploadDone bc]
         | _ => []
         end)%list,
     outcome_of (client_rejections sv (uploadEvents sv flags bc))).
Proof.
  intros Hcheck. unfold Upload.run. rewrite Hcheck, and_then_nil.
  assert (Hbatch :
    (ps <~ map_io (fun t => async (Upload.uploadTarball sv flags bc t)) (targets bc) ;;
     await (Promise_all ps))
    = batch sv (flat_map (fun t => fst (Upload.uploadTarball sv flags bc t)) (targets bc))).
  { apply map_io_batches. intros t. apply uploadTarball_batch. }
  unfold uploadEvents, uploadDone.
  set (evs := flat_map _ _) in *.
  rewrite client_rejections_app.
  replace (client_rejections sv
             (if (0 <? List.length (targets bc))%nat then [Log "uploading targets"] else []))
    with (@nil error) by (now destruct (0 <? _)%nat).
  cbn [app].
  rewrite map_io_async in Hbatch. rewrite map_io_async. fold evs in Hbatch. fold evs.
  rewrite and_then_fulfilled in Hbatch. unfold await, batch in Hbatch.
  cbn [fst snd] in Hbatch. injection Hbatch as _ Hps.
  destruct (0 <? List.length (targets bc))%nat;
    unfold and_then, emit, ret, await; cbn beta iota;
    rewrite Hps; unfold outcome_of;
    destruct (client_rejections sv evs); cbn [app]; rewrite ?app_nil_r; reflexivity.
Qed.

End UploadTrace.

Lemma in_uploadTarball (sv : Services) (flags : Upload.Flags) (bc : BuildConfig)
    (t : TargetOptions) (e : event) :
  In e (fst (Upload.uploadTarball sv flags bc t)) ->
  (exists l p d, e = UploadFile l p d)
  \/ e = Log ("checking for buildmanifest at " ++ localManifest bc t)
  \/ e = Log ("uploading buildmanifest " ++ manifestKey (config bc) (uploadOptions bc) t)
  \/ e = manifestWarning bc t.
Proof.
  rewrite uploadTarball_eq, !releaseTarballs_eq, maybeUploadManifest_eq. cbn [fst].
  destruct (existsSync sv (localManifest bc t)), (xz bc); cbn [fst app];
    intros H; repeat (destruct H as [<- | H]; [eauto 6|]); destruct H.
Qed.

Lemma uploadDone_not_in_uploadEvents (sv : Services) (flags : Upload.Flags)
    (bc : BuildConfig) :
  ~ In (uploadDone bc) (uploadEvents sv flags bc).
Proof.
  unfold uploadEvents, uploadDone. intros H. apply in_app_or in H.
  destruct H as [H | H].
  - destruct (0 <? _)%nat; [destruct H as [H | [] ]; discriminate H | destruct H].
  - apply in_flat_map in H. destruct H as [t [_ H] ].
    apply in_uploadTarball in H.
    destruct H as [ [l [p [d H] ] ] | [H | [H | H] ] ]; discriminate H.
Qed.

(** X16. Once every target is built, an upload is fulfilled exactly when the
    client accepted every upload it was asked for, and only then is the last
    line, [done uploading ...], logged. *)
Theorem upload_fulfilled_iff (sv : Services) (flags : Upload.Flags) (bc : BuildConfig) :
  targetsBuilt sv bc ->
  (snd (Upload.run sv flags bc) = Fulfilled tt
   <-> forall e, In e (fst (Upload.run sv flags bc)) -> settleEvent sv e = Fulfilled tt)
  /\ (In (uploadDone bc) (fst (Upload.run sv flags bc))
      <-> snd (Upload.run sv flags bc) = Fulfilled tt).
Proof.
  intros Hbuilt.
  rewrite (upload_run_trace sv flags bc (checkTargets_built sv bc Hbuilt)).
  cbn [fst snd]. rewrite outcome_of_fulfilled.
  pose proof (uploadDone_not_in_uploadEvents sv flags bc) as Hnot.
  pose proof (client_rejections_nil sv (uploadEvents sv flags bc)) as Hnil.
  destruct (client_rejections sv (uploadEvents sv flags bc)) as [|err errs].
  - split; split; try reflexivity.
    + intros _ e Hin. apply in_app_or in Hin. destruct Hin as [Hin | [<- | [] ] ].
      * now apply Hnil.
      * reflexivity.
    + intros _. apply in_or_app. right. now left.
  - rewrite app_nil_r. split; split.
    + intros H. discriminate H.
    + intros H. now apply Hnil.
    + intros H. contradiction.
    + intros H. discriminate H.
Qed.

Lemma upload_fulfilled_iff_witness :
  (snd (Upload.run idleServices (Upload.mkFlags false)
          (testBuild (makeConfig false) "abc1234" (makeS3Config "") [linux_x64] true))
   = Fulfilled tt
   <-> forall e,
         In e (fst (Upload.run idleServices (Upload.mkFlags false)
                      (testBuild (makeConfig false) "abc1234" (makeS3Config "")
                         [linux_x64] true))) ->
         settleEvent idleServices e = Fulfilled tt)
  /\ (In (uploadDone (testBuild (makeConfig false) "abc1234" (makeS3Config "")
                        [linux_x64] true))
        (fst (Upload.run idleServices (Upload.mkFlags false)
                (testBuild (makeConfig false) "abc1234" (makeS3Config "")
                   [linux_x64] true)))
      <-> snd (Upload.run idleServices (Upload.mkFlags false)
                 (testBuild (makeConfig false) "abc1234" (makeS3Config "")
                    [linux_x64] true))
          = Fulfilled tt).
Proof.
  apply (upload_fulfilled_iff idleServices (Upload.mkFlags false)
           (testBuild (makeConfig false) "abc1234" (makeS3Config "") [linux_x64] true)).
  intros t Ht. reflexivity.
Defined.

Section UploadAnswers.

Variable sv sv' : Services.
Variable flags : Upload.Flags.
Variable bc : BuildConfig.

Hypothesis same_disk : forall p, existsSync sv p = existsSync sv' p.

Lemma checkTargets_same_disk : Upload.checkTargets sv bc = Upload.checkTargets sv' bc.
Proof.
  unfold Upload.checkTargets.
  induction (targets bc) as [|t l IH]; [reflexivity|].
  cbn [for_each]. rewrite !versioned_eq, !and_then_lift_Ok, same_disk.
  destruct (negb _); [reflexivity|]. now rewrite !and_then_ret.
Qed.

Lemma uploadTarball_same_disk (t : TargetOptions) :
  fst (Upload.uploadTarball sv flags bc t) = fst (Upload.uploadTarball sv' flags bc t).
Proof.
  rewrite !uploadTarball_eq, !releaseTarballs_eq, !maybeUploadManifest_eq, same_disk.
  cbn [fst]. now destruct (existsSync sv' (localManifest bc t)), (xz bc).
Qed.

Lemma uploadEvents_same_disk : uploadEvents sv flags bc = uploadEvents sv' flags bc.
Proof.
  unfold uploadEvents. apply f_equal, flat_map_ext. intros t.
  apply uploadTarball_same_disk.
Qed.

End UploadAnswers.

Lemma uploads_of_app (a b : list event) :
  uploads_of (a ++ b) = (uploads_of a ++ uploads_of b)%list.
Proof. apply filter_app. Qed.

Lemma uploads_of_run (sv : Services) (flags : Upload.Flags) (bc : BuildConfig) :
  uploads_of (fst (Upload.run sv flags bc))
  = match snd (Upload.checkTargets sv bc) with
    | Fulfilled _ => uploads_of (uploadEvents sv flags bc)
    | Rejected _ => []
    end.
Proof.
  destruct (checkTargets_cases sv bc) as [Hok | [es Hbad] ].
  - rewrite (upload_run_trace sv flags bc Hok), Hok. cbn [fst snd].
    rewrite uploads_of_app.
    destruct (client_rejections sv (uploadEvents sv flags bc)); cbn; apply app_nil_r.
  - rewrite (run_unchecked sv flags bc es Hbad), Hbad. reflexivity.
Qed.

(** X17. Which files an upload sends depends on the local disk only, never on
    what the client answers: on the same disk, the same uploads are issued, in
    the same order, whether or not any of them is accepted. *)
Theorem upload_calls_whatever_the_answers
  (sv sv' : Services) (flags : Upload.Flags) (bc : BuildConfig) :
  (forall p, existsSync sv p = existsSync sv' p) ->
  uploads_of (fst (Upload.run sv flags bc)) = uploads_of (fst (Upload.run sv' flags bc)).
Proof.
  intros Hdisk. rewrite !uploads_of_run.
  rewrite (checkTargets_same_disk sv sv' bc Hdisk).
  now rewrite (uploadEvents_same_disk sv sv' flags bc Hdisk).
Qed.

Lemma upload_calls_whatever_the_answers_witness :
  uploads_of
    (fst (Upload.run (diskServices ["dist/mycli-v1.2.3-abc1234-linux-x64.tar.gz"])
            (Upload.mkFlags false)
            (testBuild (makeConfig false) "abc1234" (makeS3Config "") [linux_x64] true)))
  = uploads_of
      (fst (Upload.run
              (mkServices (onDisk ["dist/mycli-v1.2.3-abc1234-linux-x64.tar.gz"])
                 (fun _ _ _ => Ok tt) (fun _ _ => Ok tt) (fun _ => Ok tt))
              (Upload.mkFlags false)
              (testBuild (makeConfig false) "abc1234" (makeS3Config "") [linux_x64] true))).
Proof.
  apply (upload_calls_whatever_the_answers
           (diskServices ["dist/mycli-v1.2.3-abc1234-linux-x64.tar.gz"])
           (mkServices (onDisk ["dist/mycli-v1.2.3-abc1234-linux-x64.tar.gz"])
              (fun _ _ _ => Ok tt) (fun _ _ => Ok tt) (fun _ => Ok tt))
           (Upload.mkFlags false)
           (testBuild (makeConfig false) "abc1234" (makeS3Config "") [linux_x64] true)).
  intros p. reflexivity.
Defined.
(** ** From upload to promotion *)

(** X18. A promotion reads what the upload of the same release wrote.  When
    the sha and the version of the promotion are those of the build, then for
    every target the upload sends the gz tarball to the key [k] of the bucket
    and the promotion copies from [<bucket>/k]; likewise for the manifest when
    it is on the disk.  This holds with and without custom templates. *)
Theorem promote_copies_what_upload_wrote
  (sv sv' : Services) (uflags : Upload.Flags) (pflags : Promote.Flags)
  (bc : BuildConfig) (b : string) (t : TargetOptions) :
  targetsBuilt sv bc ->
  bucket (s3Config bc) = Some b -> b <> "" ->
  Promote.f_sha pflags = gitSha bc -> Promote.f_version pflags = version (config bc) ->
  In t (targets bc) ->
  (exists local params,
     In (UploadFile local params (Upload.dry_run uflags)) (fst (Upload.run sv uflags bc))
     /\ up_Bucket params = Some b
     /\ exists p o,
          In (CopyObject p o) (fst (Promote.run sv' pflags bc))
          /\ cp_Bucket p = b
          /\ cp_CopySource p = Path.join [b; up_Key params]
          /\ up_Key params
             = cloudKey (uploadKeys bc) (versionedKey (config bc) (uploadOptions bc) tar_gz t))
  /\ (existsSync sv (localManifest bc t) = true ->
      exists local params,
        In (UploadFile local params (Upload.dry_run uflags)) (fst (Upload.run sv uflags bc))
        /\ exists p o,
             In (CopyObject p o) (fst (Promote.run sv' pflags bc))
             /\ cp_CopySource p = Path.join [b; up_Key params]
             /\ up_Key params
                = cloudKey (uploadKeys bc) (manifestKey (config bc) (uploadOptions bc) t)).
Proof.
  intros Hbuilt Hbucket Hb Hsha Hversion Ht.
  assert (Htruthy : JS.truthy (bucket (s3Config bc)) = true)
    by (rewrite Hbucket; destruct b; [contradiction | reflexivity]).
  assert (Hopts : promoteOptions pflags bc = uploadOptions bc)
    by (unfold promoteOptions, uploadOptions; now rewrite Hsha, Hversion).
  assert (Hkeys : promoteKeys pflags bc = uploadKeys bc)
    by (unfold promoteKeys, uploadKeys; now rewrite Hopts).
  assert (Hthe : Promote.theBucket bc = b)
    by (unfold Promote.theBucket; now rewrite Hbucket).
  assert (Hup : forall e, In e (fst (Upload.uploadTarball sv uflags bc t)) ->
                          In e (fst (Upload.run sv uflags bc))).
  { intros e He. now apply run_calls_uploadTarball with t. }
  assert (Hpro : forall e, In e (promoteCalls sv' pflags bc) ->
                           In e (fst (Promote.run sv' pflags bc))).
  { intros e He. apply in_promote_run. right. now split. }
  split.
  - exists (localTarball bc tar_gz t), (tarballUploadParams bc tar_gz t). split.
    { apply Hup. rewrite uploadTarball_eq, releaseTarballs_eq. cbn [fst]. now left. }
    split; [exact Hbucket|].
    eexists. eexists. split.
    { apply Hpro, in_promoteCalls. left. exists t. split; [exact Ht|]. right.
      unfold tarballCalls. left. reflexivity. }
    cbn [cp_Bucket cp_CopySource Promote.awsDefaults up_Key tarballUploadParams].
    split; [exact Hthe|]. split; [|reflexivity].
    unfold tarballSource. now rewrite Hthe, Hkeys, Hopts.
  - intros Hmanifest.
    exists (localManifest bc t), (manifestUploadParams bc t). split.
    { apply Hup. rewrite uploadTarball_eq, maybeUploadManifest_eq, Hmanifest. cbn [fst].
      apply in_or_app. right. apply in_or_app. left. right. right. now left. }
    eexists. eexists. split.
    { apply Hpro, in_promoteCalls. left. exists t. split; [exact Ht|]. left.
      unfold manifestCopy. reflexivity. }
    cbn [cp_CopySource Promote.awsDefaults up_Key manifestUploadParams].
    split; [|reflexivity]. now rewrite Hthe, Hkeys, Hopts.
Qed.

Lemma promote_copies_what_upload_wrote_witness :
  exists local params,
    In (UploadFile local params false)
      (fst (Upload.run idleServices (Upload.mkFlags false)
              (testBuild (makeConfig false) "abc1234" (mkS3Config None (Some "bucket") None)
                 [linux_x64] false)))
    /\ up_Bucket params = Some "bucket"
    /\ exists p o,
         In (CopyObject p o)
           (fst (Promote.run idleServices (promoteFlags false false false false false)
                   (testBuild (makeConfig false) "abc1234"
                      (mkS3Config None (Some "bucket") None) [linux_x64] false)))
         /\ cp_Bucket p = "bucket"
         /\ cp_CopySource p = Path.join ["bucket"; up_Key params]
         /\ up_Key params = "versions/1.2.3/abc1234/mycli-v1.2.3-abc1234-linux-x64.tar.gz".
Proof.
  apply (proj1 (promote_copies_what_upload_wrote idleServices idleServices
                  (Upload.mkFlags false) (promoteFlags false false false false false)
                  (testBuild (makeConfig false) "abc1234"
                     (mkS3Config None (Some "bucket") None) [linux_x64] false)
                  "bucket" linux_x64
                  ltac:(intros t Ht; reflexivity) eq_refl ltac:(discriminate)
                  eq_refl eq_refl ltac:(now left))).
Defined.

(** With another sha the promotion reads from where nothing was uploaded. *)
Example promote_of_another_sha :
  In (UploadFile "dist/mycli-v1.2.3-abc1234-linux-x64.tar.gz"
        (mkUploadParams "public-read" (Some "bucket") "max-age=604800" "application/gzip"
           "versions/1.2.3/abc1234/mycli-v1.2.3-abc1234-linux-x64.tar.gz") false)
    (fst (Upload.run idleServices (Upload.mkFlags false)
            (testBuild (makeConfig false) "abc1234" (mkS3Config None (Some "bucket") None)
               [linux_x64] false)))
  /\ In (CopyObject
           (mkCopyParams "public-read" "bucket" "max-age=86400" "REPLACE"
              "bucket/versions/1.2.3/fffffff/mycli-v1.2.3-fffffff-linux-x64.tar.gz"
              "channels/stable/mycli-linux-x64.tar.gz")
           (mkCopyOptions false false "mycli-linux-x64.tar.gz"))
       (fst (Promote.run idleServices
               (Promote.mkFlags "stable" false false false false false "86400" "fffffff"
                  "1.2.3" false false)
               (testBuild (makeConfig false) "abc1234" (mkS3Config None (Some "bucket") None)
                  [linux_x64] false))).
Proof. split; vm_compute; tauto. Qed.
(** ** Keys of distinct targets *)

Lemma append_inj_l (s x y : string) : s ++ x = s ++ y -> x = y.
Proof.
  induction s as [|c s IH]; [trivial|].
  cbn [append]. intros H. injection H as H. now apply IH.
Qed.

Lemma append_inj_same_length (a a' e e' : string) :
  String.length e = String.length e' -> a ++ e = a' ++ e' -> a = a' /\ e = e'.
Proof.
  intros Hlen. revert a'. induction a as [|c a IH]; intros a' H.
  - destruct a' as [|c' a'']; [now split|].
    apply (f_equal String.length) in H. cbn [append] in H.
    cbn [String.length] in H. rewrite length_append in H. lia.
  - destruct a' as [|c' a''].
    + apply (f_equal String.length) in H. cbn [append] in H.
      cbn [String.length] in H. rewrite length_append in H. lia.
    + cbn [append] in H. injection H as -> H.
      destruct (IH _ H) as [-> ->]. now split.
Qed.

Lemma dash_split (p p' r r' : string) :
  JS.includes "-" p = false -> JS.includes "-" p' = false ->
  p ++ "-" ++ r = p' ++ "-" ++ r' -> p = p' /\ r = r'.
Proof.
  revert p'. induction p as [|c p IH]; intros p' Hp Hp' H.
  - destruct p' as [|c' p'']; cbn [append] in H.
    + injection H as H. now split.
    + injection H as <- _. cbn in Hp'. discriminate Hp'.
  - destruct p' as [|c' p'']; cbn [append] in H.
    + injection H as -> _. cbn in Hp. discriminate Hp.
    + injection H as -> H.
      cbn [JS.includes] in Hp, Hp'.
      apply orb_false_iff in Hp. apply orb_false_iff in Hp'.
      destruct (IH p'' (proj2 Hp) (proj2 Hp') H) as [-> ->]. now split.
Qed.

Lemma ext_string_inj (e e' : Ext) : ext_string e = ext_string e' -> e = e'.
Proof. destruct e, e'; intros H; try reflexivity; discriminate H. Qed.

Lemma ext_string_length (e e' : Ext) :
  String.length (ext_string e) = String.length (ext_string e').
Proof. now destruct e, e'. Qed.

Lemma target_names_inj (t t' : TargetOptions) (s s' : string) :
  JS.includes "-" (platform t) = false -> JS.includes "-" (platform t') = false ->
  String.length s = String.length s' ->
  platform t ++ "-" ++ arch t ++ s = platform t' ++ "-" ++ arch t' ++ s' ->
  t = t' /\ s = s'.
Proof.
  intros Hp Hp' Hlen H.
  destruct (dash_split _ _ _ _ Hp Hp' H) as [Hplatform Hrest].
  destruct (append_inj_same_length _ _ _ _ Hlen Hrest) as [Harch Hs].
  destruct t, t'. cbn in Hplatform, Harch. now subst.
Qed.

(** X19. In the default scheme distinct targets never share a key: when no
    platform name has a ['-'] in it, two tarballs with the same versioned key,
    or the same channel key, are of the same target and the same extension,
    and two manifests with the same key are of the same target. *)
Theorem keys_do_not_collide
  (cfg : Config) (s3c : S3Config) (opts : KeyOptions) (e e' : Ext)
  (t t' : TargetOptions) (channel : string) :
  hasCustomTemplates cfg = false ->
  JS.includes "-" (platform t) = false -> JS.includes "-" (platform t') = false ->
  (versioned (s3Keys cfg s3c opts) e t = versioned (s3Keys cfg s3c opts) e' t'
   -> t = t' /\ e = e')
  /\ (channelTarball (s3Keys cfg s3c opts) e t channel
      = channelTarball (s3Keys cfg s3c opts) e' t' channel
      -> t = t' /\ e = e')
  /\ (manifest (s3Keys cfg s3c opts) t = manifest (s3Keys cfg s3c opts) t' -> t = t').
Proof.
  intros Hdefault Hp Hp'. split; [|split].
  - rewrite !versioned_eq. unfold versionedKey. rewrite Hdefault. intros H.
    injection H as H.
    assert (H' : (k_bin opts ++ versionMarker (k_version opts) (k_sha opts) ++ "-")
                   ++ platform t ++ "-" ++ arch t ++ ext_string e
                 = (k_bin opts ++ versionMarker (k_version opts) (k_sha opts) ++ "-")
                     ++ platform t' ++ "-" ++ arch t' ++ ext_string e')
      by (rewrite !append_assoc'; exact H).
    apply append_inj_l in H'.
    destruct (target_names_inj t t' _ _ Hp Hp' (ext_string_length e e') H') as [Ht He].
    split; [exact Ht | now apply ext_string_inj].
  - rewrite !channelTarball_eq. unfold channelTarballKey, unversionedName.
    rewrite Hdefault. intros H.
    injection H as H.
    assert (H' : (channelAWSDir channel s3c ++ "/" ++ k_bin opts ++ "-")
                   ++ platform t ++ "-" ++ arch t ++ ext_string e
                 = (channelAWSDir channel s3c ++ "/" ++ k_bin opts ++ "-")
                     ++ platform t' ++ "-" ++ arch t' ++ ext_string e')
      by (rewrite !append_assoc'; exact H).
    apply append_inj_l in H'.
    destruct (target_names_inj t t' _ _ Hp Hp' (ext_string_length e e') H') as [Ht He].
    split; [exact Ht | now apply ext_string_inj].
  - rewrite !manifest_eq. unfold manifestKey. rewrite Hdefault. intros H.
    injection H as H.
    assert (H' : (k_bin opts ++ versionMarker (k_version opts) (k_sha opts) ++ "-")
                   ++ platform t ++ "-" ++ arch t ++ "-buildmanifest"
                 = (k_bin opts ++ versionMarker (k_version opts) (k_sha opts) ++ "-")
                     ++ platform t' ++ "-" ++ arch t' ++ "-buildmanifest")
      by (rewrite !append_assoc'; exact H).
    apply append_inj_l in H'.
    now destruct (target_names_inj t t' _ _ Hp Hp' eq_refl H').
Qed.

Lemma keys_do_not_collide_witness :
  (versioned (s3Keys (makeConfig false) (makeS3Config "") defaultOpts) tar_gz linux_x64
   = versioned (s3Keys (makeConfig false) (makeS3Config "") defaultOpts) tar_xz
       (mkTarget "arm64" "linux")
   -> linux_x64 = mkTarget "arm64" "linux" /\ tar_gz = tar_xz)
  /\ (channelTarball (s3Keys (makeConfig false) (makeS3Config "") defaultOpts)
        tar_gz linux_x64 "stable"
      = channelTarball (s3Keys (makeConfig false) (makeS3Config "") defaultOpts)
          tar_xz (mkTarget "arm64" "linux") "stable"
      -> linux_x64 = mkTarget "arm64" "linux" /\ tar_gz = tar_xz)
  /\ (manifest (s3Keys (makeConfig false) (makeS3Config "") defaultOpts) linux_x64
      = manifest (s3Keys (makeConfig false) (makeS3Config "") defaultOpts)
          (mkTarget "arm64" "linux")
      -> linux_x64 = mkTarget "arm64" "linux").
Proof.
  apply (keys_do_not_collide (makeConfig false) (makeS3Config "") defaultOpts tar_gz tar_xz
           linux_x64 (mkTarget "arm64" "linux") "stable").
  - reflexivity.
  - reflexivity.
  - reflexivity.
Defined.

(** A platform name with a ['-'] in it can collide with another target. *)
Example keys_collide_on_dash :
  versioned (s3Keys (makeConfig false) (makeS3Config "") defaultOpts) tar_gz
    (mkTarget "c" "a-b")
  = versioned (s3Keys (makeConfig false) (makeS3Config "") defaultOpts) tar_gz
      (mkTarget "b-c" "a").
Proof. reflexivity. Qed.
(** ** A build without targets *)

(** X20. With no target to handle, an upload sends nothing, logs its last
    line only and is fulfilled; a promotion with a bucket copies nothing but,
    under [--deb], the six files of the apt repository, twice each. *)
Theorem build_without_targets
  (sv : Services) (uflags : Upload.Flags) (pflags : Promote.Flags) (bc : BuildConfig) :
  targets bc = [] ->
  Upload.run sv uflags bc = ([uploadDone bc], Fulfilled tt)
  /\ (JS.truthy (bucket (s3Config bc)) = true ->
      fst (Promote.run sv pflags bc)
      = (promotePrelude pflags
         ++ (if Promote.f_deb pflags
             then flat_map (debCopies pflags bc) Promote.aptMetadata
             else []))%list).
Proof.
  intros Hnone. split.
  - unfold Upload.run, Upload.checkTargets, uploadDone. rewrite Hnone. reflexivity.
  - intros Hbucket. rewrite promote_run_trace by exact Hbucket. cbn [fst].
    apply f_equal. unfold promoteCalls, darwinArches, win32Arches, debArtifacts.
    unfold Promote.debShortKeys. rewrite Hnone. cbn [flat_map filter map uniq mapM app].
    destruct (Promote.f_xz pflags), (Promote.f_macos pflags), (Promote.f_win pflags),
      (Promote.f_deb pflags); reflexivity.
Qed.

Lemma build_without_targets_witness :
  Upload.run idleServices (Upload.mkFlags false)
    (testBuild (makeConfig false) "abc1234" (mkS3Config None (Some "bucket") None) [] true)
  = ([uploadDone (testBuild (makeConfig false) "abc1234"
                    (mkS3Config None (Some "bucket") None) [] true)],
     Fulfilled tt)
  /\ (JS.truthy (Some "bucket") = true ->
      fst (Promote.run idleServices (promoteFlags true true true true true)
             (testBuild (makeConfig false) "abc1234" (mkS3Config None (Some "bucket") None)
                [] true))
      = (promotePrelude (promoteFlags true true true true true)
         ++ flat_map
              (debCopies (promoteFlags true true true true true)
                 (testBuild (makeConfig false) "abc1234"
                    (mkS3Config None (Some "bucket") None) [] true))
              Promote.aptMetadata)%list).
Proof.
  apply (build_without_targets idleServices (Upload.mkFlags false)
           (promoteFlags true true true true true)
           (testBuild (makeConfig false) "abc1234" (mkS3Config None (Some "bucket") None)
              [] true)).
  reflexivity.
Defined.

(** ** The Debian promotion as a whole *)

(** The first target that [debArch] does not map makes the list of [.deb]
    files throw. *)
Lemma debShortKeys_unmapped (bc : BuildConfig) :
  (exists t, unmappedDebTarget bc t) ->
  exists t, unmappedDebTarget bc t
    /\ Promote.debShortKeys bc = Throw (Error ("invalid arch: " ++ arch t)).
Proof.
  unfold Promote.debShortKeys. cbv zeta. rewrite filter_filter. fold (debTargets bc).
  intros [t0 [Hin0 [Hlinux0 [Hx0 Hout0] ] ] ].
  assert (Hdeb0 : In t0 (debTargets bc)).
  { unfold debTargets. apply filter_In. split; [exact Hin0|].
    apply andb_true_iff. split; [now apply String.eqb_eq | now apply negb_true_iff]. }
  assert (Hsub : forall t, In t (debTargets bc) -> ~ In (arch t) knownArchs ->
                           unmappedDebTarget bc t).
  { intros t Ht Hout. unfold debTargets in Ht. apply filter_In in Ht.
    destruct Ht as [Hin Hcond]. apply andb_true_iff in Hcond.
    destruct Hcond as [Hlinux Hx]. split; [exact Hin|].
    split; [now apply String.eqb_eq|]. split; [now apply negb_true_iff | exact Hout]. }
  clear Hin0 Hlinux0 Hx0. revert Hdeb0 Hsub.
  induction (debTargets bc) as [|a l IH]; intros Hdeb0 Hsub; [destruct Hdeb0|].
  cbn [mapM].
  destruct (in_dec string_dec (arch a) knownArchs) as [Hknown | Hunknown].
  - destruct (debArch_known (arch a) Hknown) as [d Hd].
    rewrite (debShortKey_eq bc a d Hd). cbn [bind].
    destruct Hdeb0 as [-> | Hdeb0]; [contradiction|].
    destruct (IH Hdeb0 (fun t Ht => Hsub t (or_intror Ht))) as [t [Ht Hthrow] ].
    exists t. split; [exact Ht|]. now rewrite Hthrow.
  - exists a. split; [apply Hsub; [now left | exact Hunknown] |].
    unfold Promote.debShortKey. now rewrite (debArch_unknown (arch a) Hunknown).
Qed.

(** A folder with a ['/'] after it gives the directories of the folder
    without it. *)
Lemma dirs_of_folder_slash (version sha channel g : string) (b a : option string) :
  clean g ->
  commitAWSDir version sha (mkS3Config (Some (g ++ "/")) b a)
  = commitAWSDir version sha (mkS3Config (Some g) b a)
  /\ channelAWSDir channel (mkS3Config (Some (g ++ "/")) b a)
     = channelAWSDir channel (mkS3Config (Some g) b a).
Proof.
  intros [ [Hslash _] Hne]. unfold commitAWSDir, channelAWSDir. cbv zeta. cbn [folder].
  assert (Hg : JS.or_else (Some g) "" = g) by (destruct g; [contradiction | reflexivity]).
  assert (Hgs : JS.or_else (Some (g ++ "/")) "" = g ++ "/") by (destruct g; reflexivity).
  rewrite Hg, Hgs, (slice_last_clean g Hslash).
  rewrite (slice_last_append g "/") by discriminate. cbn [JS.slice_last].
  assert (Hge : (g =? "") = false) by (destruct g; [contradiction | reflexivity]).
  assert (Hgse : (g ++ "/" =? "") = false) by (destruct g; reflexivity).
  rewrite Hge, Hgse. cbn. split; reflexivity.
Qed.

Section AptKeysOfFolder.

Variable flags : Promote.Flags.
Variable bc : BuildConfig.
Variable b : string.

Hypothesis Hbucket : bucket (s3Config bc) = Some b.
Hypothesis Hb : clean b.
Hypothesis Hfolder : segmentFolder (s3Config bc).
Hypothesis Hchannel : clean (Promote.f_channel flags).
Hypothesis Hversion : clean (Promote.f_version flags).
Hypothesis Hsha : clean (Promote.f_sha flags).

Lemma apt_keys (artifact : string) :
  clean artifact ->
  Promote.cloudBucketCommitKey flags bc ("apt/" ++ artifact)
  = b ++ "/" ++ commitAWSDir (Promote.f_version flags) (Promote.f_sha flags) (s3Config bc)
      ++ "/apt/" ++ artifact
  /\ Promote.cloudChannelKey flags bc ("apt/" ++ artifact)
     = channelAWSDir (Promote.f_channel flags) (s3Config bc) ++ "/apt/" ++ artifact
  /\ Promote.cloudChannelKey flags bc "apt/" ++ "./" ++ artifact
     = channelAWSDir (Promote.f_channel flags) (s3Config bc) ++ "/apt/./" ++ artifact.
Proof.
  intros Ha.
  assert (Hplain : forall bc', bucket (s3Config bc') = Some b -> plainFolder (s3Config bc') ->
            Promote.cloudBucketCommitKey flags bc' ("apt/" ++ artifact)
            = b ++ "/"
                ++ commitAWSDir (Promote.f_version flags) (Promote.f_sha flags) (s3Config bc')
                ++ "/apt/" ++ artifact
            /\ Promote.cloudChannelKey flags bc' ("apt/" ++ artifact)
               = channelAWSDir (Promote.f_channel flags) (s3Config bc') ++ "/apt/" ++ artifact
            /\ Promote.cloudChannelKey flags bc' "apt/" ++ "./" ++ artifact
               = channelAWSDir (Promote.f_channel flags) (s3Config bc')
                   ++ "/apt/./" ++ artifact).
  { intros bc' Hbucket' Hfolder'.
    split; [now apply cloudBucketCommitKey_apt|].
    split; [now apply cloudChannelKey_apt|].
    rewrite cloudChannelKey_apt_dir by assumption. now rewrite !append_assoc'. }
  unfold segmentFolder in Hfolder.
  destruct (folder (s3Config bc)) as [f|] eqn:Hf.
  - destruct Hfolder as [Hp | [g [Hg ->] ] ].
    + apply Hplain; [exact Hbucket|]. unfold plainFolder. now rewrite Hf.
    + destruct (Hplain
                  (mkBuildConfig (config bc) (dist bc) (gitSha bc)
                     (mkS3Config (Some g) (bucket (s3Config bc)) (acl (s3Config bc)))
                     (targets bc) (xz bc))
                  Hbucket (proj1 Hg)) as [H1 [H2 H3] ].
      unfold Promote.cloudBucketCommitKey, Promote.cloudChannelKey, Promote.theBucket in *.
      cbn [s3Config bucket] in H1, H2, H3.
      destruct (s3Config bc) as [f' b' a']. cbn [folder bucket acl] in *.
      subst f'.
      destruct (dirs_of_folder_slash (Promote.f_version flags) (Promote.f_sha flags)
                  (Promote.f_channel flags) g b' a' Hg) as [Hc Hch].
      rewrite Hc, Hch. now split.
  - apply Hplain; [exact Hbucket|]. unfold plainFolder. now rewrite Hf.
Qed.

End AptKeysOfFolder.

(** C7, as the code has it.  When [debArch] maps the architecture of every
    linux target that has no ['x86'] in it, the Debian promotion copies the
    [.deb] of each such target and then the six metadata files, each from the
    [apt/] path of the commit directory to the channel key of [apt/<artifact>]
    and to the channel key of [apt/] followed by [./<artifact>], as two calls
    of the client per artifact, all of them issued whatever the client
    answers, and it is fulfilled exactly when the client accepts them all; a
    linux target with ['x86'] in its architecture contributes no [.deb].  For
    a bucket, channel, version and SHA that are clean path segments, a folder
    that is one segment with or without its ['/'], and names without ['/'],
    the source is [<bucket>/<commit dir>/apt/<artifact>] and the two keys are
    [<channel dir>/apt/<artifact>] and [<channel dir>/apt/./<artifact>].  When
    some such target has an architecture that [debArch] does not map, the
    Debian promotion rejects with [invalid arch: <arch>] of such a target and
    copies nothing. *)
Theorem debian_promotion_copies
  (sv : Services) (flags : Promote.Flags) (bc : BuildConfig) :
  ((forall t, In t (targets bc) -> platform t = "linux" ->
              JS.includes "x86" (arch t) = false -> In (arch t) knownArchs) ->
   Promote.debShortKeys bc
   = Ok (map (fun t => debFileName (bin (config bc)) (JS.split0 "-" (version (config bc)))
                         (gitSha bc) (debArchName (arch t)))
           (filter (fun t => (platform t =? "linux") && negb (JS.includes "x86" (arch t)))
              (targets bc)))
   /\ fst (Promote.promoteDebianAptPackages sv flags bc)
      = flat_map
          (fun artifact =>
             [CopyObject
                (Promote.awsDefaults flags bc
                   (Promote.cloudBucketCommitKey flags bc ("apt/" ++ artifact))
                   (Promote.cloudChannelKey flags bc ("apt/" ++ artifact)))
                (Promote.copyOptions flags
                   (Promote.cloudChannelKey flags bc ("apt/" ++ artifact)));
              CopyObject
                (Promote.awsDefaults flags bc
                   (Promote.cloudBucketCommitKey flags bc ("apt/" ++ artifact))
                   (Promote.cloudChannelKey flags bc "apt/" ++ "./" ++ artifact))
                (Promote.copyOptions flags
                   (Promote.cloudChannelKey flags bc "apt/" ++ "./" ++ artifact))])
          (debFiles bc
             ++ ["Packages.gz"; "Packages.xz"; "Packages.bz2";
                 "Release"; "InRelease"; "Release.gpg"])%list
   /\ (snd (Promote.promoteDebianAptPackages sv flags bc) = Fulfilled tt
       <-> forall e, In e (fst (Promote.promoteDebianAptPackages sv flags bc)) ->
                     settleEvent sv e = Fulfilled tt)
   /\ (forall b,
         bucket (s3Config bc) = Some b -> clean b -> segmentFolder (s3Config bc) ->
         clean (Promote.f_channel flags) -> clean (Promote.f_version flags) ->
         clean (Promote.f_sha flags) ->
         no_slash (bin (config bc)) -> no_slash (version (config bc)) ->
         no_slash (gitSha bc) ->
         forall artifact,
           In artifact
              (debFiles bc
                 ++ ["Packages.gz"; "Packages.xz"; "Packages.bz2";
                     "Release"; "InRelease"; "Release.gpg"])%list ->
           Promote.cloudBucketCommitKey flags bc ("apt/" ++ artifact)
           = b ++ "/"
               ++ commitAWSDir (Promote.f_version flags) (Promote.f_sha flags) (s3Config bc)
               ++ "/apt/" ++ artifact
           /\ Promote.cloudChannelKey flags bc ("apt/" ++ artifact)
              = channelAWSDir (Promote.f_channel flags) (s3Config bc) ++ "/apt/" ++ artifact
           /\ Promote.cloudChannelKey flags bc "apt/" ++ "./" ++ artifact
              = channelAWSDir (Promote.f_channel flags) (s3Config bc)
                  ++ "/apt/./" ++ artifact))
  /\ ((exists t, In t (targets bc) /\ platform t = "linux"
                 /\ JS.includes "x86" (arch t) = false /\ ~ In (arch t) knownArchs) ->
      exists t, In t (targets bc) /\ platform t = "linux"
                /\ JS.includes "x86" (arch t) = false /\ ~ In (arch t) knownArchs
                /\ Promote.promoteDebianAptPackages sv flags bc
                   = ([], Rejected [Error ("invalid arch: " ++ arch t)])).
Proof.
  split.
  - intros Hknown.
    assert (Hdebs : Promote.debShortKeys bc = Ok (debFiles bc)).
    { apply debShortKeys_eq. intros t Ht. unfold debTargets in Ht.
      apply filter_In in Ht. destruct Ht as [Hin Hcond].
      apply andb_true_iff in Hcond. destruct Hcond as [Hlinux Hx86].
      apply Hknown; [exact Hin | now apply String.eqb_eq | now apply negb_true_iff]. }
    split; [exact Hdebs|].
    pose proof (promoteDebianAptPackages_batch sv flags bc) as Hbatch.
    rewrite Hdebs in Hbatch. rewrite Hbatch. unfold batch. cbn [fst snd].
    split; [reflexivity|]. split.
    + rewrite outcome_of_fulfilled. apply client_rejections_nil.
    + intros b Hbucket Hb Hfolder Hchannel Hversion Hsha Hbin Hver Hgit artifact Hin.
      assert (Ha : clean artifact).
      { apply in_app_or in Hin. destruct Hin as [Hin | Hin].
        - pose proof (debFiles_clean bc Hbin Hver Hgit) as Hall.
          rewrite Forall_forall in Hall. now apply Hall.
        - pose proof aptMetadata_clean as Hall.
          rewrite Forall_forall in Hall. now apply Hall. }
      now apply apt_keys.
  - intros Hsome.
    destruct (debShortKeys_unmapped bc Hsome) as [t [ [Hin [Hlinux [Hx Hout] ] ] Hthrow] ].
    exists t. do 4 (split; [assumption|]).
    unfold Promote.promoteDebianAptPackages. now rewrite Hthrow.
Qed.

Lemma debian_promotion_copies_witness :
  Promote.debShortKeys
    (testBuild (makeConfig false) "abc1234" (mkS3Config None (Some "bucket") None)
       [linux_x64; mkTarget "x86" "linux"; mkTarget "arm64" "darwin"] false)
  = Ok ["mycli_1.2.3.abc1234-1_amd64.deb"].
Proof.
  apply (proj1 (debian_promotion_copies idleServices
                  (promoteFlags true false false false false)
                  (testBuild (makeConfig false) "abc1234"
                     (mkS3Config None (Some "bucket") None)
                     [linux_x64; mkTarget "x86" "linux"; mkTarget "arm64" "darwin"] false))).
  intros t [<- | [<- | [<- | [ ] ] ] ]; cbn; intros; auto; discriminate.
Defined.

Example debian_promotion_keys :
  map (fun e => match e with
                | CopyObject p _ => (cp_CopySource p, cp_Key p)
                | _ => ("", "")
                end)
    (firstn 4
       (fst (Promote.promoteDebianAptPackages idleServices
               (promoteFlags true false false false false)
               (testBuild (makeConfig false) "abc1234"
                  (mkS3Config (Some "my-cli") (Some "bucket") None)
                  [linux_x64; mkTarget "x86" "linux"] false))))
  = [("bucket/my-cli/versions/1.2.3/abc1234/apt/mycli_1.2.3.abc1234-1_amd64.deb",
      "my-cli/channels/stable/apt/mycli_1.2.3.abc1234-1_amd64.deb");
     ("bucket/my-cli/versions/1.2.3/abc1234/apt/mycli_1.2.3.abc1234-1_amd64.deb",
      "my-cli/channels/stable/apt/./mycli_1.2.3.abc1234-1_amd64.deb");
     ("bucket/my-cli/versions/1.2.3/abc1234/apt/Packages.gz",
      "my-cli/channels/stable/apt/Packages.gz");
     ("bucket/my-cli/versions/1.2.3/abc1234/apt/Packages.gz",
      "my-cli/channels/stable/apt/./Packages.gz")].
Proof. reflexivity. Qed.

(** C7, as stated, fails when a linux target has an architecture that
    [debArch] does not map: the Debian promotion then rejects with the error
    of [debArch], having copied nothing, neither the [.deb] of the x64 target
    nor any of the six metadata files. *)
Lemma debian_promotion_unmapped_arch :
  In linux_x64 [linux_x64; mkTarget "ppc64" "linux"]
  /\ JS.includes "x86" (arch linux_x64) = false
  /\ Promote.promoteDebianAptPackages idleServices
       (promoteFlags true false false false false)
       (testBuild (makeConfig false) "abc1234" (mkS3Config None (Some "bucket") None)
          [linux_x64; mkTarget "ppc64" "linux"] false)
     = ([], Rejected [Error "invalid arch: ppc64"])
  /\ forall p o,
       In (CopyObject p o)
          (fst (Promote.run idleServices (promoteFlags true false false false false)
                  (testBuild (makeConfig false) "abc1234"
                     (mkS3Config None (Some "bucket") None)
                     [linux_x64; mkTarget "ppc64" "linux"] false))) ->
       JS.includes "/apt/" (cp_Key p) = false.
Proof.
  split; [now left|]. split; [reflexivity|]. split; [reflexivity|].
  intros p o Hin. vm_compute in Hin.
  repeat (destruct Hin as [Hin | Hin]; [inversion Hin; subst; reflexivity|]).
  destruct Hin.
Qed.

(** The same keys for the folder given with its ['/']. *)
Example debian_promotion_keys_folder_slash :
  map (fun e => match e with
                | CopyObject p _ => (cp_CopySource p, cp_Key p)
                | _ => ("", "")
                end)
    (firstn 2
       (fst (Promote.promoteDebianAptPackages idleServices
               (promoteFlags true false false false false)
               (testBuild (makeConfig false) "abc1234"
                  (mkS3Config (Some "my-cli/") (Some "bucket") None)
                  [linux_x64; mkTarget "x86" "linux"] false))))
  = [("bucket/my-cli/versions/1.2.3/abc1234/apt/mycli_1.2.3.abc1234-1_amd64.deb",
      "my-cli/channels/stable/apt/mycli_1.2.3.abc1234-1_amd64.deb");
     ("bucket/my-cli/versions/1.2.3/abc1234/apt/mycli_1.2.3.abc1234-1_amd64.deb",
      "my-cli/channels/stable/apt/./mycli_1.2.3.abc1234-1_amd64.deb")].
Proof. reflexivity. Qed.

(** ** The copies of every target *)

(** X6. With a bucket configured, the promotion issues for every target the
    copy of its manifest and the copy of its [.tar.gz], whatever the flags and
    whatever becomes of the other tasks.  In particular, under [--deb], a
    linux target that [debArch] does not map makes the Debian task reject with
    [invalid arch] and the run reject, and these copies have been issued all
    the same. *)
Theorem promote_copies_every_target
  (sv : Services) (flags : Promote.Flags) (bc : BuildConfig) (t : TargetOptions) :
  JS.truthy (bucket (s3Config bc)) = true ->
  In t (targets bc) ->
  In (CopyObject
        (Promote.awsDefaults flags bc
           (Path.join [Promote.theBucket bc;
                       cloudKey (promoteKeys flags bc)
                         (manifestKey (config bc) (promoteOptions flags bc) t)])
           (channelManifestKey (config bc) (s3Config bc) (promoteOptions flags bc) t
              (Promote.f_channel flags)))
        (Promote.copyOptions flags
           (Path.basename
              (channelManifestKey (config bc) (s3Config bc) (promoteOptions flags bc) t
                 (Promote.f_channel flags)))))
     (fst (Promote.run sv flags bc))
  /\ In (CopyObject
           (Promote.awsDefaults flags bc
              (Path.join [Promote.theBucket bc;
                          cloudKey (promoteKeys flags bc)
                            (versionedKey (config bc) (promoteOptions flags bc) tar_gz t)])
              (channelTarballKey (config bc) (s3Config bc) (promoteOptions flags bc)
                 tar_gz t (Promote.f_channel flags)))
           (Promote.copyOptions flags
              (indexFilenameKey (config bc) (promoteOptions flags bc) tar_gz t
                 (Promote.f_channel flags))))
        (fst (Promote.run sv flags bc))
  /\ (Promote.f_deb flags = true ->
      (exists u, In u (targets bc) /\ platform u = "linux"
                 /\ JS.includes "x86" (arch u) = false /\ ~ In (arch u) knownArchs) ->
      (exists u, In u (targets bc) /\ ~ In (arch u) knownArchs
                 /\ Promote.promoteDebianAptPackages sv flags bc
                    = ([], Rejected [Error ("invalid arch: " ++ arch u)]))
      /\ snd (Promote.run sv flags bc) <> Fulfilled tt).
Proof.
  intros Hbucket Ht.
  assert (Hrun : forall e, In e (promoteCalls sv flags bc) ->
                           In e (fst (Promote.run sv flags bc))).
  { intros e He. apply in_promote_run. right. now split. }
  split; [|split].
  - apply Hrun, in_promoteCalls. left. exists t. split; [exact Ht|]. now left.
  - apply Hrun, in_promoteCalls. left. exists t. split; [exact Ht|]. right.
    unfold tarballCalls. now left.
  - intros Hdeb Hsome.
    destruct (debShortKeys_unmapped bc Hsome) as [u [ [Hin [_ [_ Hout] ] ] Hthrow] ].
    split.
    + exists u. split; [exact Hin|]. split; [exact Hout|].
      unfold Promote.promoteDebianAptPackages. now rewrite Hthrow.
    + rewrite promote_run_trace by exact Hbucket. cbn [snd].
      rewrite outcome_of_fulfilled. unfold debErrors. rewrite Hdeb, Hthrow.
      intros H. apply app_eq_nil in H. destruct H as [_ H]. discriminate H.
Qed.

Lemma promote_copies_every_target_witness :
  In (CopyObject
        (mkCopyParams "public-read" "bucket" "max-age=86400" "REPLACE"
           "bucket/versions/1.2.3/abc1234/mycli-v1.2.3-abc1234-linux-ppc64-buildmanifest"
           "channels/stable/mycli-linux-ppc64-buildmanifest")
        (mkCopyOptions false false "mycli-linux-ppc64-buildmanifest"))
     (fst (Promote.run idleServices (promoteFlags true false false false false)
             (testBuild (makeConfig false) "abc1234" (mkS3Config None (Some "bucket") None)
                [mkTarget "ppc64" "linux"] false)))
  /\ In (CopyObject
           (mkCopyParams "public-read" "bucket" "max-age=86400" "REPLACE"
              "bucket/versions/1.2.3/abc1234/mycli-v1.2.3-abc1234-linux-ppc64.tar.gz"
              "channels/stable/mycli-linux-ppc64.tar.gz")
           (mkCopyOptions false false "mycli-linux-ppc64.tar.gz"))
        (fst (Promote.run idleServices (promoteFlags true false false false false)
                (testBuild (makeConfig false) "abc1234"
                   (mkS3Config None (Some "bucket") None)
                   [mkTarget "ppc64" "linux"] false)))
  /\ snd (Promote.run idleServices (promoteFlags true false false false false)
            (testBuild (makeConfig false) "abc1234" (mkS3Config None (Some "bucket") None)
               [mkTarget "ppc64" "linux"] false))
     <> Fulfilled tt.
Proof.
  destruct (promote_copies_every_target idleServices
              (promoteFlags true false false false false)
              (testBuild (makeConfig false) "abc1234" (mkS3Config None (Some "bucket") None)
                 [mkTarget "ppc64" "linux"] false)
              (mkTarget "ppc64" "linux") eq_refl (or_introl eq_refl))
    as [Hmanifest [Htarball Hdeb] ].
  split; [exact Hmanifest|]. split; [exact Htarball|].
  apply Hdeb; [reflexivity|].
  exists (mkTarget "ppc64" "linux"). split; [now left|].
  split; [reflexivity|]. split; [reflexivity|].
  intros Hin. vm_compute in Hin. intuition discriminate.
Defined.

(** ** The order of the calls *)

Lemma uniq_in (a : string) (l : list string) : In a (uniq l) -> In a l.
Proof.
  induction l as [|b l IH]; [intros [] |].
  cbn [uniq]. intros [-> | Hin]; [now left|].
  apply filter_In in Hin. right. apply IH, Hin.
Qed.

Lemma NoDup_uniq (l : list string) : NoDup (uniq l).
Proof.
  induction l as [|b l IH]; [constructor|].
  cbn [uniq]. constructor.
  - intros Hin. apply filter_In in Hin. destruct Hin as [_ Hne].
    rewrite String.eqb_refl in Hne. discriminate Hne.
  - now apply NoDup_filter.
Qed.

Lemma in_darwinArches (bc : BuildConfig) (a : string) :
  In a (darwinArches bc)
  <-> exists t, In t (targets bc) /\ platform t = "darwin" /\ arch t = a.
Proof.
  unfold darwinArches. split.
  - intros Hin. apply uniq_in, in_map_iff in Hin. destruct Hin as [t [Ha Ht] ].
    apply filter_In in Ht. destruct Ht as [Ht Hp]. exists t.
    split; [exact Ht|]. split; [now apply String.eqb_eq | exact Ha].
  - intros [t [Ht [Hp Ha] ] ]. apply in_uniq, in_map_iff. exists t.
    split; [exact Ha|]. apply filter_In. split; [exact Ht | now apply String.eqb_eq].
Qed.

Lemma calls_of_flat_map_id {A} (f : A -> list event) (l : list A) :
  (forall a, calls_of (f a) = f a) -> calls_of (flat_map f l) = flat_map f l.
Proof.
  intros H. induction l as [|a l IH]; [reflexivity|].
  cbn [flat_map]. now rewrite calls_of_app, H, IH.
Qed.

Lemma calls_of_tarballCalls (flags : Promote.Flags) (bc : BuildConfig) (e : Ext)
    (t : TargetOptions) :
  calls_of (tarballCalls flags bc e t) = tarballCalls flags bc e t.
Proof. unfold tarballCalls. now destruct (Promote.f_indexes flags). Qed.

Lemma calls_of_installerCalls (flags : Promote.Flags) (bc : BuildConfig)
    (suffix a : string) :
  calls_of (installerCalls flags bc suffix a) = installerCalls flags bc suffix a.
Proof. unfold installerCalls. cbv zeta. now destruct (Promote.f_indexes flags). Qed.

Lemma calls_of_promotePrelude (flags : Promote.Flags) :
  calls_of (promotePrelude flags) = promotePrelude flags.
Proof. unfold promotePrelude. now destruct (Promote.f_ignore_missing flags). Qed.

(** X8. The calls of the client, in the order a promotion issues them.  After
    the log lines, and only with a bucket: per target the copy of the manifest
    then the calls of the gz tarball; then, each group under its flag, the
    calls of the xz tarballs, of the macOS installers, one per distinct darwin
    architecture, of the Windows installers and of the Debian artifacts.  The
    stops of the spinner, which follow an [await], are left out; in which
    order the distinct darwin architectures come is left open. *)
Theorem promote_calls_in_order (sv : Services) (flags : Promote.Flags) (bc : BuildConfig) :
  exists arches,
    NoDup arches
    /\ (forall a, In a arches
                  <-> exists t, In t (targets bc) /\ platform t = "darwin" /\ arch t = a)
    /\ calls_of (fst (Promote.run sv flags bc))
       = (promotePrelude flags
          ++ (if JS.truthy (bucket (s3Config bc))
              then
                flat_map (fun t => manifestCopy flags bc t :: tarballCalls flags bc tar_gz t)
                  (targets bc)
                ++ (if Promote.f_xz flags
                    then flat_map (tarballCalls flags bc tar_xz) (targets bc) else [])
                ++ (if Promote.f_macos flags
                    then flat_map (installerCalls flags bc ".pkg") arches else [])
                ++ (if Promote.f_win flags
                    then flat_map (installerCalls flags bc ".exe")
                           (map arch (filter (fun t => platform t =? "win32") (targets bc)))
                    else [])
                ++ (if Promote.f_deb flags
                    then flat_map (debCopies flags bc) (debArtifacts bc) else [])
              else []))%list.
Proof.
  exists (darwinArches bc). split; [apply NoDup_uniq|]. split; [apply in_darwinArches|].
  destruct (JS.truthy (bucket (s3Config bc))) eqn:Hbucket.
  - rewrite promote_run_trace by exact Hbucket. cbn [fst].
    rewrite calls_of_app, calls_of_promotePrelude. apply f_equal.
    unfold promoteCalls. rewrite !calls_of_app. fold (win32Arches bc).
    apply f_equal2.
    { apply calls_of_flat_map_id. intros t.
      change (manifestCopy flags bc t :: tarballCalls flags bc tar_gz t)
        with ([manifestCopy flags bc t] ++ tarballCalls flags bc tar_gz t)%list.
      now rewrite calls_of_app, calls_of_tarballCalls. }
    apply f_equal2.
    { destruct (Promote.f_xz flags); [|reflexivity].
      apply calls_of_flat_map_id, calls_of_tarballCalls. }
    apply f_equal2.
    { destruct (Promote.f_macos flags); [|reflexivity].
      apply calls_of_flat_map_id, calls_of_installerCalls. }
    apply f_equal2.
    { destruct (Promote.f_win flags); [|reflexivity].
      rewrite (calls_of_flat_map _ (installerCalls flags bc ".exe")).
      - apply calls_of_flat_map_id, calls_of_installerCalls.
      - intros a. now rewrite calls_of_app, calls_of_installerStop, app_nil_r. }
    destruct (Promote.f_deb flags); [|reflexivity].
    now apply calls_of_flat_map_id.
  - rewrite promote_run_no_bucket by exact Hbucket. cbn [fst].
    now rewrite app_nil_r, calls_of_promotePrelude.
Qed.

(** Two win32 targets under [--win] and [--deb]: both [.exe] copies, then the
    copies of the apt files. *)
Example promote_calls_in_order_win_deb :
  map (fun e => match e with
                | CopyObject p _ => cp_Key p
                | Log _ => "log"
                | _ => ""
                end)
    (firstn 8
       (calls_of
          (fst (Promote.run idleServices (promoteFlags true false true false false)
                  (testBuild (makeConfig false) "abc1234"
                     (mkS3Config None (Some "bucket") None)
                     [mkTarget "x64" "win32"; mkTarget "x86" "win32"] false)))))
  = ["log";
     "channels/stable/mycli-win32-x64-buildmanifest";
     "channels/stable/mycli-win32-x64.tar.gz";
     "channels/stable/mycli-win32-x86-buildmanifest";
     "channels/stable/mycli-win32-x86.tar.gz";
     "channels/stable/mycli-x64.exe";
     "channels/stable/mycli-x86.exe";
     "channels/stable/apt/Packages.gz"].
Proof. reflexivity. Qed.

(** ** What is indexed *)

(** X11. What a promotion indexes.  Every [appendToIndex] is made under
    [--indexes] and is the entry of a tarball or of an installer: of the gz
    tarball of a target, or of its xz tarball under [--xz], with the index
    file name of the key builder and the source of the copy as its url; or of
    the macOS or Windows installer of a target, under the flag of the
    platform, with the unversioned name of the installer and the source of its
    copy.  The copy it belongs to is issued by the same run, so an index entry
    always points at an object the promotion copies; no entry is made for a
    manifest or for a Debian artifact. *)
Theorem index_entries_are_copied (sv : Services) (flags : Promote.Flags) (bc : BuildConfig)
    (o : IndexOptions) :
  In (AppendToIndex o) (fst (Promote.run sv flags bc)) ->
  Promote.f_indexes flags = true
  /\ ((exists e t,
         In t (targets bc) /\ (e = tar_gz \/ (e = tar_xz /\ Promote.f_xz flags = true))
         /\ o = Promote.indexOptions flags bc
                  (indexFilenameKey (config bc) (promoteOptions flags bc) e t
                     (Promote.f_channel flags))
                  (tarballSource flags bc e t)
         /\ In (CopyObject
                  (Promote.awsDefaults flags bc (tarballSource flags bc e t)
                     (channelTarballKey (config bc) (s3Config bc) (promoteOptions flags bc)
                        e t (Promote.f_channel flags)))
                  (Promote.copyOptions flags
                     (indexFilenameKey (config bc) (promoteOptions flags bc) e t
                        (Promote.f_channel flags))))
              (fst (Promote.run sv flags bc)))
      \/ (exists t suffix,
            In t (targets bc)
            /\ ((platform t = "darwin" /\ Promote.f_macos flags = true /\ suffix = ".pkg")
                \/ (platform t = "win32" /\ Promote.f_win flags = true /\ suffix = ".exe"))
            /\ o = Promote.indexOptions flags bc
                     (JS.replace ("-v" ++ Promote.f_version flags ++ "-" ++ Promote.f_sha flags)
                        "" (installerName flags bc suffix (arch t)))
                     (Promote.cloudBucketCommitKey flags bc
                        (installerName flags bc suffix (arch t)))
            /\ In (CopyObject
                     (Promote.awsDefaults flags bc
                        (Promote.cloudBucketCommitKey flags bc
                           (installerName flags bc suffix (arch t)))
                        (Promote.cloudChannelKey flags bc
                           (JS.replace
                              ("-v" ++ Promote.f_version flags ++ "-" ++ Promote.f_sha flags)
                              "" (installerName flags bc suffix (arch t)))))
                     (Promote.copyOptions flags
                        (JS.replace
                           ("-v" ++ Promote.f_version flags ++ "-" ++ Promote.f_sha flags)
                           "" (installerName flags bc suffix (arch t)))))
                 (fst (Promote.run sv flags bc))))
  /\ exists p c, In (CopyObject p c) (fst (Promote.run sv flags bc))
       /\ cp_CopySource p = ix_originalUrl o /\ co_namespace c = ix_filename o.
Proof.
  intros Hin. apply in_promote_run in Hin.
  destruct Hin as [Hin | [Hbucket Hin] ].
  { apply in_promotePrelude in Hin. destruct Hin as [msg [H | H] ]; discriminate H. }
  assert (Hrun : forall e, In e (promoteCalls sv flags bc) ->
                           In e (fst (Promote.run sv flags bc))).
  { intros e He. apply in_promote_run. right. now split. }
  assert (Htar : forall e t, In (AppendToIndex o) (tarballCalls flags bc e t) ->
            Promote.f_indexes flags = true
            /\ o = Promote.indexOptions flags bc
                     (indexFilenameKey (config bc) (promoteOptions flags bc) e t
                        (Promote.f_channel flags))
                     (tarballSource flags bc e t)).
  { intros e t H. unfold tarballCalls in H. destruct H as [H | H]; [discriminate H|].
    destruct (Promote.f_indexes flags); [|destruct H].
    destruct H as [H | [] ]. injection H as <-. now split. }
  assert (Hins : forall suffix a, In (AppendToIndex o) (installerCalls flags bc suffix a) ->
            Promote.f_indexes flags = true
            /\ o = Promote.indexOptions flags bc
                     (JS.replace
                        ("-v" ++ Promote.f_version flags ++ "-" ++ Promote.f_sha flags)
                        "" (installerName flags bc suffix a))
                     (Promote.cloudBucketCommitKey flags bc (installerName flags bc suffix a))).
  { intros suffix a H. unfold installerCalls in H. cbv zeta in H.
    destruct H as [H | H]; [discriminate H|].
    destruct (Promote.f_indexes flags); [|destruct H].
    destruct H as [H | [] ]. injection H as <-. now split. }
  apply in_promoteCalls in Hin.
  destruct Hin as [ [t [Ht [H | H] ] ] | [ [Hxz [t [Ht H] ] ] | [ [Hmac [a [Ha H] ] ]
                  | [ [Hwin [a [Ha [H | H] ] ] ] | [Hdeb [artifact [Ha H] ] ] ] ] ] ].
  - discriminate H.
  - destruct (Htar _ _ H) as [Hix ->]. split; [exact Hix|].
    assert (Hcopy : In (CopyObject
                      (Promote.awsDefaults flags bc (tarballSource flags bc tar_gz t)
                         (channelTarballKey (config bc) (s3Config bc)
                            (promoteOptions flags bc) tar_gz t (Promote.f_channel flags)))
                      (Promote.copyOptions flags
                         (indexFilenameKey (config bc) (promoteOptions flags bc) tar_gz t
                            (Promote.f_channel flags))))
                   (fst (Promote.run sv flags bc))).
    { apply Hrun, in_promoteCalls. left. exists t. split; [exact Ht|]. right. now left. }
    split.
    + left. exists tar_gz, t. split; [exact Ht|]. split; [now left|]. now split.
    + eexists. eexists. split; [exact Hcopy|]. now split.
  - destruct (Htar _ _ H) as [Hix ->]. split; [exact Hix|].
    assert (Hcopy : In (CopyObject
                      (Promote.awsDefaults flags bc (tarballSource flags bc tar_xz t)
                         (channelTarballKey (config bc) (s3Config bc)
                            (promoteOptions flags bc) tar_xz t (Promote.f_channel flags)))
                      (Promote.copyOptions flags
                         (indexFilenameKey (config bc) (promoteOptions flags bc) tar_xz t
                            (Promote.f_channel flags))))
                   (fst (Promote.run sv flags bc))).
    { apply Hrun, in_promoteCalls. right. left. split; [exact Hxz|].
      exists t. split; [exact Ht|]. now left. }
    split.
    + left. exists tar_xz, t. split; [exact Ht|]. split; [right; now split|]. now split.
    + eexists. eexists. split; [exact Hcopy|]. now split.
  - destruct (Hins _ _ H) as [Hix ->]. split; [exact Hix|].
    apply in_darwinArches in Ha. destruct Ha as [t [Ht [Hp <-] ] ].
    assert (Hcopy : In (CopyObject
                      (Promote.awsDefaults flags bc
                         (Promote.cloudBucketCommitKey flags bc
                            (installerName flags bc ".pkg" (arch t)))
                         (Promote.cloudChannelKey flags bc
                            (JS.replace
                               ("-v" ++ Promote.f_version flags ++ "-" ++ Promote.f_sha flags)
                               "" (installerName flags bc ".pkg" (arch t)))))
                      (Promote.copyOptions flags
                         (JS.replace
                            ("-v" ++ Promote.f_version flags ++ "-" ++ Promote.f_sha flags)
                            "" (installerName flags bc ".pkg" (arch t)))))
                   (fst (Promote.run sv flags bc))).
    { apply Hrun, in_promoteCalls. right. right. left. split; [exact Hmac|].
      exists (arch t). split; [|now left].
      apply in_darwinArches. now exists t. }
    split.
    + right. exists t, ".pkg". split; [exact Ht|]. split; [left; now split|]. now split.
    + eexists. eexists. split; [exact Hcopy|]. now split.
  - destruct (Hins _ _ H) as [Hix ->]. split; [exact Hix|].
    pose proof Ha as Ha'. unfold win32Arches in Ha'. apply in_map_iff in Ha'.
    destruct Ha' as [t [<- Ht] ]. apply filter_In in Ht. destruct Ht as [Ht Hp].
    apply String.eqb_eq in Hp.
    assert (Hcopy : In (CopyObject
                      (Promote.awsDefaults flags bc
                         (Promote.cloudBucketCommitKey flags bc
                            (installerName flags bc ".exe" (arch t)))
                         (Promote.cloudChannelKey flags bc
                            (JS.replace
                               ("-v" ++ Promote.f_version flags ++ "-" ++ Promote.f_sha flags)
                               "" (installerName flags bc ".exe" (arch t)))))
                      (Promote.copyOptions flags
                         (JS.replace
                            ("-v" ++ Promote.f_version flags ++ "-" ++ Promote.f_sha flags)
                            "" (installerName flags bc ".exe" (arch t)))))
                   (fst (Promote.run sv flags bc))).
    { apply Hrun, in_promoteCalls. right. right. right. left. split; [exact Hwin|].
      exists (arch t). split; [exact Ha|]. left. now left. }
    split.
    + right. exists t, ".exe". split; [exact Ht|]. split; [right; now split|]. now split.
    + eexists. eexists. split; [exact Hcopy|]. now split.
  - apply in_installerStop in H. destruct H as [H _]. discriminate H.
  - unfold debCopies in H. destruct H as [H | [H | [] ] ]; discriminate H.
Qed.

Lemma index_entries_are_copied_witness :
  exists p c,
    In (CopyObject p c)
      (fst (Promote.run idleServices (promoteFlags false false false false true)
              (testBuild (makeConfig false) "abc1234"
                 (mkS3Config None (Some "bucket") None) [linux_x64] false)))
    /\ cp_CopySource p = "bucket/versions/1.2.3/abc1234/mycli-v1.2.3-abc1234-linux-x64.tar.gz"
    /\ co_namespace c = "mycli-linux-x64.tar.gz".
Proof.
  apply (proj2 (proj2
    (index_entries_are_copied idleServices (promoteFlags false false false false true)
       (testBuild (makeConfig false) "abc1234" (mkS3Config None (Some "bucket") None)
          [linux_x64] false)
       (mkIndexOptions "max-age=86400" (mkS3Config None (Some "bucket") None) "1.2.3"
          false "mycli-linux-x64.tar.gz"
          "bucket/versions/1.2.3/abc1234/mycli-v1.2.3-abc1234-linux-x64.tar.gz")
       ltac:(vm_compute; right; right; right; left; reflexivity)))).
Defined.
